(** * tiankit / tiangong core: event log, reducer and orchestrator tick

    A shallow embedding of [core/protocol.py], [core/state_manager.py],
    [core/reducer.py] and [core/orchestrator.py], with the properties the
    specification states about them. *)

From Stdlib Require Import ZArith Ascii String List Bool Lia Permutation.
From stdpp Require Import base gmap strings list pretty.

Local Open Scope string_scope.
Local Open Scope Z_scope.
Local Set Warnings "-register-all".

(** ** Python values

    Events are [Dict[str, Any]].  The values that reach the code are JSON
    values (the log is read with [json.loads]) and, for a caller of
    [append_event] or [verify_crc32], any other Python object.  [PObject]
    stands for such an object: [json.dumps] rejects it with [TypeError];
    its boolean carries its truth value.  [PIntDict] is a dict whose keys
    are [int]: [json.dumps] accepts it and writes each key as a string.
    Floats and tuples do not occur in the events the core builds and are
    left out, as are dicts that mix key types.  A [str] is represented by
    its UTF-8 bytes, so [encode("utf-8")] is the identity. *)

Inductive pyval : Type :=
| PNone
| PBool (b : bool)
| PInt (z : Z)
| PStr (s : string)
| PList (l : list pyval)
| PDict (d : list (string * pyval))
| PIntDict (d : list (Z * pyval))
| PObject (truth : bool).

(** A Python [dict] with [str] keys: insertion ordered, one entry per key. *)
Definition dict : Type := list (string * pyval).

(** Exceptions the modelled code raises. *)
Inductive exn : Type :=
| NameError (name : string)
| TypeError (msg : string)
| ValueError (msg : string)
| AttributeError (msg : string)
| ZeroDivisionError (msg : string).

Inductive result (A : Type) : Type :=
| Ok (a : A)
| Raise (e : exn).
Arguments Ok {A} a.
Arguments Raise {A} e.

#[global] Instance result_ret : MRet result := fun A a => Ok a.

#[global] Instance result_bind : MBind result := fun A B f m =>
  match m with
  | Ok a => f a
  | Raise e => Raise e
  end.

Module Py.

(** [d.get(k)] *)
Fixpoint get (k : string) (d : dict) : option pyval :=
  match d with
  | [] => None
  | (k', v) :: d' => if String.eqb k k' then Some v else get k d'
  end.

(** [k in d] *)
Definition mem (k : string) (d : dict) : bool :=
  match get k d with Some _ => true | None => false end.

(** [d[k] = v]: an existing entry keeps its position, a new one goes last. *)
Fixpoint set (k : string) (v : pyval) (d : dict) : dict :=
  match d with
  | [] => [(k, v)]
  | (k', v') :: d' =>
      if String.eqb k k' then (k', v) :: d' else (k', v') :: set k v d'
  end.

(** [d.setdefault(k, v)] *)
Definition setdefault (k : string) (v : pyval) (d : dict) : dict :=
  if mem k d then d else set k v d.

(** [bool(v)] *)
Definition truthy (v : pyval) : bool :=
  match v with
  | PNone => false
  | PBool b => b
  | PInt z => negb (z =? 0)
  | PStr s => negb (String.eqb s "")
  | PList l => match l with [] => false | _ => true end
  | PDict d => match d with [] => false | _ => true end
  | PIntDict d => match d with [] => false | _ => true end
  | PObject t => t
  end.

(** Truth value of the result of [d.get(k)], where a missing key gives
    [None]. *)
Definition otruthy (o : option pyval) : bool :=
  match o with Some v => truthy v | None => false end.

(** [int(v)] for the values of a [sequenceNumber] field: an [int] or a
    [bool] converts, [None], lists and dicts raise [TypeError].  A [str]
    is not modelled ([EventBase.sequenceNumber] is [Optional[int]]): the
    code converts a numeral and raises [ValueError] on other text, the
    model reads every [str] as an exception. *)
Definition int (v : pyval) : option Z :=
  match v with
  | PInt z => Some z
  | PBool b => Some (if b then 1 else 0)
  | _ => None
  end.

End Py.

(** ** Stable sorting

    [list.sort] and [sorted] are stable; a stable sort is determined by its
    order, so insertion from the right stands for it. *)

Section Sorting.
Context {A : Type} (le : A -> A -> bool).

Fixpoint sort_insert (x : A) (l : list A) : list A :=
  match l with
  | [] => [x]
  | y :: l' => if le x y then x :: y :: l' else y :: sort_insert x l'
  end.

Fixpoint stable_sort (l : list A) : list A :=
  match l with
  | [] => []
  | x :: l' => sort_insert x (stable_sort l')
  end.
End Sorting.


(** ** Canonical codec ([protocol.py]) *)

Module Codec.

Definition chr (n : Z) : string := String (ascii_of_N (Z.to_N n)) "".

Definition dquote : string := chr 34.
Definition backslash : string := chr 92.

Definition hex_digit (n : Z) : string :=
  chr (if n <? 10 then 48 + n else 55 + n).

Definition hex_digit_lower (n : Z) : string :=
  chr (if n <? 10 then 48 + n else 87 + n).

(** The JSON encoder's replacement of one character ([ESCAPE_DCT] of
    [json.encoder], the table used when [ensure_ascii=False]). *)
Definition escape_char (c : ascii) : string :=
  let n := Z.of_N (N_of_ascii c) in
  if n =? 34 then backslash +:+ dquote
  else if n =? 92 then backslash +:+ backslash
  else if n =? 8 then backslash +:+ "b"
  else if n =? 12 then backslash +:+ "f"
  else if n =? 10 then backslash +:+ "n"
  else if n =? 13 then backslash +:+ "r"
  else if n =? 9 then backslash +:+ "t"
  else if n <? 32 then
    backslash +:+ "u00" +:+ hex_digit_lower (n / 16) +:+ hex_digit_lower (n mod 16)
  else String c "".

Fixpoint escape (s : string) : string :=
  match s with
  | EmptyString => ""
  | String c s' => escape_char c +:+ escape s'
  end.

Definition quote (s : string) : string := dquote +:+ escape s +:+ dquote.

Fixpoint join (sep : string) (l : list string) : string :=
  match l with
  | [] => ""
  | [x] => x
  | x :: l' => x +:+ sep +:+ join sep l'
  end.

Definition key_le (a b : string * string) : bool := String.leb (fst a) (fst b).

Definition render_item (kv : string * string) : string :=
  quote (fst kv) +:+ ":" +:+ snd kv.

(** The same for a dict with [int] keys: the items are sorted as ints and
    each key is written as the string of its decimal spelling. *)
Definition int_key_le (a b : Z * string) : bool := fst a <=? fst b.

Definition render_int_item (kv : Z * string) : string :=
  quote (pretty (fst kv)) +:+ ":" +:+ snd kv.

(** [json.dumps(v, sort_keys=..., separators=(",", ":"),
    ensure_ascii=False)]; [None] when the encoder raises [TypeError].
    The [ValueError] of an [int] beyond the digit limit of the conversion
    to text, and the [UnicodeEncodeError] of a lone surrogate when the text
    is encoded, are not modelled: ints and strings are taken within these
    limits. *)
Fixpoint dumps (sort_keys : bool) (v : pyval) : option string :=
  match v with
  | PNone => Some "null"
  | PBool b => Some (if b then "true" else "false")
  | PInt z => Some (pretty z)
  | PStr s => Some (quote s)
  | PList l =>
      let fix elems (l : list pyval) : option (list string) :=
        match l with
        | [] => Some []
        | x :: l' =>
            match dumps sort_keys x, elems l' with
            | Some s, Some r => Some (s :: r)
            | _, _ => None
            end
        end in
      match elems l with
      | Some ss => Some ("[" +:+ join "," ss +:+ "]")
      | None => None
      end
  | PDict d =>
      let fix items (d : list (string * pyval)) : option (list (string * string)) :=
        match d with
        | [] => Some []
        | (k, x) :: d' =>
            match dumps sort_keys x, items d' with
            | Some s, Some r => Some ((k, s) :: r)
            | _, _ => None
            end
        end in
      match items d with
      | Some kvs =>
          let kvs' := if sort_keys then stable_sort key_le kvs else kvs in
          Some ("{" +:+ join "," (map render_item kvs') +:+ "}")
      | None => None
      end
  | PIntDict d =>
      let fix items (d : list (Z * pyval)) : option (list (Z * string)) :=
        match d with
        | [] => Some []
        | (k, x) :: d' =>
            match dumps sort_keys x, items d' with
            | Some s, Some r => Some ((k, s) :: r)
            | _, _ => None
            end
        end in
      match items d with
      | Some kvs =>
          let kvs' := if sort_keys then stable_sort int_key_le kvs else kvs in
          Some ("{" +:+ join "," (map render_int_item kvs') +:+ "}")
      | None => None
      end
  | PObject _ => None
  end.

(** [json.loads(json.dumps(v))]: the value read back from the text written
    for [v].  The keys of a dict come back as [str], in the order written. *)
Fixpoint reload (v : pyval) : pyval :=
  match v with
  | PList l => PList (map reload l)
  | PDict d => PDict (map (fun kv => (fst kv, reload (snd kv))) d)
  | PIntDict d => PDict (map (fun kv => (pretty (fst kv), reload (snd kv))) d)
  | _ => v
  end.

Definition reload_dict (d : dict) : dict :=
  map (fun kv => (fst kv, reload (snd kv))) d.

(** [canonical_json]: the event with [crc32] forced to the empty string. *)
Definition canonical_json (event : dict) : option string :=
  dumps true (PDict (Py.set "crc32" (PStr "") event)).

Definition bytes_of (s : string) : list Z :=
  map (fun c => Z.of_N (N_of_ascii c)) (list_ascii_of_string s).

Definition canonical_json_bytes (event : dict) : option (list Z) :=
  match canonical_json event with
  | Some s => Some (bytes_of s)
  | None => None
  end.

(** [zlib.crc32]: CRC-32 (IEEE 802.3), reflected polynomial [0xEDB88320]. *)
Definition crc_bit (crc : Z) : Z :=
  if Z.testbit crc 0 then Z.lxor (Z.shiftr crc 1) 0xEDB88320
  else Z.shiftr crc 1.

Definition crc_byte (crc b : Z) : Z :=
  Nat.iter 8 crc_bit (Z.lxor crc b).

Definition zlib_crc32 (data : list Z) : Z :=
  Z.lxor (fold_left crc_byte data 0xFFFFFFFF) 0xFFFFFFFF.

(** [f"{crc:08X}"] for [0 <= crc < 2^32]. *)
Definition format_08X (crc : Z) : string :=
  fold_right (fun i acc => hex_digit (Z.land (Z.shiftr crc (4 * i)) 15) +:+ acc)
             "" [7; 6; 5; 4; 3; 2; 1; 0].

Definition compute_crc32 (event : dict) : option string :=
  match canonical_json_bytes event with
  | Some bs => Some (format_08X (Z.land (zlib_crc32 bs) 0xFFFFFFFF))
  | None => None
  end.

(** [crc == s] for a Python value against a [str]. *)
Definition eq_str (v : pyval) (s : string) : bool :=
  match v with
  | PStr s' => String.eqb s' s
  | _ => false
  end.

Definition verify_crc32 (event : dict) : bool :=
  match Py.get "crc32" event with
  | None => false
  | Some crc =>
      if negb (Py.truthy crc) then false
      else match compute_crc32 event with
           | Some s => eq_str crc s
           | None => false   (* except Exception: return False *)
           end
  end.

End Codec.

(** ** The project directory and its environment

    [audit/events.ndjson] is a list of lines.  A line is its text together
    with what [json.loads] makes of it: a dict, or a decode error with its
    message.  For the lines the state manager writes that is the record
    read back ([Codec.reload_dict]); a line that holds a JSON value other
    than an object, on which [verify_crc32] raises [AttributeError] outside
    the [try] of [read_events], is outside the model.  [derived/idempotency-index.json] and [derived/sequence.json]
    are [None] when the file is missing or unreadable. *)

Inductive parsed : Type :=
| Decoded (d : dict)
| DecodeError (msg : string).

Record line : Type := { raw : string; loads : parsed }.

Record store : Type := {
  events_ndjson : list line;
  idempotency_index : option (gmap string Z);
  sequence_json : option Z;
}.

Definition fresh_project : store :=
  {| events_ndjson := []; idempotency_index := None; sequence_json := None |}.

(** The process state: the files, and what the next calls of
    [uuid.uuid4().hex], [ids.run_id] and [datetime.now(timezone.utc)]
    (microseconds since the epoch) will return. *)
Record world : Type := {
  files : store;
  uuid4_hex : nat -> string;
  uuid_v7 : nat -> string;
  clock : nat -> Z;
  calls : nat;
}.

Definition M (A : Type) : Type := world -> result A * world.

#[global] Instance M_ret : MRet M := fun A a w => (Ok a, w).

#[global] Instance M_bind : MBind M := fun A B f m w =>
  match m w with
  | (Ok a, w') => f a w'
  | (Raise e, w') => (Raise e, w')
  end.

Definition raise {A} (e : exn) : M A := fun w => (Raise e, w).

Definition get_files : M store := fun w => (Ok (files w), w).

Definition put_files (s : store) : M unit := fun w =>
  (Ok tt, {| files := s; uuid4_hex := uuid4_hex w; uuid_v7 := uuid_v7 w;
             clock := clock w; calls := calls w |}).

Definition bump (w : world) : world :=
  {| files := files w; uuid4_hex := uuid4_hex w; uuid_v7 := uuid_v7 w;
     clock := clock w; calls := S (calls w) |}.

Definition call_uuid4_hex : M string := fun w => (Ok (uuid4_hex w (calls w)), bump w).
Definition call_run_id (prefix : string) : M string := fun w =>
  (Ok (prefix +:+ "-" +:+ uuid_v7 w (calls w)), bump w).
Definition call_now : M Z := fun w => (Ok (clock w (calls w)), bump w).

(** Iterating a loop body over a list, stopping at the first exception. *)
Fixpoint for_each {A} (body : A -> M unit) (l : list A) : M unit :=
  match l with
  | [] => mret tt
  | x :: l' => _ ← body x; for_each body l'
  end.

(** Library functions the code calls with the format [ISO_FORMAT]
    ([datetime.strftime], [datetime.strptime], giving microseconds since the
    epoch or failing) and [hashlib.sha256(...).hexdigest()]. *)
Record pylib : Type := {
  strftime_iso : Z -> string;
  strptime_iso : string -> option Z;
  sha256_hex : string -> string;
}.

(** ** State manager ([state_manager.py])

    One process is modelled: the advisory lock is always granted, so the
    [LockTimeout] handler does not run.  [append_event] writes the line,
    the index and [sequence.json] in this order; the model writes them in
    one step, since between the writes the code raises only when
    [json.dump] rejects the index, and that needs a key that can be hashed
    and encoded as a value but not as an object key (a tuple), which is not
    a value of [pyval]. *)

Module StateManager.
Section WithLib.
Context (lib : pylib).

Definition utc_now : M string :=
  t ← call_now; mret (strftime_iso lib t).

Definition _load_idempotency_index (s : store) : gmap string Z :=
  match idempotency_index s with
  | Some keys => keys
  | None => ∅
  end.

Definition is_space (c : ascii) : bool :=
  let n := Z.of_N (N_of_ascii c) in
  (n =? 32) || ((9 <=? n) && (n <=? 13)).

Fixpoint is_blank (s : string) : bool :=
  match s with
  | EmptyString => true
  | String c s' => is_space c && is_blank s'
  end.

(** Bytes of the file: each line is followed by a line feed. *)
Definition file_size (ls : list line) : Z :=
  fold_right (fun l n => Z.of_nat (String.length (raw l)) + 1 + n) 0 ls.

(** The last non-blank line, with the number of bytes from its first byte
    to the end of the file. *)
Fixpoint last_nonblank (ls : list line) : option (line * Z) :=
  match ls with
  | [] => None
  | l :: ls' =>
      match last_nonblank ls' with
      | Some r => Some r
      | None => if is_blank (raw l) then None else Some (l, file_size (l :: ls'))
      end
  end.

(** [_read_last_sequence].  The fallback reads the last 4096 bytes of the
    log (the file ends with a line feed, so the loop stops after one
    chunk); the text of a line cut by that window is taken not to parse. *)
Definition _read_last_sequence (s : store) : Z :=
  match sequence_json s with
  | Some n => n
  | None =>
      match last_nonblank (events_ndjson s) with
      | None => 0
      | Some (l, tail) =>
          if tail <=? 4096 then
            match loads l with
            | Decoded last =>
                match Py.get "sequenceNumber" last with
                | None => 0
                | Some v => match Py.int v with Some n => n | None => 0 end
                end
            | DecodeError _ => 0
            end
          else 0
      end
  end.

(** [key in keys] for the keys of the index, which are [str]: another
    hashable value is never found, a list or a dict is unhashable. *)
Definition key_in (key : pyval) (keys : gmap string Z) : result bool :=
  match key with
  | PStr k => Ok (bool_decide (is_Some (keys !! k)))
  | PList _ | PDict _ | PIntDict _ => Raise (TypeError "unhashable type")
  | _ => Ok false
  end.

(** The object key [json.dump] writes for [keys[key]]. *)
Definition index_key (key : pyval) : string :=
  match key with
  | PStr k => k
  | PInt z => pretty z
  | PBool b => if b then "true" else "false"
  | _ => "null"
  end.

Inductive append_result : Type :=
| Appended (event : dict)
| Deduped.

Definition append_event (event : dict) : M append_result :=
  match Py.get "idempotencyKey" event with
  | None => raise (ValueError "idempotencyKey is required")
  | Some key =>
      s ← get_files;
      let keys := _load_idempotency_index s in
      match key_in key keys with
      | Raise e => raise e
      | Ok true => mret Deduped
      | Ok false =>
          let seq := _read_last_sequence s + 1 in
          uid ← call_uuid4_hex;
          let event := Py.setdefault "eventId" (PStr ("e-" +:+ uid)) event in
          let event := Py.setdefault "schemaVersion" (PInt 1) event in
          let event := Py.setdefault "sequenceNumber" (PInt seq) event in
          now ← utc_now;
          let event := Py.setdefault "at" (PStr now) event in
          match Codec.compute_crc32 event with
          | None => raise (TypeError "Object is not JSON serializable")
          | Some crc =>
              let event := Py.set "crc32" (PStr crc) event in
              match Codec.dumps false (PDict event) with
              | None => raise (TypeError "Object is not JSON serializable")
              | Some text =>
                  _ ← put_files
                    {| events_ndjson :=
                         events_ndjson s
                         ++ [{| raw := text;
                                loads := Decoded (Codec.reload_dict event) |}];
                       idempotency_index := Some (<[index_key key := seq]> keys);
                       sequence_json := Some seq |};
                  mret (Appended event)
              end
          end
      end
  end.

End WithLib.
End StateManager.

(** ** Timestamps

    [ISO_FORMAT = "%Y-%m-%dT%H:%M:%S.%fZ"].  [Iso.strftime] writes the
    fixed-width text [datetime.strftime] writes for years 1000 to 9999, and
    [Iso.strptime] reads that form back; the shorter spellings
    [datetime.strptime] also accepts (one-digit month, fewer fraction
    digits) are not read.  Days are counted in the proleptic Gregorian
    calendar. *)

Module Iso.

Definition days_from_civil (y m d : Z) : Z :=
  let y' := if m <=? 2 then y - 1 else y in
  let era := y' / 400 in
  let yoe := y' - era * 400 in
  let doy := (153 * (if 2 <? m then m - 3 else m + 9) + 2) / 5 + d - 1 in
  let doe := yoe * 365 + yoe / 4 - yoe / 100 + doy in
  era * 146097 + doe - 719468.

Definition civil_from_days (z : Z) : Z * Z * Z :=
  let z := z + 719468 in
  let era := z / 146097 in
  let doe := z - era * 146097 in
  let yoe := (doe - doe / 1460 + doe / 36524 - doe / 146096) / 365 in
  let doy := doe - (365 * yoe + yoe / 4 - yoe / 100) in
  let mp := (5 * doy + 2) / 153 in
  let d := doy - (153 * mp + 2) / 5 + 1 in
  let m := if mp <? 10 then mp + 3 else mp - 9 in
  ((if m <=? 2 then yoe + era * 400 + 1 else yoe + era * 400), m, d).

Definition digit (n : Z) : string := Codec.chr (48 + n mod 10).

(** [n] in [width] decimal digits, zero padded. *)
Fixpoint digits (width : nat) (n : Z) : string :=
  match width with
  | O => ""
  | S w => digits w (n / 10) +:+ digit n
  end.

Definition strftime (t : Z) : string :=
  let day := t / 86400000000 in
  let us := t mod 86400000000 in
  let '(y, m, d) := civil_from_days day in
  digits 4 y +:+ "-" +:+ digits 2 m +:+ "-" +:+ digits 2 d +:+ "T" +:+
  digits 2 (us / 3600000000) +:+ ":" +:+ digits 2 (us / 60000000 mod 60) +:+ ":" +:+
  digits 2 (us / 1000000 mod 60) +:+ "." +:+ digits 6 (us mod 1000000) +:+ "Z".

Definition digit_val (c : ascii) : option Z :=
  let n := Z.of_N (N_of_ascii c) in
  if (48 <=? n) && (n <=? 57) then Some (n - 48) else None.

(** Reads [width] decimal digits off the front of [s]. *)
Fixpoint read_digits (width : nat) (acc : Z) (s : string) : option (Z * string) :=
  match width with
  | O => Some (acc, s)
  | S w =>
      match s with
      | String c s' =>
          match digit_val c with
          | Some v => read_digits w (10 * acc + v) s'
          | None => None
          end
      | EmptyString => None
      end
  end.

Definition read_char (c : string) (s : string) : option string :=
  match s with
  | String a s' => if String.eqb (String a "") c then Some s' else None
  | EmptyString => None
  end.

Definition is_leap (y : Z) : bool :=
  ((y mod 4 =? 0) && negb (y mod 100 =? 0)) || (y mod 400 =? 0).

Definition days_in_month (y m : Z) : Z :=
  if m =? 2 then (if is_leap y then 29 else 28)
  else if (m =? 4) || (m =? 6) || (m =? 9) || (m =? 11) then 30 else 31.

Definition strptime (s : string) : option Z :=
  '(y, s) ← read_digits 4 0 s; s ← read_char "-" s;
  '(m, s) ← read_digits 2 0 s; s ← read_char "-" s;
  '(d, s) ← read_digits 2 0 s; s ← read_char "T" s;
  '(hh, s) ← read_digits 2 0 s; s ← read_char ":" s;
  '(mm, s) ← read_digits 2 0 s; s ← read_char ":" s;
  '(ss, s) ← read_digits 2 0 s; s ← read_char "." s;
  '(us, s) ← read_digits 6 0 s; s ← read_char "Z" s;
  if String.eqb s "" && (1 <=? y) && (1 <=? m) && (m <=? 12) && (1 <=? d)
     && (d <=? days_in_month y m) && (hh <? 24) && (mm <? 60) && (ss <? 60)
  then Some ((days_from_civil y m d * 86400 + hh * 3600 + mm * 60 + ss) * 1000000 + us)
  else None.

End Iso.

(** ** SHA-256 ([hashlib.sha256(...).hexdigest()], FIPS 180-4) *)

Module Sha256.

Definition mask32 (x : Z) : Z := Z.land x 0xFFFFFFFF.
Definition rotr (n x : Z) : Z :=
  Z.lor (Z.shiftr x n) (mask32 (Z.shiftl x (32 - n))).

(** The first 64 primes, by trial division. *)
Definition is_prime (n : Z) : bool :=
  forallb (fun d => negb (n mod d =? 0) || (n <=? d)) (seqZ 2 (Z.sqrt n)).

Definition primes : list Z := List.filter is_prime (seqZ 2 310).

(** Integer cube root of [n < 2^105], bit by bit. *)
Definition icbrt (n : Z) : Z :=
  fold_left (fun r b => let r' := r + 2 ^ b in if r' * r' * r' <=? n then r' else r)
            (rev (seqZ 0 35)) 0.

(** Round constants: the first 32 bits of the fractional parts of the cube
    roots of the primes. *)
Definition K : list Z := map (fun p => mask32 (icbrt (p * 2 ^ 96))) primes.

(** Initial hash value: the same of the square roots of the first 8 primes. *)
Definition H0 : list Z := map (fun p => mask32 (Z.sqrt (p * 2 ^ 64))) (firstn 8 primes).

Definition nth_word (i : nat) (l : list Z) : Z := nth i l 0.

(** Message padding: a [0x80] byte, zeros, and the bit length in 64 bits. *)
Definition pad (msg : list Z) : list Z :=
  let len := Z.of_nat (length msg) in
  let zeros := Z.to_nat ((55 - len) mod 64) in
  (msg ++ [128] ++ repeat 0 zeros ++
   map (fun i => Z.land (Z.shiftr (8 * len) (8 * i)) 255) [7; 6; 5; 4; 3; 2; 1; 0])%list.

Definition word_of (b : list Z) : Z :=
  fold_left (fun acc x => acc * 256 + x) b 0.

Fixpoint words (n : nat) (b : list Z) : list Z :=
  match n with
  | O => []
  | S n' => word_of (firstn 4 b) :: words n' (skipn 4 b)
  end.

(** The message schedule, newest word first. *)
Fixpoint schedule (n : nat) (w : list Z) : list Z :=
  match n with
  | O => w
  | S n' =>
      let w2 := nth_word 1 w in
      let w7 := nth_word 6 w in
      let w15 := nth_word 14 w in
      let w16 := nth_word 15 w in
      let s0 := Z.lxor (Z.lxor (rotr 7 w15) (rotr 18 w15)) (Z.shiftr w15 3) in
      let s1 := Z.lxor (Z.lxor (rotr 17 w2) (rotr 19 w2)) (Z.shiftr w2 10) in
      schedule n' (mask32 (w16 + s0 + w7 + s1) :: w)
  end.

Definition round (st : list Z) (kw : Z * Z) : list Z :=
  match st with
  | [a; b; c; d; e; f; g; h] =>
      let S1 := Z.lxor (Z.lxor (rotr 6 e) (rotr 11 e)) (rotr 25 e) in
      let ch := Z.lxor (Z.land e f) (Z.land (Z.lxor e 0xFFFFFFFF) g) in
      let t1 := mask32 (h + S1 + ch + fst kw + snd kw) in
      let S0 := Z.lxor (Z.lxor (rotr 2 a) (rotr 13 a)) (rotr 22 a) in
      let maj := Z.lxor (Z.lxor (Z.land a b) (Z.land a c)) (Z.land b c) in
      let t2 := mask32 (S0 + maj) in
      [mask32 (t1 + t2); a; b; c; mask32 (d + t1); e; f; g]
  | _ => st
  end.

Definition compress (h : list Z) (block : list Z) : list Z :=
  let w := rev (schedule 48 (rev (words 16 block))) in
  let st := fold_left round (combine K w) h in
  map (fun p => mask32 (fst p + snd p)) (combine h st).

Fixpoint blocks (n : nat) (h : list Z) (b : list Z) : list Z :=
  match n with
  | O => h
  | S n' => blocks n' (compress h (firstn 64 b)) (skipn 64 b)
  end.

Definition digest (msg : list Z) : list Z :=
  let p := pad msg in
  blocks (Nat.div (length p) 64) H0 p.

Definition hex32 (x : Z) : string :=
  fold_right (fun i acc => Codec.hex_digit_lower (Z.land (Z.shiftr x (4 * i)) 15) +:+ acc)
             "" [7; 6; 5; 4; 3; 2; 1; 0].

Definition hexdigest (s : string) : string :=
  fold_right (fun x acc => hex32 x +:+ acc) "" (digest (Codec.bytes_of s)).

End Sha256.

(** The library functions as the code calls them (see [Iso] for the forms
    of a timestamp that are read). *)
Definition py_lib : pylib :=
  {| strftime_iso := Iso.strftime;
     strptime_iso := Iso.strptime;
     sha256_hex := Sha256.hexdigest |}.


From Stdlib Require Import Sorted.

(** [TaskState] has a field named [result]; inside the reducer the outcome
    of a call goes by this name. *)
Definition outcome (A : Type) : Type := result A.

(** ** Reducer ([reducer.py])

    The reducer reads the fields of an event with [get].  [EventBase]
    declares [type], [eventId], [project], [taskId], [runId], [at] and
    [idempotencyKey] as [str] (or absent) and [payload] as a dict; the model
    reads them by that typing: a field holding a value of another type is
    read as absent.  On such an event the code works on the raw value (a
    truthy key of any hashable type is deduplicated, a task id of any type
    names a task, [int] converts a numeral held in a [str], ids of
    different types may not compare, [get] fails on a payload or a spec
    that is not a dict), so what is proved of the status reduced from a
    given log is stated for logs that keep to the typing. *)

Module Reducer.

Definition get_str (k : string) (event : dict) : option string :=
  match Py.get k event with
  | Some (PStr s) => Some s
  | _ => None
  end.

(** Truth value of an optional [str]: [None] and the empty string are false. *)
Definition nonempty (o : option string) : bool :=
  match o with
  | Some s => negb (String.eqb s "")
  | None => false
  end.

(** [event.get("payload", {}) or {}] *)
Definition payload_of (event : dict) : dict :=
  match Py.get "payload" event with
  | Some (PDict d) => d
  | _ => []
  end.

(** [etype == name] *)
Definition is_type (etype : option string) (name : string) : bool :=
  match etype with
  | Some t => String.eqb t name
  | None => false
  end.

(** [v == s] for the result of a [get]. *)
Definition is_str (v : option pyval) (s : string) : bool :=
  match v with
  | Some x => Codec.eq_str x s
  | None => false
  end.

(** An optional [str] as a Python value. *)
Definition of_opt (o : option string) : pyval :=
  match o with
  | Some s => PStr s
  | None => PNone
  end.

Definition of_get (o : option pyval) : pyval :=
  match o with
  | Some v => v
  | None => PNone
  end.

(** [{**base, **d}]: the entries of [d] written over [base]. *)
Definition update (base d : dict) : dict :=
  fold_left (fun acc kv => Py.set (fst kv) (snd kv) acc) d base.

Record RunStatus : Type := {
  started : bool;
  completed : bool;
  verdict : option pyval;
  aborted : bool;
  failed : bool;
}.

Definition new_run_status : RunStatus :=
  {| started := false; completed := false; verdict := None;
     aborted := false; failed := false |}.

Record TaskState : Type := {
  task_id : string;
  state : string;
  gates : gset string;
  run_id : option string;
  run_status : RunStatus;
  skill_decision : dict;
  policy_tier : option pyval;
  last_evidence : dict;
  last_verdict : dict;
  result : dict;
  task_spec : pyval;
}.

Definition new_task (tid : string) : TaskState :=
  {| task_id := tid; state := "pending"; gates := ∅; run_id := None;
     run_status := new_run_status; skill_decision := []; policy_tier := None;
     last_evidence := []; last_verdict := []; result := []; task_spec := PDict [] |}.

Definition set_state (s : string) (t : TaskState) : TaskState :=
  {| task_id := task_id t; state := s; gates := gates t; run_id := run_id t;
     run_status := run_status t; skill_decision := skill_decision t;
     policy_tier := policy_tier t; last_evidence := last_evidence t;
     last_verdict := last_verdict t; result := result t; task_spec := task_spec t |}.

Definition set_gates (g : gset string) (t : TaskState) : TaskState :=
  {| task_id := task_id t; state := state t; gates := g; run_id := run_id t;
     run_status := run_status t; skill_decision := skill_decision t;
     policy_tier := policy_tier t; last_evidence := last_evidence t;
     last_verdict := last_verdict t; result := result t; task_spec := task_spec t |}.

Definition set_run_id (r : option string) (t : TaskState) : TaskState :=
  {| task_id := task_id t; state := state t; gates := gates t; run_id := r;
     run_status := run_status t; skill_decision := skill_decision t;
     policy_tier := policy_tier t; last_evidence := last_evidence t;
     last_verdict := last_verdict t; result := result t; task_spec := task_spec t |}.

Definition set_run_status (rs : RunStatus) (t : TaskState) : TaskState :=
  {| task_id := task_id t; state := state t; gates := gates t; run_id := run_id t;
     run_status := rs; skill_decision := skill_decision t;
     policy_tier := policy_tier t; last_evidence := last_evidence t;
     last_verdict := last_verdict t; result := result t; task_spec := task_spec t |}.

Definition set_skill_decision (d : dict) (t : TaskState) : TaskState :=
  {| task_id := task_id t; state := state t; gates := gates t; run_id := run_id t;
     run_status := run_status t; skill_decision := d;
     policy_tier := policy_tier t; last_evidence := last_evidence t;
     last_verdict := last_verdict t; result := result t; task_spec := task_spec t |}.

Definition set_policy_tier (p : option pyval) (t : TaskState) : TaskState :=
  {| task_id := task_id t; state := state t; gates := gates t; run_id := run_id t;
     run_status := run_status t; skill_decision := skill_decision t;
     policy_tier := p; last_evidence := last_evidence t;
     last_verdict := last_verdict t; result := result t; task_spec := task_spec t |}.

Definition set_last_evidence (d : dict) (t : TaskState) : TaskState :=
  {| task_id := task_id t; state := state t; gates := gates t; run_id := run_id t;
     run_status := run_status t; skill_decision := skill_decision t;
     policy_tier := policy_tier t; last_evidence := d;
     last_verdict := last_verdict t; result := result t; task_spec := task_spec t |}.

Definition set_last_verdict (d : dict) (t : TaskState) : TaskState :=
  {| task_id := task_id t; state := state t; gates := gates t; run_id := run_id t;
     run_status := run_status t; skill_decision := skill_decision t;
     policy_tier := policy_tier t; last_evidence := last_evidence t;
     last_verdict := d; result := result t; task_spec := task_spec t |}.

Definition set_result (d : dict) (t : TaskState) : TaskState :=
  {| task_id := task_id t; state := state t; gates := gates t; run_id := run_id t;
     run_status := run_status t; skill_decision := skill_decision t;
     policy_tier := policy_tier t; last_evidence := last_evidence t;
     last_verdict := last_verdict t; result := d; task_spec := task_spec t |}.

Definition set_task_spec (v : pyval) (t : TaskState) : TaskState :=
  {| task_id := task_id t; state := state t; gates := gates t; run_id := run_id t;
     run_status := run_status t; skill_decision := skill_decision t;
     policy_tier := policy_tier t; last_evidence := last_evidence t;
     last_verdict := last_verdict t; result := result t; task_spec := v |}.

(** [apply_gate] *)
Definition apply_gate (t : TaskState) (gate : string) (add : bool) : TaskState :=
  set_gates (if add then {[gate]} ∪ gates t else gates t ∖ {[gate]}) t.

(** [recompute_state]: priority blocked > canceled > done. *)
Definition recompute_state (t : TaskState) : TaskState :=
  let v := verdict (run_status t) in
  if is_str v "BLOCK" || failed (run_status t) then
    set_gates ∅ (set_state "blocked" t)
  else if aborted (run_status t) then
    set_gates ∅ (set_state "canceled" t)
  else if completed (run_status t) && is_str v "PASS" then
    set_gates ∅
      (set_result (update [("quality", PStr "clean")] (result t)) (set_state "done" t))
  else t.

(** The state of the fold: the local variables of [reduce_events] and the
    parts of [status] the loop writes. *)
Record project_state : Type := {
  name : string;
  phase : string;
  halted : bool;
  mode : string;
  degradedReason : option string;
  locks_project_running : bool;
}.

Record watchdog_state : Type := {
  lastHeartbeatAt : pyval;
  wstate : string;
}.

Record fold_state : Type := {
  seen_keys : gset string;
  project_name : option string;
  project : project_state;
  watchdog : watchdog_state;
  risks : list pyval;
  alerts : list pyval;
  tasks : list (string * TaskState);
  open_runs : list (string * list (option string));
}.

(** [build_base_status("unknown")] and the empty local variables. *)
Definition initial_state : fold_state :=
  {| seen_keys := ∅; project_name := None;
     project := {| name := "unknown"; phase := "running"; halted := false;
                   mode := "normal"; degradedReason := None;
                   locks_project_running := false |};
     watchdog := {| lastHeartbeatAt := PNone; wstate := "healthy" |};
     risks := []; alerts := []; tasks := []; open_runs := [] |}.

(** Insertion-ordered dicts keyed by [str]. *)
Fixpoint lookup {V} (k : string) (l : list (string * V)) : option V :=
  match l with
  | [] => None
  | (k', v) :: l' => if String.eqb k k' then Some v else lookup k l'
  end.

Fixpoint put {V} (k : string) (v : V) (l : list (string * V)) : list (string * V) :=
  match l with
  | [] => [(k, v)]
  | (k', v') :: l' => if String.eqb k k' then (k', v) :: l' else (k', v') :: put k v l'
  end.

Fixpoint remove {V} (k : string) (l : list (string * V)) : list (string * V) :=
  match l with
  | [] => []
  | (k', v') :: l' => if String.eqb k k' then l' else (k', v') :: remove k l'
  end.

(** [get_task]: the task, created when it is not there yet. *)
Definition get_task (tid : string) (ts : list (string * TaskState))
  : TaskState * list (string * TaskState) :=
  match lookup tid ts with
  | Some t => (t, ts)
  | None => (new_task tid, put tid (new_task tid) ts)
  end.

Definition run_bound_types : list string :=
  ["WORKER_RUN_STARTED"; "WORKER_RUN_COMPLETED"; "WORKER_RUN_FAILED";
   "WORKER_RUN_ABORTED"; "EVIDENCE_SUBMITTED"; "WATCHDOG_VERDICT"; "HUMAN_VERDICT"].

Definition is_run_bound (etype : option string) : bool :=
  existsb (is_type etype) run_bound_types.

(** The guard of the reducer: a run-bound event whose [runId] is not the one
    bound to its task. *)
Definition stray (etype : option string) (t : TaskState) (rid : option string) : bool :=
  is_run_bound etype && nonempty (run_id t) && nonempty rid
  && negb (bool_decide (rid = run_id t)).

Definition project_step (etype : option string) (pname : string) (p : project_state)
  : project_state :=
  let p := {| name := pname; phase := phase p; halted := halted p; mode := mode p;
              degradedReason := degradedReason p;
              locks_project_running := locks_project_running p |} in
  if is_type etype "TEAM_CREATED" then p
  else if is_type etype "PROJECT_STARTED" then
    {| name := name p; phase := "running"; halted := halted p; mode := mode p;
       degradedReason := degradedReason p; locks_project_running := true |}
  else if is_type etype "PROJECT_FINISHED" then
    {| name := name p; phase := "finished"; halted := false; mode := mode p;
       degradedReason := degradedReason p; locks_project_running := false |}
  else if is_type etype "PROJECT_HALTED" then
    {| name := name p; phase := "halted"; halted := true; mode := mode p;
       degradedReason := degradedReason p; locks_project_running := false |}
  else if is_type etype "PROJECT_RESUMED" then
    {| name := name p; phase := "running"; halted := false; mode := mode p;
       degradedReason := degradedReason p; locks_project_running := true |}
  else if is_type etype "PROJECT_MODE_RESTORED" then
    {| name := name p; phase := phase p; halted := halted p; mode := "normal";
       degradedReason := None; locks_project_running := locks_project_running p |}
  else if is_type etype "WATCHDOG_UNRESPONSIVE" then
    {| name := name p; phase := phase p; halted := halted p; mode := "degraded";
       degradedReason := Some "watchdog_unresponsive";
       locks_project_running := locks_project_running p |}
  else if is_type etype "VERDICT_TIMEOUT" then
    {| name := name p; phase := phase p; halted := halted p; mode := "degraded";
       degradedReason := Some "verdict_timeout";
       locks_project_running := locks_project_running p |}
  else if is_type etype "RECOVERY_STARTED" then
    {| name := name p; phase := phase p; halted := halted p; mode := "degraded";
       degradedReason := Some "recovery_in_progress";
       locks_project_running := locks_project_running p |}
  else p.

Definition watchdog_step (etype : option string) (event : dict) (w : watchdog_state)
  : watchdog_state :=
  if is_type etype "WATCHDOG_HEARTBEAT" then
    {| lastHeartbeatAt := of_get (Py.get "at" event); wstate := "healthy" |}
  else if is_type etype "WATCHDOG_UNRESPONSIVE" then
    {| lastHeartbeatAt := lastHeartbeatAt w; wstate := "unresponsive" |}
  else w.

Definition telemetry_types : list string :=
  ["MESSAGE_IGNORED"; "WATCHDOG_UNRESPONSIVE"; "VERDICT_TIMEOUT";
   "LOCK_TIMEOUT_DETECTED"; "CORRUPTED_LINE_DETECTED"].

Definition telemetry_step (etype : option string) (event : dict) (rs : list pyval)
  : list pyval :=
  if existsb (is_type etype) telemetry_types then
    (rs ++ [PDict [("type", of_opt etype); ("eventId", of_get (Py.get "eventId" event));
                   ("payload", PDict (payload_of event))]])%list
  else rs.

Definition with_started (rs : RunStatus) : RunStatus :=
  {| started := true; completed := completed rs; verdict := verdict rs;
     aborted := aborted rs; failed := failed rs |}.

Definition with_completed (rs : RunStatus) : RunStatus :=
  {| started := started rs; completed := true; verdict := verdict rs;
     aborted := aborted rs; failed := failed rs |}.

Definition with_failed (rs : RunStatus) : RunStatus :=
  {| started := started rs; completed := completed rs; verdict := verdict rs;
     aborted := aborted rs; failed := true |}.

Definition with_aborted (rs : RunStatus) : RunStatus :=
  {| started := started rs; completed := completed rs; verdict := verdict rs;
     aborted := true; failed := failed rs |}.

Definition with_verdict (v : option pyval) (rs : RunStatus) : RunStatus :=
  {| started := started rs; completed := completed rs; verdict := v;
     aborted := aborted rs; failed := failed rs |}.

(** [a or b] on the results of [get]. *)
Definition or_else (a b : option pyval) : option pyval :=
  if Py.otruthy a then a else b.

(** One spec of [payload["tasks"]] in [TASKSPEC_PUBLISHED].  The specs are
    [TaskSpec.to_dict()] values, a list of dicts; the loop is modelled on
    lists of dicts; an entry of another shape, on which [spec.get] raises
    [AttributeError] in the code, is passed over. *)
Definition publish_spec (task_id : string) (ts : list (string * TaskState)) (spec : pyval)
  : list (string * TaskState) :=
  match spec with
  | PDict d =>
      let tid := match get_str "taskId" d with
                 | Some s => if String.eqb s "" then task_id else s
                 | None => task_id
                 end in
      let '(t, ts) := get_task tid ts in
      put tid (set_task_spec spec
                 (apply_gate (set_state "pending" t) "awaiting_skill_decision" true)) ts
  | _ => ts
  end.

(** The branches of the event chain that write the event's own task only. *)
Definition own_task_step (etype : option string) (rid : option string) (payload : dict)
  (t : TaskState) : TaskState :=
  if is_type etype "TASK_SKILL_SET" then
    set_skill_decision
      [("chosenSkill", of_get (Py.get "chosenSkill" payload));
       ("decisionSeq", of_get (Py.get "decisionSeq" payload))]
      (apply_gate t "awaiting_skill_decision" false)
  else if is_type etype "POLICY_TIER_REQUESTED" then
    apply_gate t "awaiting_policy_approval" true
  else if is_type etype "POLICY_TIER_APPROVED" then
    set_policy_tier (Py.get "tier" payload) (apply_gate t "awaiting_policy_approval" false)
  else if is_type etype "VERDICT_TIMEOUT" then
    apply_gate t "needs_human_review" true
  else if is_type etype "WORKER_RUN_STARTED" then
    set_run_status (with_started (run_status t)) (set_run_id rid (set_state "running" t))
  else if is_type etype "WORKER_RUN_COMPLETED" then
    recompute_state (set_run_id rid (set_run_status (with_completed (run_status t)) t))
  else if is_type etype "WORKER_RUN_FAILED" then
    let t := set_run_id rid (set_run_status (with_failed (run_status t)) t) in
    let reason := or_else (or_else (Py.get "reason" payload) (Py.get "error" payload))
                          (Py.get "message" payload) in
    let t := if Py.otruthy reason
             then set_result (update [("failureReason", of_get reason)] (result t)) t
             else t in
    recompute_state t
  else if is_type etype "WORKER_RUN_ABORTED" then
    recompute_state (set_run_id rid (set_run_status (with_aborted (run_status t)) t))
  else if is_type etype "EVIDENCE_SUBMITTED" then
    set_last_evidence payload (apply_gate t "awaiting_verdict" true)
  else if is_type etype "HUMAN_VERDICT" then
    let v := Py.get "verdict" payload in
    let t := set_last_verdict payload (set_run_status (with_verdict v (run_status t)) t) in
    let t := if is_str v "PASS" then
               set_result (update [("quality", PStr "warn_override")] (result t))
                          (apply_gate t "needs_human_review" false)
             else if is_str v "BLOCK" then set_gates ∅ (set_state "blocked" t)
             else t in
    recompute_state t
  else t.

(** The part of the loop body after [if not task_id: continue], on the
    alerts, the tasks and the open runs. *)
Definition task_step (etype : option string) (rid : option string) (payload : dict)
  (tid : string)
  (s : list pyval * list (string * TaskState) * list (string * list (option string)))
  : list pyval * list (string * TaskState) * list (string * list (option string)) :=
  let '(alerts, ts, runs) := s in
  let '(t, ts) := get_task tid ts in
  if stray etype t rid then (alerts, ts, runs)
  else if is_type etype "TASKSPEC_PUBLISHED" then
    match Py.get "tasks" payload with
    | Some (PList (spec :: specs)) =>
        (alerts, fold_left (publish_spec tid) (spec :: specs) ts, runs)
    | _ =>
        (alerts,
         put tid (set_task_spec (PDict payload)
                    (apply_gate (set_state "pending" t) "awaiting_skill_decision" true)) ts,
         runs)
    end
  else if is_type etype "WORKER_RUN_INTENT" then
    let t := if bool_decide (run_id t = rid) then t
             else set_result [] (set_last_verdict [] (set_last_evidence []
                    (set_run_status new_run_status t))) in
    let t := set_run_id rid (set_state "assigned" t) in
    (alerts, put tid t ts,
     put tid (match lookup tid runs with Some rs => rs | None => [] end ++ [rid])%list runs)
  else if is_type etype "WATCHDOG_VERDICT" then
    let v := Py.get "verdict" payload in
    let t := set_last_verdict payload (set_run_status (with_verdict v (run_status t)) t) in
    let t := apply_gate t "awaiting_verdict" false in
    if is_str v "WARN" then
      (alerts, put tid (recompute_state (apply_gate t "needs_human_review" true)) ts, runs)
    else if is_str v "BLOCK" then
      ((alerts ++ [PDict [("type", PStr "blocked"); ("taskId", PStr tid);
                          ("runId", of_opt rid)]])%list,
       put tid (recompute_state (set_gates ∅ (set_state "blocked" t))) ts, runs)
    else (alerts, put tid (recompute_state t) ts, runs)
  else if is_type etype "RUN_CLOSED" then
    match lookup tid runs with
    | Some rs =>
        if existsb (fun r => bool_decide (r = rid)) rs then
          let rs' := List.filter (fun r => negb (bool_decide (r = rid))) rs in
          (alerts, ts, match rs' with [] => remove tid runs | _ => put tid rs' runs end)
        else (alerts, ts, runs)
    | None => (alerts, ts, runs)
    end
  else (alerts, put tid (own_task_step etype rid payload t) ts, runs).

(** The body of the loop over the sorted events. *)
Definition step (st : fold_state) (event : dict) : fold_state :=
  let key := get_str "idempotencyKey" event in
  if nonempty key && bool_decide (default "" key ∈ seen_keys st) then st
  else
    let seen := if nonempty key then {[default "" key]} ∪ seen_keys st else seen_keys st in
    let etype := get_str "type" event in
    let pname :=
      if nonempty (get_str "project" event) then default "" (get_str "project" event)
      else if nonempty (project_name st) then default "" (project_name st)
      else "unknown" in
    let tid := get_str "taskId" event in
    let rid := get_str "runId" event in
    let '(alerts', tasks', runs') :=
      if nonempty tid
      then task_step etype rid (payload_of event) (default "" tid)
                     (alerts st, tasks st, open_runs st)
      else (alerts st, tasks st, open_runs st) in
    {| seen_keys := seen;
       project_name := Some pname;
       project := project_step etype pname (project st);
       watchdog := watchdog_step etype event (watchdog st);
       risks := telemetry_step etype event (risks st);
       alerts := alerts'; tasks := tasks'; open_runs := runs' |}.

(** [str.strip] on a line of the log.  White space is the ASCII white
    space and the separators 28 to 31 ([str.isspace]); the spaces outside
    ASCII are not modelled. *)
Definition is_space (c : ascii) : bool :=
  let n := Z.of_N (N_of_ascii c) in
  (n =? 32) || ((9 <=? n) && (n <=? 13)) || ((28 <=? n) && (n <=? 31)).

Fixpoint lstrip (s : string) : string :=
  match s with
  | EmptyString => ""
  | String c s' => if is_space c then lstrip s' else s
  end.

Fixpoint rstrip (s : string) : string :=
  match s with
  | EmptyString => ""
  | String c s' =>
      match rstrip s' with
      | EmptyString => if is_space c then "" else String c ""
      | r => String c r
      end
  end.

Definition strip (s : string) : string := lstrip (rstrip s).

(** [read_events]: the events that decode and verify, and a descriptor
    [(line number, reason, stripped text)] for each line that does not.
    Blank lines are skipped.  [loads] of a line is what [json.loads] makes
    of its stripped text. *)
Fixpoint read_lines (idx : Z) (ls : list line)
  : list dict * list (Z * string * string) :=
  match ls with
  | [] => ([], [])
  | l :: ls' =>
      let '(events, corrupted) := read_lines (idx + 1) ls' in
      let text := strip (raw l) in
      if String.eqb text "" then (events, corrupted)
      else match loads l with
           | DecodeError msg =>
               (events, (idx, "json_decode_error: " +:+ msg, text) :: corrupted)
           | Decoded event =>
               if Codec.verify_crc32 event then (event :: events, corrupted)
               else (events, (idx, "crc_mismatch", text) :: corrupted)
           end
  end.

Definition read_events (s : store) : list dict * list (Z * string * string) :=
  read_lines 1 (events_ndjson s).

(** The sort key [(int(e.get("sequenceNumber", 0)), e.get("eventId", ""))];
    [None] when [int] raises. *)
Definition sort_key (event : dict) : option (Z * string) :=
  match Py.get "sequenceNumber" event with
  | None => Some (0, default "" (get_str "eventId" event))
  | Some v =>
      match Py.int v with
      | Some n => Some (n, default "" (get_str "eventId" event))
      | None => None
      end
  end.

Definition key_le (a b : Z * string) : bool :=
  (fst a <? fst b) || ((fst a =? fst b) && String.leb (snd a) (snd b)).

Definition keyed_le (a b : (Z * string) * dict) : bool := key_le (fst a) (fst b).

Fixpoint with_keys (events : list dict) : option (list ((Z * string) * dict)) :=
  match events with
  | [] => Some []
  | e :: events' =>
      match sort_key e, with_keys events' with
      | Some k, Some r => Some ((k, e) :: r)
      | _, _ => None
      end
  end.

(** [events.sort(key=...)]; [None] when a key cannot be computed. *)
Definition sort_events (events : list dict) : option (list dict) :=
  match with_keys events with
  | Some keyed => Some (map snd (stable_sort keyed_le keyed))
  | None => None
  end.

Definition terminal (t : TaskState) : bool :=
  String.eqb (state t) "done" || String.eqb (state t) "blocked"
  || String.eqb (state t) "canceled".

(** After the loop: with the watchdog unresponsive, a task that still
    awaits its verdict needs a human review. *)
Definition propagate_degraded (reason : option string) (ts : list (string * TaskState))
  : list (string * TaskState) :=
  if bool_decide (reason = Some "watchdog_unresponsive") then
    map (fun kt =>
           let t := snd kt in
           if terminal t then kt
           else if bool_decide ("awaiting_verdict" ∈ gates t)
                then (fst kt, apply_gate t "needs_human_review" true)
                else kt) ts
  else ts.

(** The locks derived from the open runs: the lock of each task whose list
    of open runs has one entry, and an alert for each task whose list has
    several (a run announced twice is listed twice). *)
Fixpoint derive_locks (runs : list (string * list (option string)))
  : dict * list pyval :=
  match runs with
  | [] => ([], [])
  | (tid, rs) :: runs' =>
      let '(locks, alerts) := derive_locks runs' in
      match rs with
      | [r] => ((tid, of_opt r) :: locks, alerts)
      | _ => (locks,
              PDict [("type", PStr "multiple_open_runs"); ("taskId", PStr tid);
                     ("runIds", PList (map of_opt rs))] :: alerts)
      end
  end.

Definition or_none (v : pyval) : pyval := if Py.truthy v then v else PNone.

(** One entry of [tasks_out]. *)
Definition task_out (t : TaskState) : pyval :=
  if String.eqb (state t) "done" then
    PDict [("taskId", PStr (task_id t));
           ("resultSummary", of_get (Py.get "summary" (result t)));
           ("evidencePath", of_get (Py.get "evidencePath" (last_evidence t)));
           ("lastRunId", of_opt (run_id t));
           ("taskSpec", or_none (task_spec t))]
  else
    PDict [("taskId", PStr (task_id t));
           ("state", PStr (state t));
           ("gates", PList (map PStr (stable_sort String.leb (elements (gates t)))));
           ("runId", of_opt (run_id t));
           ("skillDecision", PDict (skill_decision t));
           ("policyTier", of_get (policy_tier t));
           ("lastEvidence", PDict (last_evidence t));
           ("lastVerdict", PDict (last_verdict t));
           ("result", PDict (result t));
           ("taskSpec", or_none (task_spec t))].

Definition count_state (s : string) (ts : list (string * TaskState)) : Z :=
  Z.of_nat (length (List.filter (fun kt => String.eqb (state (snd kt)) s) ts)).

Definition corrupted_alert (lib : pylib) (c : Z * string * string) : pyval :=
  let '(idx, reason, raw) := c in
  PDict [("type", PStr "corrupted_line"); ("line", PInt idx);
         ("reason", PStr reason); ("hash", PStr (sha256_hex lib raw))].

Record ReplayResult : Type := {
  status : dict;
  corrupted_lines : list (Z * string * string);
  replay_alerts : list pyval;
}.

(** The status assembled from the folded state. *)
Definition assemble (lib : pylib) (now : string) (st : fold_state)
  (corrupted : list (Z * string * string)) : ReplayResult :=
  let p := project st in
  let ts := propagate_degraded (degradedReason p) (tasks st) in
  let '(locks, lock_alerts) := derive_locks (open_runs st) in
  let several := match lock_alerts with [] => false | _ => true end in
  let calerts := map (corrupted_alert lib) corrupted in
  {| status :=
       [("project",
         PDict [("name", PStr (name p)); ("phase", PStr (phase p));
                ("halted", PBool (halted p));
                ("mode", PStr (if several then "degraded" else mode p));
                ("degradedReason",
                 if several then PStr "multiple_open_runs" else of_opt (degradedReason p));
                ("progress",
                 PDict [("total", PInt (Z.of_nat (length ts)));
                        ("done", PInt (count_state "done" ts));
                        ("blocked", PInt (count_state "blocked" ts))])]);
        ("watchdog",
         PDict [("lastHeartbeatAt", lastHeartbeatAt (watchdog st));
                ("state", PStr (wstate (watchdog st)))]);
        ("tasks", PList (map (fun kt => task_out (snd kt)) ts));
        ("risks", PList (risks st));
        ("alerts", PList (alerts st ++ lock_alerts ++ calerts)%list);
        ("locks",
         PDict [("project",
                 PStr (if locks_project_running p && negb (halted p)
                       then "running" else "idle"));
                ("tasks", PDict locks)]);
        ("updatedAt", PStr now)];
     corrupted_lines := corrupted;
     replay_alerts := calerts |}.

(** The reducer on the events read from the log: sort, fold, assemble.
    [now] is what [utc_now()] returns when the status is stamped. *)
Definition reduce_stream (lib : pylib) (now : string) (events : list dict)
  (corrupted : list (Z * string * string)) : outcome ReplayResult :=
  match sort_events events with
  | None => Raise (TypeError "int() argument must be a string or a real number")
  | Some sorted => Ok (assemble lib now (fold_left step sorted initial_state) corrupted)
  end.

(** [reduce_events]: the clock is read twice, for the base status and for
    the final stamp.  The derived files it also writes are not modelled. *)
Definition reduce_events (lib : pylib) : M ReplayResult := fun w =>
  let '(events, corrupted) := read_events (files w) in
  let w1 := bump w in
  match reduce_stream lib (strftime_iso lib (clock w1 (calls w1))) events corrupted with
  | Ok r => (Ok r, bump w1)
  | Raise e => (Raise e, w)
  end.

End Reducer.

(** ** Corrupted-line events ([StateManager.build_corrupted_event_payload]) *)

Definition build_corrupted_event_payload (lib : pylib) (line_offset : Z)
  (raw_line reason project : string) : dict * dict :=
  let content_hash := sha256_hex lib raw_line in
  let payload := PDict [("lineOffset", PInt line_offset);
                        ("contentHash", PStr content_hash);
                        ("reason", PStr reason)] in
  ([("type", PStr "CORRUPTED_LINE_DETECTED"); ("actor", PStr "orchestrator");
    ("project", PStr project); ("payload", payload);
    ("idempotencyKey",
     PStr (project +:+ ":CORRUPTED_LINE:" +:+ pretty line_offset +:+ ":" +:+ content_hash))],
   [("type", PStr "RECOVERY_STARTED"); ("actor", PStr "orchestrator");
    ("project", PStr project); ("payload", payload);
    ("idempotencyKey",
     PStr (project +:+ ":RECOVERY_STARTED:" +:+ pretty line_offset +:+ ":" +:+ content_hash))]).

(** ** Orchestrator ([orchestrator.py])

    The fields of events and of the status are read by their declared
    types, as in the reducer: ids and timestamps are [str] or [None],
    payloads are dicts. *)

Module Orchestrator.

(** What the orchestrator keeps of [team.json] and of its configuration. *)
Record config : Type := {
  project : string;
  session_label : option string;
  heartbeat_timeout_sec : Z;
  worker_timeout_minutes : Z;
}.

(** [f"{x}"] for a [str] or [None]. *)
Definition fmt (o : option string) : string := default "None" o.

(** [str(v)] inside an f-string, for the scalar values; the text Python
    prints for a list, a dict or another object is not modelled. *)
Definition str_of (v : pyval) : string :=
  match v with
  | PNone => "None"
  | PBool b => if b then "True" else "False"
  | PInt z => pretty z
  | PStr s => s
  | _ => "..."
  end.

Definition lift {A} (r : result A) : M A := fun w => (r, w).

(** Binding the keywords of a call to a function whose parameters are all
    keyword-only: a keyword the function does not declare, or a required
    one that is missing, raises [TypeError]. *)
Definition keyword_only (fname : string) (required : list string)
  (defaults : list (string * pyval)) (kw : list (string * pyval))
  : result (list (string * pyval)) :=
  match List.find (fun a => negb (existsb (String.eqb (fst a))
                                     (required ++ map fst defaults)%list)) kw with
  | Some a =>
      Raise (TypeError (fname +:+ "() got an unexpected keyword argument '"
                        +:+ fst a +:+ "'"))
  | None =>
      if forallb (fun p => Py.mem p kw) required
      then Ok (kw ++ List.filter (fun a => negb (Py.mem (fst a) kw)) defaults)%list
      else Raise (TypeError (fname +:+ "() missing required keyword-only arguments"))
  end.

(** [_build_event(self, *, etype, task_id, run_id_str, payload,
    idempotency_key, causation_id=None)], called with the keywords [kw]. *)
Definition _build_event (cfg : config) (kw : list (string * pyval)) : result dict :=
  args ← keyword_only "_build_event"
           ["etype"; "task_id"; "run_id_str"; "payload"; "idempotency_key"]
           [("causation_id", PNone)] kw;
  let arg n := Reducer.of_get (Py.get n args) in
  let event := [("type", arg "etype"); ("actor", PStr "orchestrator");
                ("project", PStr (project cfg)); ("payload", arg "payload");
                ("idempotencyKey", arg "idempotency_key")] in
  let event := if Py.truthy (arg "task_id")
               then Py.set "taskId" (arg "task_id") event else event in
  let event := if Py.truthy (arg "run_id_str")
               then Py.set "correlationId" (arg "run_id_str")
                      (Py.set "runId" (arg "run_id_str") event)
               else event in
  let event := if Reducer.nonempty (session_label cfg)
               then Py.set "sessionLabel" (Reducer.of_opt (session_label cfg)) event
               else event in
  let event := if Py.truthy (arg "causation_id")
               then Py.set "causationId" (arg "causation_id") event else event in
  mret event.

(** [_parse_time]: the microseconds since the epoch, [None] for a value
    that is empty, not a [str], or not in [ISO_FORMAT]. *)
Definition _parse_time (lib : pylib) (value : option pyval) : option Z :=
  match value with
  | Some (PStr s) => if String.eqb s "" then None else strptime_iso lib s
  | _ => None
  end.

Record event_info : Type := {
  last_heartbeat_at : option Z;
  last_project_started_at : option Z;
  last_project_resumed_at : option Z;
  last_project_halted_at : option Z;
  last_project_finished_at : option Z;
}.

(** [if ts and (last is None or ts > last): last = ts] *)
Definition later (ts last : option Z) : option Z :=
  match ts, last with
  | Some t, None => Some t
  | Some t, Some l => if l <? t then Some t else Some l
  | None, _ => last
  end.

Record event_index : Type := {
  halted_by_verdict : gset string;
  aborted : gset (option string * option string);
  closed : gset (option string * option string);
  info : event_info;
}.

Definition empty_index : event_index :=
  {| halted_by_verdict := ∅; aborted := ∅; closed := ∅;
     info := {| last_heartbeat_at := None; last_project_started_at := None;
                last_project_resumed_at := None; last_project_halted_at := None;
                last_project_finished_at := None |} |}.

(** The body of the loop of [_event_index].  The ids that go into the
    three sets are read by their declared type ([str] or [None]); the
    times of [info] are those the code computes from any event. *)
Definition index_step (lib : pylib) (ix : event_index) (ev : dict) : event_index :=
  let etype := Reducer.get_str "type" ev in
  let ts := _parse_time lib (Py.get "at" ev) in
  let i := info ix in
  if Reducer.is_type etype "PROJECT_HALTED" then
    let verdict_id :=
      if Reducer.nonempty (Reducer.get_str "causationId" ev)
      then Reducer.get_str "causationId" ev
      else Reducer.get_str "verdictEventId" (Reducer.payload_of ev) in
    {| halted_by_verdict :=
         if Reducer.nonempty verdict_id
         then {[default "" verdict_id]} ∪ halted_by_verdict ix
         else halted_by_verdict ix;
       aborted := aborted ix; closed := closed ix;
       info := {| last_heartbeat_at := last_heartbeat_at i;
                  last_project_started_at := last_project_started_at i;
                  last_project_resumed_at := last_project_resumed_at i;
                  last_project_halted_at := later ts (last_project_halted_at i);
                  last_project_finished_at := last_project_finished_at i |} |}
  else if Reducer.is_type etype "WORKER_RUN_ABORTED" then
    {| halted_by_verdict := halted_by_verdict ix;
       aborted := {[(Reducer.get_str "taskId" ev, Reducer.get_str "runId" ev)]} ∪ aborted ix;
       closed := closed ix; info := i |}
  else if Reducer.is_type etype "RUN_CLOSED" then
    {| halted_by_verdict := halted_by_verdict ix; aborted := aborted ix;
       closed := {[(Reducer.get_str "taskId" ev, Reducer.get_str "runId" ev)]} ∪ closed ix;
       info := i |}
  else if Reducer.is_type etype "WATCHDOG_HEARTBEAT" then
    {| halted_by_verdict := halted_by_verdict ix; aborted := aborted ix;
       closed := closed ix;
       info := {| last_heartbeat_at := later ts (last_heartbeat_at i);
                  last_project_started_at := last_project_started_at i;
                  last_project_resumed_at := last_project_resumed_at i;
                  last_project_halted_at := last_project_halted_at i;
                  last_project_finished_at := last_project_finished_at i |} |}
  else if Reducer.is_type etype "PROJECT_STARTED" then
    {| halted_by_verdict := halted_by_verdict ix; aborted := aborted ix;
       closed := closed ix;
       info := {| last_heartbeat_at := last_heartbeat_at i;
                  last_project_started_at := later ts (last_project_started_at i);
                  last_project_resumed_at := last_project_resumed_at i;
                  last_project_halted_at := last_project_halted_at i;
                  last_project_finished_at := last_project_finished_at i |} |}
  else if Reducer.is_type etype "PROJECT_RESUMED" then
    {| halted_by_verdict := halted_by_verdict ix; aborted := aborted ix;
       closed := closed ix;
       info := {| last_heartbeat_at := last_heartbeat_at i;
                  last_project_started_at := last_project_started_at i;
                  last_project_resumed_at := later ts (last_project_resumed_at i);
                  last_project_halted_at := last_project_halted_at i;
                  last_project_finished_at := last_project_finished_at i |} |}
  else if Reducer.is_type etype "PROJECT_FINISHED" then
    {| halted_by_verdict := halted_by_verdict ix; aborted := aborted ix;
       closed := closed ix;
       info := {| last_heartbeat_at := last_heartbeat_at i;
                  last_project_started_at := last_project_started_at i;
                  last_project_resumed_at := last_project_resumed_at i;
                  last_project_halted_at := last_project_halted_at i;
                  last_project_finished_at := later ts (last_project_finished_at i) |} |}
  else ix.

(** The index [_event_index] returns, on a log at which its loop does not
    raise (see [index_error]). *)
Definition _event_index (lib : pylib) (events : list dict) : event_index :=
  fold_left (index_step lib) events empty_index.

(** A value that can be put in a [set]. *)
Definition hashable (v : pyval) : bool :=
  match v with
  | PList _ | PDict _ | PIntDict _ => false
  | _ => true
  end.

(** [payload.get(k)] on the payload as it is: a value that is not a dict
    has no [get]. *)
Definition get_of (k : string) (payload : pyval) : result (option pyval) :=
  match payload with
  | PDict d => Ok (Py.get k d)
  | PIntDict _ => Ok None
  | _ => Raise (AttributeError "object has no attribute 'get'")
  end.

(** The exception the loop of [_event_index] raises at an event, if any.
    At [PROJECT_HALTED] the line reads
    [ev.get("causationId") or ev.get("payload", {}).get("verdictEventId")],
    without [or {}], and the id found is added to a set; at
    [WORKER_RUN_ABORTED] and [RUN_CLOSED] the pair of [taskId] and [runId]
    is added to a set. *)
Definition index_error (ev : dict) : option exn :=
  let etype := Py.get "type" ev in
  let unhashable := Some (TypeError "unhashable type") in
  if Reducer.is_str etype "PROJECT_HALTED" then
    if Py.otruthy (Py.get "causationId" ev) then
      if hashable (Reducer.of_get (Py.get "causationId" ev)) then None else unhashable
    else
      match Py.get "payload" ev with
      | None => None
      | Some payload =>
          match get_of "verdictEventId" payload with
          | Raise e => Some e
          | Ok verdict_id =>
              if Py.otruthy verdict_id && negb (hashable (Reducer.of_get verdict_id))
              then unhashable else None
          end
      end
  else if Reducer.is_str etype "WORKER_RUN_ABORTED" || Reducer.is_str etype "RUN_CLOSED" then
    if hashable (Reducer.of_get (Py.get "taskId" ev))
       && hashable (Reducer.of_get (Py.get "runId" ev))
    then None else unhashable
  else None.

Fixpoint first_error (f : dict -> option exn) (events : list dict) : option exn :=
  match events with
  | [] => None
  | ev :: events' =>
      match f ev with
      | Some e => Some e
      | None => first_error f events'
      end
  end.

(** The call of [_event_index]: the index, or the first exception. *)
Definition event_index_call (lib : pylib) (events : list dict) : result event_index :=
  match first_error index_error events with
  | Some e => Raise e
  | None => Ok (_event_index lib events)
  end.

(** [(ev.get("payload", {}) or {}).get(k)] *)
Definition payload_get (k : string) (ev : dict) : result (option pyval) :=
  match Py.get "payload" ev with
  | None => Ok None
  | Some payload => if Py.truthy payload then get_of k payload else Ok None
  end.

Section WithLib.
Context (lib : pylib) (cfg : config).

Definition append (event : dict) : M unit :=
  _ ← StateManager.append_event lib event; mret tt.

(** The name [run_id] in [_enforce_block_sequence].  The function binds
    [run_id_val], and the module imports [ids.run_id] under the name
    [run_id_gen]: [run_id] is neither a local nor a global name, and
    evaluating it raises [NameError]. *)
Definition global_run_id : M pyval :=
  raise (NameError "name 'run_id' is not defined").

(** The body of the loop of [_enforce_block_sequence]. *)
Definition enforce_block (ix : event_index) (ev : dict) : M unit :=
  if negb (Reducer.is_type (Reducer.get_str "type" ev) "WATCHDOG_VERDICT") then mret tt
  else
  verdict ← lift (payload_get "verdict" ev);
  if negb (Reducer.is_str verdict "BLOCK") then mret tt
  else
    let verdict_id := Reducer.get_str "eventId" ev in
    let task_id := Reducer.get_str "taskId" ev in
    let run_id_val := Reducer.get_str "runId" ev in
    if negb (Py.otruthy (Py.get "eventId" ev)) then mret tt
    else if negb (Py.otruthy (Py.get "taskId" ev)) then mret tt
    else
      run_id ← global_run_id;
      if negb (Py.truthy run_id) then mret tt
      else
        _ ← (if bool_decide (default "" verdict_id ∈ halted_by_verdict ix) then mret tt
             else
               halt_event ← lift (_build_event cfg
                 [("etype", PStr "PROJECT_HALTED");
                  ("task_id", Reducer.of_opt task_id);
                  ("run_id_str", Reducer.of_opt run_id_val);
                  ("payload", PDict [("haltReason", PStr "blocked_by_watchdog");
                                     ("verdictEventId", Reducer.of_opt verdict_id)]);
                  ("causation_id", Reducer.of_opt verdict_id);
                  ("idempotency_key",
                   PStr (project cfg +:+ ":" +:+ fmt task_id +:+ ":" +:+ str_of run_id
                         +:+ ":PROJECT_HALTED:" +:+ fmt verdict_id))]);
               append halt_event);
        _ ← (if bool_decide ((task_id, run_id_val) ∈ aborted ix) then mret tt
             else
               abort_event ← lift (_build_event cfg
                 [("etype", PStr "WORKER_RUN_ABORTED");
                  ("task_id", Reducer.of_opt task_id);
                  ("run_id_str", Reducer.of_opt run_id_val);
                  ("payload", PDict [("reason", PStr "blocked_by_watchdog")]);
                  ("causation_id", Reducer.of_opt verdict_id);
                  ("idempotency_key",
                   PStr (project cfg +:+ ":" +:+ fmt task_id +:+ ":" +:+ str_of run_id
                         +:+ ":WORKER_RUN_ABORTED"))]);
               append abort_event);
        if bool_decide ((task_id, run_id_val) ∈ closed ix) then mret tt
        else
          close_event ← lift (_build_event cfg
            [("etype", PStr "RUN_CLOSED");
             ("task_id", Reducer.of_opt task_id);
             ("run_id_str", Reducer.of_opt run_id_val);
             ("payload", PDict [("closeReason", PStr "blocked_by_watchdog");
                                ("verdictEventId", Reducer.of_opt verdict_id)]);
             ("causation_id", Reducer.of_opt verdict_id);
             ("idempotency_key",
              PStr (project cfg +:+ ":" +:+ fmt task_id +:+ ":" +:+ fmt run_id_val
                    +:+ ":RUN_CLOSED"))]);
          append close_event.

Definition _enforce_block_sequence (events : list dict) : M unit :=
  ix ← lift (event_index_call lib events);
  for_each (enforce_block ix) events.

(** [_watchdog_heartbeat].  Times are microseconds since the epoch:
    [delta < heartbeat_timeout_sec] compares [now - last_heartbeat] with
    the timeout in seconds, and [window] is the floor of the seconds of
    [now] divided by the timeout; the division raises when the timeout
    is zero. *)
Definition _watchdog_heartbeat (events : list dict) : M unit :=
  ix ← lift (event_index_call lib events);
  let i := info ix in
  if match last_project_finished_at i with
     | Some finished => match last_project_started_at i with
                        | None => true
                        | Some started => started <? finished
                        end
     | None => false
     end then mret tt
  else if match last_project_halted_at i with
          | Some halted => match last_project_resumed_at i with
                           | None => true
                           | Some resumed => resumed <? halted
                           end
          | None => false
          end then mret tt
  else
    match last_heartbeat_at i with
    | None => mret tt
    | Some last_heartbeat =>
        now ← call_now;
        if now - last_heartbeat <? heartbeat_timeout_sec cfg * 1000000 then mret tt
        else if heartbeat_timeout_sec cfg =? 0
        then raise (ZeroDivisionError "float floor division by zero")
        else
          let window := now / 1000000 / heartbeat_timeout_sec cfg in
          let idempotency_key :=
            project cfg +:+ ":WATCHDOG_UNRESPONSIVE:" +:+ pretty window in
          unresp_event ← lift (_build_event cfg
            [("etype", PStr "WATCHDOG_UNRESPONSIVE");
             ("task_id", PNone);
             ("run_id", PNone);
             ("payload", PDict [("lastHeartbeatAt",
                                 PStr (strftime_iso lib last_heartbeat))]);
             ("idempotency_key", PStr idempotency_key)]);
          append unresp_event
    end.

(** [status.get("locks", {}).get("tasks", {}).get(task_id)] *)
Definition expected_run (status : dict) (task_id : string) : option string :=
  match Py.get "locks" status with
  | Some (PDict locks) =>
      match Py.get "tasks" locks with
      | Some (PDict tasks) => Reducer.get_str task_id tasks
      | _ => None
      end
  | _ => None
  end.

(** [validate_incoming], with its keyword arguments [actor], [task_id],
    [run_id] and [message_type]. *)
Definition validate_incoming (actor : string) (task_id run_id : option string)
  (message_type : string) : M bool :=
  if negb (Reducer.nonempty task_id) then mret true
  else
    r ← Reducer.reduce_events lib;
    let expected := expected_run (Reducer.status r) (default "" task_id) in
    if String.eqb actor "worker" || String.eqb actor "watchdog" then
      if negb (Reducer.nonempty run_id) || negb (bool_decide (run_id = expected)) then
        let seed := fmt run_id +:+ ":" +:+ message_type in
        let digest := String.substring 0 12 (sha256_hex lib seed) in
        let idempotency_key :=
          project cfg +:+ ":" +:+ fmt task_id +:+ ":" +:+ fmt expected
          +:+ ":MESSAGE_IGNORED:" +:+ digest in
        ignore_event ← lift (_build_event cfg
          [("etype", PStr "MESSAGE_IGNORED");
           ("task_id", Reducer.of_opt task_id);
           ("run_id", Reducer.of_opt expected);
           ("payload", PDict [("actor", PStr actor);
                              ("expectedRunId", Reducer.of_opt expected);
                              ("receivedRunId", Reducer.of_opt run_id);
                              ("messageType", PStr message_type)]);
           ("idempotency_key", PStr idempotency_key)]);
        _ ← append ignore_event;
        mret false
      else mret true
    else mret true.

(** [_handle_corrupted], on the descriptors [read_events] returns. *)
Definition _handle_corrupted (corrupted : list (Z * string * string)) : M unit :=
  for_each (fun c =>
              let '(line_offset, reason, raw_line) := c in
              let '(corrupted_event, recovery_event) :=
                build_corrupted_event_payload lib line_offset raw_line reason
                  (project cfg) in
              _ ← append corrupted_event;
              append recovery_event) corrupted.

End WithLib.

(** One entry of the list [_aggregate_results] returns: a dict with the
    keys [taskId], [state], [runId], [result], [verdict], [evidencePath]
    and [quality]. *)
Record task_result : Type := {
  r_taskId : option string;
  r_state : string;
  r_runId : option string;
  r_result : dict;
  r_verdict : option pyval;
  r_evidencePath : option pyval;
  r_quality : option pyval;
}.

(** [task.get(k, {})] for a field that holds a dict. *)
Definition get_dict (k : string) (task : dict) : dict :=
  match Py.get k task with
  | Some (PDict d) => d
  | _ => []
  end.

(** One round of the loop of [_aggregate_results].  The scan of the log for
    the key [f"{task_id}:{last_run_id}:notified"] changes nothing: its
    [continue] belongs to the loop over the lines. *)
Definition aggregate_task (task : pyval) : list task_result :=
  match task with
  | PDict task =>
      let task_id := Reducer.get_str "taskId" task in
      let state := Py.get "state" task in
      let last_run_id :=
        if Reducer.nonempty (Reducer.get_str "runId" task)
        then Reducer.get_str "runId" task
        else Reducer.get_str "lastRunId" task in
      let result := get_dict "result" task in
      let last_verdict := get_dict "lastVerdict" task in
      let last_evidence := get_dict "lastEvidence" task in
      let is_done :=
        match state with None | Some PNone => true | _ => false end
        && match last_run_id with Some _ => true | None => false end in
      let is_blocked := Reducer.is_str state "blocked" in
      if negb is_done && negb is_blocked then []
      else
        [{| r_taskId := task_id;
            r_state := if is_done then "done" else "blocked";
            r_runId := last_run_id;
            r_result := result;
            r_verdict := Py.get "verdict" last_verdict;
            r_evidencePath := Py.get "evidencePath" last_evidence;
            r_quality := Py.get "quality" result |}]
  | _ => []
  end.

Definition _aggregate_results (status : dict) : list task_result :=
  match Py.get "tasks" status with
  | Some (PList tasks) => flat_map aggregate_task tasks
  | _ => []
  end.

Section Results.
Context (lib : pylib) (cfg : config).

(** The text of the notification, [None] for a state that is not notified. *)
Definition notification_message (r : task_result) : option string :=
  if String.eqb (r_state r) "done" then
    if Reducer.is_str (r_quality r) "warn_override"
    then Some ("⚠️ [" +:+ project cfg +:+ "] " +:+ fmt (r_taskId r) +:+ " 完成（人工Override）")
    else Some ("✅ [" +:+ project cfg +:+ "] " +:+ fmt (r_taskId r) +:+ " 完成")
  else if String.eqb (r_state r) "blocked" then
    let failure := match Py.get "failureReason" (r_result r) with
                   | Some v => v
                   | None => PStr "unknown"
                   end in
    Some ("❌ [" +:+ project cfg +:+ "] " +:+ fmt (r_taskId r) +:+ " 失败: "
          +:+ str_of failure)
  else None.

(** [_notify_result]; the [print] is left out. *)
Definition _notify_result (r : task_result) : M unit :=
  match notification_message r with
  | None => mret tt
  | Some msg =>
      append lib
        [("type", PStr "RESULT_NOTIFIED"); ("actor", PStr "orchestrator");
         ("project", PStr (project cfg));
         ("taskId", Reducer.of_opt (r_taskId r));
         ("runId", Reducer.of_opt (r_runId r));
         ("payload", PDict [("channel", PStr "telegram"); ("message", PStr msg)]);
         ("idempotencyKey",
          PStr (project cfg +:+ ":" +:+ fmt (r_taskId r) +:+ ":" +:+ fmt (r_runId r)
                +:+ ":notified"))]
  end.

Definition _process_results (status : dict) : M unit :=
  for_each _notify_result (_aggregate_results status).

End Results.

Section Timeouts.
Context (lib : pylib) (cfg : config).

(** The scan of the log in [_check_worker_timeouts]: the time of the first
    [WORKER_RUN_STARTED] of the task and run whose [at] parses. *)
Fixpoint start_time (task_id run_id_val : option string) (events : list dict)
  : option Z :=
  match events with
  | [] => None
  | ev :: events' =>
      if bool_decide (Reducer.get_str "taskId" ev = task_id)
         && bool_decide (Reducer.get_str "runId" ev = run_id_val)
         && Reducer.is_type (Reducer.get_str "type" ev) "WORKER_RUN_STARTED"
      then match _parse_time lib (Py.get "at" ev) with
           | Some ts => Some ts
           | None => start_time task_id run_id_val events'
           end
      else start_time task_id run_id_val events'
  end.

(** One round of the first loop of [_check_worker_timeouts]: the pair the
    round adds to [timed_out], if any.  [timedelta(minutes=m)] is [m]
    minutes in microseconds. *)
Definition timed_out_run (now : Z) (s : store) (task : pyval)
  : list (option string * option string) :=
  match task with
  | PDict task =>
      let task_id := Reducer.get_str "taskId" task in
      let state := Py.get "state" task in
      let run_id_val := Reducer.get_str "runId" task in
      if negb (Reducer.is_str state "running") || negb (Reducer.nonempty run_id_val)
      then []
      else
        let events := fst (Reducer.read_events s) in
        match start_time task_id run_id_val events with
        | None => []
        | Some start =>
            if worker_timeout_minutes cfg * 60000000 <? now - start
            then [(task_id, run_id_val)] else []
        end
  | _ => []
  end.

(** The body of the second loop. *)
Definition fail_timed_out (run : option string * option string) : M unit :=
  let '(task_id, run_id_val) := run in
  failed_event ← lift (_build_event cfg
    [("etype", PStr "WORKER_RUN_FAILED");
     ("task_id", Reducer.of_opt task_id);
     ("run_id_str", Reducer.of_opt run_id_val);
     ("payload", PDict [("reason", PStr "worker_timeout")]);
     ("causation_id", PNone);
     ("idempotency_key",
      PStr (project cfg +:+ ":" +:+ fmt task_id +:+ ":" +:+ fmt run_id_val
            +:+ ":WORKER_RUN_FAILED:timeout"))]);
  _ ← append lib failed_event;
  close_event ← lift (_build_event cfg
    [("etype", PStr "RUN_CLOSED");
     ("task_id", Reducer.of_opt task_id);
     ("run_id_str", Reducer.of_opt run_id_val);
     ("payload", PDict [("closeReason", PStr "worker_timeout")]);
     ("causation_id", Reducer.of_get (Py.get "eventId" failed_event));
     ("idempotency_key",
      PStr (project cfg +:+ ":" +:+ fmt task_id +:+ ":" +:+ fmt run_id_val
            +:+ ":RUN_CLOSED:timeout"))]);
  append lib close_event.

(** [_check_worker_timeouts]: the log is read in the first loop, which
    writes nothing, and the events are appended in the second. *)
Definition _check_worker_timeouts (status : dict) : M unit :=
  now ← call_now;
  s ← get_files;
  let tasks := match Py.get "tasks" status with
               | Some (PList tasks) => tasks
               | _ => []
               end in
  for_each fail_timed_out (flat_map (timed_out_run now s) tasks).

End Timeouts.

End Orchestrator.

(** ** Identifiers ([ids.py]) *)

Module Ids.

(** [f"{value:0Nx}"] for [0 <= value < 16^N]: [N] lower-case hexadecimal
    digits, the most significant first. *)
Definition hex_lower (width : nat) (value : Z) : string :=
  fold_right (fun i acc =>
                Codec.hex_digit_lower (Z.land (Z.shiftr value (4 * Z.of_nat i)) 15) +:+ acc)
             "" (rev (seq 0 width)).

(** The 128 bits of [uuid_v7], from [int(time.time() * 1000)] and
    [int.from_bytes(os.urandom(10), "big")]. *)
Definition uuid_value (time_ms random : Z) : Z :=
  let ts_ms := Z.land time_ms (Z.shiftl 1 48 - 1) in
  let rand74 := Z.shiftr random 6 in
  let rand_a := Z.land (Z.shiftr rand74 62) (Z.shiftl 1 12 - 1) in
  let rand_b := Z.land rand74 (Z.shiftl 1 62 - 1) in
  Z.lor (Z.lor (Z.lor (Z.lor (Z.shiftl ts_ms 80) (Z.shiftl 7 76)) (Z.shiftl rand_a 64))
               (Z.shiftl 2 62))
        rand_b.

Definition uuid_v7 (time_ms random : Z) : string :=
  let hexstr := hex_lower 32 (uuid_value time_ms random) in
  String.substring 0 8 hexstr +:+ "-" +:+ String.substring 8 4 hexstr +:+ "-"
  +:+ String.substring 12 4 hexstr +:+ "-" +:+ String.substring 16 4 hexstr +:+ "-"
  +:+ String.substring 20 12 hexstr.

(** [run_id(prefix)], with the uuid it draws. *)
Definition run_id (prefix uuid : string) : string := prefix +:+ "-" +:+ uuid.

End Ids.

(** * Vocabulary of the statements *)


(** The record [append_event] builds from the caller's event: the fields
    the caller left out are filled in. *)
Definition filled_event (lib : pylib) (event : dict) (w : world) : dict :=
  let seq := StateManager._read_last_sequence (files w) + 1 in
  let event := Py.setdefault "eventId" (PStr ("e-" +:+ uuid4_hex w (calls w))) event in
  let event := Py.setdefault "schemaVersion" (PInt 1) event in
  let event := Py.setdefault "sequenceNumber" (PInt seq) event in
  Py.setdefault "at" (PStr (strftime_iso lib (clock w (S (calls w))))) event.

Definition with_files (s : store) (n : nat) (w : world) : world :=
  {| files := s; uuid4_hex := uuid4_hex w; uuid_v7 := uuid_v7 w;
     clock := clock w; calls := n |}.



(** The [idempotencyKey] a line of the log carries. *)
Definition line_key (l : line) : option pyval :=
  match loads l with
  | Decoded d => Py.get "idempotencyKey" d
  | DecodeError _ => None
  end.


(** The [sequenceNumber] values of the log, in file order. *)
Definition recorded_sequence (s : store) : list (option pyval) :=
  map (fun l => match loads l with
                | Decoded d => Py.get "sequenceNumber" d
                | DecodeError _ => None
                end) (events_ndjson s).

(** [1, 2, ..., n] *)
Definition counting_from_one (n : nat) : list (option pyval) :=
  map (fun i => Some (PInt (Z.of_nat i))) (seq 1 n).

(** A sequence of [append_event] calls, each of which returns. *)
Definition append_all (lib : pylib) (events : list dict) : M unit :=
  for_each (fun e => _ ← StateManager.append_event lib e; mret tt) events.

(** A process started on an empty project directory. *)
Definition fresh_world : world :=
  {| files := fresh_project;
     uuid4_hex := fun n => Sha256.hex32 (Z.of_nat n);
     uuid_v7 := fun n => Sha256.hex32 (Z.of_nat n);
     clock := fun n => 1793750400000000 + Z.of_nat n;
     calls := 0 |}.

(** The two events of the idempotency scenario: same key, other payload. *)
Definition first_event : dict :=
  [("type", PStr "TEST_EVENT"); ("actor", PStr "test"); ("project", PStr "test");
   ("payload", PDict []); ("idempotencyKey", PStr "test:idempotency:1")].

Definition second_event : dict :=
  [("type", PStr "TEST_EVENT"); ("actor", PStr "test"); ("project", PStr "test");
   ("payload", PDict [("data", PStr "different")]);
   ("idempotencyKey", PStr "test:idempotency:1")].

(** An event that brings its own [sequenceNumber]. *)
Definition numbered_event : dict :=
  [("type", PStr "TEST_EVENT"); ("actor", PStr "test"); ("project", PStr "test");
   ("payload", PDict []); ("idempotencyKey", PStr "test:seq:1");
   ("sequenceNumber", PInt 5)].

(** What a run of [append_event] calls leaves to observe: the status of
    each call, the [sequenceNumber] values in the log and [lastSequence]. *)
Definition status_of (r : result StateManager.append_result) : string :=
  match r with
  | Ok (StateManager.Appended _) => "appended"
  | Ok StateManager.Deduped => "deduped"
  | Raise _ => "raised"
  end.

Fixpoint run_appends (lib : pylib) (events : list dict) (w : world)
  : list string * world :=
  match events with
  | [] => ([], w)
  | e :: events' =>
      let '(r, w1) := StateManager.append_event lib e w in
      let '(rs, w2) := run_appends lib events' w1 in
      (status_of r :: rs, w2)
  end.

Definition observe_appends (lib : pylib) (events : list dict) (w : world)
  : list string * list (option pyval) * option Z :=
  let '(rs, w') := run_appends lib events w in
  (rs, recorded_sequence (files w'), sequence_json (files w')).


(** A third event, with a key of its own. *)
Definition third_event : dict :=
  [("type", PStr "TEST_EVENT"); ("actor", PStr "test"); ("project", PStr "test");
   ("payload", PDict [("data", PStr "more")]);
   ("idempotencyKey", PStr "test:idempotency:2")].

(** The number of calls that appended. *)
Definition count_appended (statuses : list string) : nat :=
  length (List.filter (String.eqb "appended") statuses).

(** The [sequenceNumber] values the appended records of a run carry, when
    the last sequence before the run is [n]: the value the event brought,
    as it is read back, or the next number. *)
Fixpoint numbers_given (n : nat) (run : list (string * dict)) : list (option pyval) :=
  match run with
  | [] => []
  | (status, event) :: run' =>
      if String.eqb status "appended" then
        match Py.get "sequenceNumber" event with
        | Some v => Some (Codec.reload v)
        | None => Some (PInt (Z.of_nat n + 1))
        end :: numbers_given (S n) run'
      else numbers_given n run'
  end.

(** The process after three calls, the last of which repeats a key. *)
Definition three_appends : list dict := [first_event; third_event; second_event].

Definition after_three_appends : world :=
  snd (run_appends py_lib three_appends fresh_world).

Definition after_numbered_append : world :=
  snd (append_all py_lib [numbered_event] fresh_world).

(** The first call of the scenario: the record it stores and the process
    after it. *)
Definition first_append : result StateManager.append_result * world :=
  StateManager.append_event py_lib first_event fresh_world.

Definition first_stored : dict :=
  match fst first_append with
  | Ok (StateManager.Appended event) => event
  | _ => []
  end.

Definition after_first_append : world := snd first_append.

(** Events of a small project: a task is published, gets its skill, is run
    and blocked by the watchdog. *)
Definition ev (etype : string) (fields : dict) : dict :=
  ("type", PStr etype) :: ("project", PStr "demo") :: fields.

Definition blocked_project : list dict :=
  [ev "PROJECT_STARTED" [("idempotencyKey", PStr "demo:start")];
   ev "TASKSPEC_PUBLISHED"
      [("taskId", PStr "T1"); ("payload", PDict [("goal", PStr "write docs")]);
       ("idempotencyKey", PStr "demo:T1:spec")];
   ev "TASK_SKILL_SET"
      [("taskId", PStr "T1"); ("payload", PDict [("chosenSkill", PStr "writer")]);
       ("idempotencyKey", PStr "demo:T1:skill")];
   ev "WORKER_RUN_INTENT"
      [("taskId", PStr "T1"); ("runId", PStr "r-1");
       ("idempotencyKey", PStr "demo:T1:r-1:WORKER_RUN_INTENT")];
   ev "WORKER_RUN_STARTED"
      [("taskId", PStr "T1"); ("runId", PStr "r-1");
       ("idempotencyKey", PStr "demo:T1:r-1:WORKER_RUN_STARTED")];
   ev "WATCHDOG_VERDICT"
      [("taskId", PStr "T1"); ("runId", PStr "r-1");
       ("payload", PDict [("verdict", PStr "BLOCK")]); ("actor", PStr "watchdog");
       ("idempotencyKey", PStr "demo:T1:r-1:WATCHDOG_VERDICT")]].

(** The project directory after these events were appended. *)
Definition blocked_world : world := snd (append_all py_lib blocked_project fresh_world).

(** What a reduction shows of a task. *)
Definition task_view (lib : pylib) (w : world) : option pyval :=
  match fst (Reducer.reduce_events lib w) with
  | Ok r => Py.get "tasks" (Reducer.status r)
  | Raise _ => None
  end.

(** The events of a list that have a given sort key, in the order of the
    list ([None]: those whose [sequenceNumber] does not convert). *)
Definition keyed_by (k : option (Z * string)) (events : list dict) : list dict :=
  filter (fun e => Reducer.sort_key e = k) events.

(** The loop of [reduce_events] over events that are sorted already. *)
Definition replay_from (st : Reducer.fold_state) (events : list dict) : Reducer.fold_state :=
  fold_left Reducer.step events st.

Definition replay (events : list dict) : Reducer.fold_state :=
  replay_from Reducer.initial_state events.

(** The idempotency key the reducer reads from an event, when it has one. *)
Definition replay_key (event : dict) : option string :=
  if Reducer.nonempty (Reducer.get_str "idempotencyKey" event)
  then Reducer.get_str "idempotencyKey" event else None.

(** A status with the project's name blanked. *)
Definition project_of (status : dict) : dict :=
  match Py.get "project" status with
  | Some (PDict p) => p
  | _ => []
  end.

Definition anonymous (status : dict) : dict :=
  Py.set "project" (PDict (Py.set "name" PNone (project_of status))) status.

(** The guard of the reducer at a state: the event names a task that
    exists in the state, and is a run-bound event of a run that is not the
    one bound to that task. *)
Definition stray_at (st : Reducer.fold_state) (event : dict) : bool :=
  match Reducer.get_str "taskId" event with
  | Some tid =>
      Reducer.nonempty (Some tid)
      && match Reducer.lookup tid (Reducer.tasks st) with
         | Some t => Reducer.stray (Reducer.get_str "type" event) t
                       (Reducer.get_str "runId" event)
         | None => false
         end
  | None => false
  end.

(** What the loop has computed, apart from the keys it has seen and the
    project's name. *)
Definition project_core (p : Reducer.project_state)
  : string * bool * string * option string * bool :=
  (Reducer.phase p, Reducer.halted p, Reducer.mode p, Reducer.degradedReason p,
   Reducer.locks_project_running p).

Definition core (st : Reducer.fold_state) :=
  (project_core (Reducer.project st), Reducer.watchdog st, Reducer.risks st,
   Reducer.alerts st, Reducer.tasks st, Reducer.open_runs st).

(** Events of one task as the log holds them, with their sequence numbers
    and ids: a run [r-1] is announced and started, a completion of an
    earlier run [r-0] arrives late, and the watchdog passes [r-1]. *)
Definition numbered (n : Z) (id : string) (event : dict) : dict :=
  ("sequenceNumber", PInt n) :: ("eventId", PStr id) :: event.

Definition run_event (etype run key : string) (payload : dict) : dict :=
  ev etype [("taskId", PStr "T1"); ("runId", PStr run); ("payload", PDict payload);
            ("idempotencyKey", PStr key)].

Definition run_intent : dict :=
  numbered 1 "e-01" (run_event "WORKER_RUN_INTENT" "r-1" "demo:T1:r-1:intent" []).

Definition run_started : dict :=
  numbered 2 "e-02" (run_event "WORKER_RUN_STARTED" "r-1" "demo:T1:r-1:started" []).

Definition late_completed : dict :=
  numbered 3 "e-03" (run_event "WORKER_RUN_COMPLETED" "r-0" "demo:T1:r-0:completed" []).

Definition run_verdict : dict :=
  numbered 4 "e-04"
    (run_event "WATCHDOG_VERDICT" "r-1" "demo:T1:r-1:verdict" [("verdict", PStr "PASS")]).

(** A second record of the start, appended under the same key. *)
Definition run_started_again : dict :=
  numbered 5 "e-05"
    (run_event "WORKER_RUN_STARTED" "r-1" "demo:T1:r-1:started" [("attempt", PInt 2)]).

(** A failure of [r-1] that carries the key of the late completion. *)
Definition run_failed_same_key : dict :=
  numbered 4 "e-04" (run_event "WORKER_RUN_FAILED" "r-1" "demo:T1:r-0:completed" []).

(** A second run [r-2] of the task announced while [r-1] is open, and the
    run [r-1] announced once more under another key. *)
Definition rival_intent : dict :=
  numbered 2 "e-02" (run_event "WORKER_RUN_INTENT" "r-2" "demo:T1:r-2:intent" []).

Definition run_intent_again : dict :=
  numbered 2 "e-02" (run_event "WORKER_RUN_INTENT" "r-1" "demo:T1:r-1:intent:retry" []).

(** Two events with the same sequence number and the same id. *)
Definition halt_event : dict :=
  numbered 7 "e-07" (ev "PROJECT_HALTED" [("idempotencyKey", PStr "demo:halt")]).

Definition resume_event : dict :=
  numbered 7 "e-07" (ev "PROJECT_RESUMED" [("idempotencyKey", PStr "demo:resume")]).

(** What a reduction shows under a field of the status. *)
Definition status_field (field : string) (r : result Reducer.ReplayResult) : option pyval :=
  match r with
  | Ok r => Py.get field (Reducer.status r)
  | Raise _ => None
  end.

(** The string idempotency keys of the records of the log, in file order. *)
Definition string_keys (s : store) : list string :=
  omap (fun l => match line_key l with Some (PStr k) => Some k | _ => None end)
       (events_ndjson s).

(** The records of the log that decode, in file order. *)
Definition stored_events (s : store) : list dict :=
  omap (fun l => match loads l with Decoded d => Some d | DecodeError _ => None end)
       (events_ndjson s).

(** The index knows every string key of the log, and no two records
    carry the same. *)
Definition keys_indexed (s : store) : Prop :=
  NoDup (string_keys s)
  /\ forall k, k ∈ string_keys s -> is_Some (StateManager._load_idempotency_index s !! k).


(** The rendering of the entries of a dict inside [Codec.dumps]. *)
Definition render_items (sort_keys : bool)
  : list (string * pyval) -> option (list (string * string)) :=
  fix items (d : list (string * pyval)) : option (list (string * string)) :=
    match d with
    | [] => Some []
    | (k, x) :: d' =>
        match Codec.dumps sort_keys x, items d' with
        | Some s, Some r => Some ((k, s) :: r)
        | _, _ => None
        end
    end.

(** A verdict event at which [_enforce_block_sequence] goes on to the
    appends: a [WATCHDOG_VERDICT] with verdict [BLOCK] that has an
    [eventId] and a [taskId]. *)
Definition blocking_verdict (ev : dict) : bool :=
  Reducer.is_type (Reducer.get_str "type" ev) "WATCHDOG_VERDICT"
  && match Orchestrator.payload_get "verdict" ev with
     | Ok verdict => Reducer.is_str verdict "BLOCK"
     | Raise _ => false
     end
  && Py.otruthy (Py.get "eventId" ev)
  && Py.otruthy (Py.get "taskId" ev).

(** What the body of the loop of [_enforce_block_sequence] raises at an
    event: [AttributeError] at a [WATCHDOG_VERDICT] whose payload is not a
    dict, [NameError] at a blocking verdict. *)
Definition enforce_error (ev : dict) : option exn :=
  if Reducer.is_type (Reducer.get_str "type" ev) "WATCHDOG_VERDICT" then
    match Orchestrator.payload_get "verdict" ev with
    | Raise e => Some e
    | Ok _ =>
        if blocking_verdict ev
        then Some (NameError "name 'run_id' is not defined") else None
    end
  else None.

(** The conditions of the heartbeat check, at the time [now] (microseconds):
    the project is not finished and not halted, a heartbeat was seen, and
    it is at least the timeout old. *)
Definition project_finished (i : Orchestrator.event_info) : bool :=
  match Orchestrator.last_project_finished_at i with
  | Some finished =>
      match Orchestrator.last_project_started_at i with
      | None => true
      | Some started => started <? finished
      end
  | None => false
  end.

Definition project_halted (i : Orchestrator.event_info) : bool :=
  match Orchestrator.last_project_halted_at i with
  | Some halted =>
      match Orchestrator.last_project_resumed_at i with
      | None => true
      | Some resumed => resumed <? halted
      end
  | None => false
  end.

Definition heartbeat_overdue (lib : pylib) (cfg : Orchestrator.config)
  (events : list dict) (now : Z) : bool :=
  let i := Orchestrator.info (Orchestrator._event_index lib events) in
  negb (project_finished i) && negb (project_halted i)
  && match Orchestrator.last_heartbeat_at i with
     | Some last => Orchestrator.heartbeat_timeout_sec cfg * 1000000 <=? now - last
     | None => false
     end.

(** The exceptions of the two defects of the orchestrator. *)
Definition run_id_unbound : exn := NameError "name 'run_id' is not defined".

Definition run_id_unexpected : exn :=
  TypeError "_build_event() got an unexpected keyword argument 'run_id'".

(** The messages [validate_incoming] does not let pass: those of a worker
    or of the watchdog whose run is not the one that holds the lock. *)
Definition foreign_run (actor : string) (run_id expected : option string) : bool :=
  (String.eqb actor "worker" || String.eqb actor "watchdog")
  && (negb (Reducer.nonempty run_id) || negb (bool_decide (run_id = expected))).

(** Records of notifications.  [notified_for p t r] recognises a
    [RESULT_NOTIFIED] record of project [p] for the task [t] and the run
    [r]; [notified_key] is the idempotency key [_notify_result] gives it. *)
Definition notified_key (p : string) (t r : option string) : string :=
  p +:+ ":" +:+ Orchestrator.fmt t +:+ ":" +:+ Orchestrator.fmt r +:+ ":notified".

Definition is_notification (p : string) (d : dict) : bool :=
  Reducer.is_type (Reducer.get_str "type" d) "RESULT_NOTIFIED"
  && Reducer.is_str (Py.get "project" d) p.

Definition notified_for (p : string) (t r : option string) (l : line) : bool :=
  match loads l with
  | Decoded d =>
      is_notification p d
      && bool_decide (Reducer.get_str "taskId" d = t)
      && bool_decide (Reducer.get_str "runId" d = r)
  | DecodeError _ => false
  end.

(** Every notification record of the project in the log carries the key of
    its task and run. *)
Definition notifications_keyed (p : string) (s : store) : Prop :=
  forall l d, l ∈ events_ndjson s -> loads l = Decoded d ->
    is_notification p d = true ->
    Py.get "idempotencyKey" d
    = Some (PStr (notified_key p (Reducer.get_str "taskId" d) (Reducer.get_str "runId" d))).

(** What happens to the log between two looks at it: the orchestrator
    notifies the results of a status, or some event is appended. *)
Inductive log_action : Type :=
| NotifyResults (status : dict)
| AppendEvent (event : dict).

Definition run_action (lib : pylib) (cfg : Orchestrator.config) (w : world)
  (a : log_action) : world :=
  match a with
  | NotifyResults status => snd (Orchestrator._process_results lib cfg status w)
  | AppendEvent event => snd (StateManager.append_event lib event w)
  end.

Definition run_actions (lib : pylib) (cfg : Orchestrator.config)
  (actions : list log_action) (w : world) : world :=
  fold_left (run_action lib cfg) actions w.

(** The other appends are not notifications of the project. *)
Definition other_event (p : string) (a : log_action) : Prop :=
  match a with
  | NotifyResults _ => True
  | AppendEvent event => is_notification p event = false
  end.

(** An orchestrator of the project [demo], and a status with one blocked
    task. *)
Definition demo_config : Orchestrator.config :=
  {| Orchestrator.project := "demo"; Orchestrator.session_label := None;
     Orchestrator.heartbeat_timeout_sec := 180;
     Orchestrator.worker_timeout_minutes := 30 |}.

Definition blocked_status : dict :=
  [("tasks",
    PList [PDict [("taskId", PStr "T1"); ("state", PStr "blocked");
                  ("runId", PStr "r-1");
                  ("result", PDict [("failureReason", PStr "tests failed")])]])].

(** The number of notification records for a task and a run. *)
Definition notified_count (p : string) (t r : option string) (s : store) : nat :=
  length (List.filter (notified_for p t r) (events_ndjson s)).

(** The index of the project directory knows the key. *)
Definition recorded (k : string) (w : world) : Prop :=
  is_Some (StateManager._load_idempotency_index (files w) !! k).

(** The keys of the two events [_handle_corrupted] appends for a line. *)
Definition corrupted_keys (lib : pylib) (cfg : Orchestrator.config)
  (c : Z * string * string) : string * string :=
  let '(line_offset, reason, raw_line) := c in
  (Orchestrator.project cfg +:+ ":CORRUPTED_LINE:" +:+ pretty line_offset +:+ ":"
   +:+ sha256_hex lib raw_line,
   Orchestrator.project cfg +:+ ":RECOVERY_STARTED:" +:+ pretty line_offset +:+ ":"
   +:+ sha256_hex lib raw_line).

(** A damaged line, as [read_events] reports it, and the project after it
    was handled once. *)
Definition damaged_line : Z * string * string := (3, "crc_mismatch", "{bad").

Definition after_recovery : world :=
  snd (Orchestrator._handle_corrupted py_lib demo_config [damaged_line] fresh_world).

(** The time of a heartbeat event, when the event is one and its [at]
    parses. *)
Definition heartbeat_time (lib : pylib) (ev : dict) : option Z :=
  if Reducer.is_type (Reducer.get_str "type" ev) "WATCHDOG_HEARTBEAT"
  then Orchestrator._parse_time lib (Py.get "at" ev) else None.

(** The values the loop keeps in the project and watchdog parts of the
    status ([ProjectStatus] and [WatchdogStatus] of [protocol.py]). *)
Definition project_well_formed (p : Reducer.project_state) : Prop :=
  (Reducer.phase p = "running" \/ Reducer.phase p = "finished"
   \/ Reducer.phase p = "halted")
  /\ ((Reducer.mode p = "normal" /\ Reducer.degradedReason p = None)
      \/ (Reducer.mode p = "degraded"
          /\ (Reducer.degradedReason p = Some "watchdog_unresponsive"
              \/ Reducer.degradedReason p = Some "verdict_timeout"
              \/ Reducer.degradedReason p = Some "recovery_in_progress")))
  /\ (Reducer.phase p = "halted" -> Reducer.halted p = true)
  /\ (Reducer.locks_project_running p = true -> Reducer.phase p = "running").

Definition watchdog_well_formed (w : Reducer.watchdog_state) : Prop :=
  Reducer.wstate w = "healthy" \/ Reducer.wstate w = "unresponsive".

(** The same, read from the status the reducer returns. *)
Definition status_schema (status : dict) : Prop :=
  exists name phase halted mode reason progress heartbeat wstate locks tasks,
    Py.get "project" status
    = Some (PDict [("name", PStr name); ("phase", PStr phase); ("halted", PBool halted);
                   ("mode", PStr mode); ("degradedReason", reason);
                   ("progress", progress)])
    /\ Py.get "watchdog" status
       = Some (PDict [("lastHeartbeatAt", heartbeat); ("state", PStr wstate)])
    /\ Py.get "locks" status
       = Some (PDict [("project", PStr locks); ("tasks", PDict tasks)])
    /\ (phase = "running" \/ phase = "finished" \/ phase = "halted")
    /\ ((mode = "normal" /\ reason = PNone)
        \/ (mode = "degraded"
            /\ (reason = PStr "watchdog_unresponsive" \/ reason = PStr "verdict_timeout"
                \/ reason = PStr "recovery_in_progress"
                \/ reason = PStr "multiple_open_runs")))
    /\ (phase = "halted" -> halted = true)
    /\ (wstate = "healthy" \/ wstate = "unresponsive")
    /\ ((locks = "running" /\ halted = false /\ phase = "running") \/ locks = "idle").

(** The tasks of the loop are keyed by their ids, each id once; the open
    runs hold, for each task once, a list of runs that is not empty. *)
Definition tasks_ok (ts : list (string * Reducer.TaskState)) : Prop :=
  NoDup (map fst ts) /\ Forall (fun kt => Reducer.task_id (snd kt) = fst kt) ts.

Definition runs_ok (runs : list (string * list (option string))) : Prop :=
  NoDup (map fst runs) /\ Forall (fun kr => snd kr <> []) runs.

(** The [taskId] of each entry of [tasks] in a status, and the counts of
    [project.progress]. *)
Definition status_task_ids (status : dict) : list (option pyval) :=
  match Py.get "tasks" status with
  | Some (PList l) =>
      map (fun v => match v with PDict d => Py.get "taskId" d | _ => None end) l
  | _ => []
  end.

Definition progress_of (status : dict) : option (Z * Z * Z) :=
  match Py.get "progress" (project_of status) with
  | Some (PDict p) =>
      match Py.get "total" p, Py.get "done" p, Py.get "blocked" p with
      | Some (PInt t), Some (PInt d), Some (PInt b) => Some (t, d, b)
      | _, _, _ => None
      end
  | _ => None
  end.

(** The locks of the tasks and the alerts of a status. *)
Definition status_locks (status : dict) : dict :=
  match Py.get "locks" status with
  | Some (PDict l) => match Py.get "tasks" l with Some (PDict t) => t | _ => [] end
  | _ => []
  end.

Definition status_alerts (status : dict) : list pyval :=
  match Py.get "alerts" status with
  | Some (PList l) => l
  | _ => []
  end.

Definition alert_type (a : pyval) : option pyval :=
  match a with
  | PDict d => Py.get "type" d
  | _ => None
  end.

(** The alerts the loop raises are those of blocked tasks. *)
Definition blocked_alert (a : pyval) : Prop :=
  exists tid rid,
    a = PDict [("type", PStr "blocked"); ("taskId", PStr tid); ("runId", rid)].

(** The result of the task [T1] after its run [r-1] has failed. *)
Definition blocked_result : Orchestrator.task_result :=
  {| Orchestrator.r_taskId := Some "T1"; Orchestrator.r_state := "blocked";
     Orchestrator.r_runId := Some "r-1"; Orchestrator.r_result := [];
     Orchestrator.r_verdict := None; Orchestrator.r_evidencePath := None;
     Orchestrator.r_quality := None |}.

(** The hexadecimal digit, as a character, of a value below 16. *)
Definition lower_hex_char (n : Z) : ascii :=
  ascii_of_N (Z.to_N (if n <? 10 then 48 + n else 87 + n)).

(** The values [json.dumps] accepts: those that hold no foreign object. *)
Fixpoint serialisable (v : pyval) : bool :=
  match v with
  | PList l => forallb serialisable l
  | PDict d => forallb (fun kv => serialisable (snd kv)) d
  | PIntDict d => forallb (fun kv => serialisable (snd kv)) d
  | PObject _ => false
  | _ => true
  end.

(** The number of constructors of a value. *)
Fixpoint pyval_size (v : pyval) : nat :=
  match v with
  | PList l => S (list_sum (map pyval_size l))
  | PDict d => S (list_sum (map (fun kv => pyval_size (snd kv)) d))
  | PIntDict d => S (list_sum (map (fun kv => pyval_size (snd kv)) d))
  | _ => 1
  end.

(** An event that holds only JSON values, whatever its [crc32] field is
    (the field is overwritten before the event is encoded). *)
Definition json_event (event : dict) : bool :=
  serialisable (PDict (Py.set "crc32" (PStr "") event)).

(** The keys of the two events [_check_worker_timeouts] appends for a run. *)
Definition timeout_keys (cfg : Orchestrator.config) (t r : option string)
  : string * string :=
  (Orchestrator.project cfg +:+ ":" +:+ Orchestrator.fmt t +:+ ":"
   +:+ Orchestrator.fmt r +:+ ":WORKER_RUN_FAILED:timeout",
   Orchestrator.project cfg +:+ ":" +:+ Orchestrator.fmt t +:+ ":"
   +:+ Orchestrator.fmt r +:+ ":RUN_CLOSED:timeout").

(** The tasks of a status. *)
Definition status_tasks (status : dict) : list pyval :=
  match Py.get "tasks" status with
  | Some (PList tasks) => tasks
  | _ => []
  end.

(** The status shows the task [t] running with the run [r], and at the
    time [now] the first start of that run the log records is more than
    the worker timeout old. *)
Definition overdue (lib : pylib) (cfg : Orchestrator.config) (now : Z)
  (events : list dict) (status : dict) (t r : option string) : Prop :=
  exists task start,
    PDict task ∈ status_tasks status
    /\ Reducer.get_str "taskId" task = t
    /\ Reducer.get_str "runId" task = r
    /\ Reducer.is_str (Py.get "state" task) "running" = true
    /\ Reducer.nonempty r = true
    /\ Orchestrator.start_time lib t r events = Some start
    /\ Orchestrator.worker_timeout_minutes cfg * 60000000 < now - start.

(** A run whose start is a day old, the status reduced from its log, and
    the project after the timeout check. *)
Definition stale_start : dict :=
  ("at", PStr "2026-11-03T00:00:00.000000Z") :: run_started.

Definition stalled_world : world :=
  snd (append_all py_lib [run_intent; stale_start] fresh_world).

Definition stalled_status : dict :=
  match fst (Reducer.reduce_events py_lib stalled_world) with
  | Ok r => Reducer.status r
  | Raise _ => []
  end.

Definition after_timeout_check : world :=
  snd (Orchestrator._check_worker_timeouts py_lib demo_config stalled_status stalled_world).

(** A project whose watchdog was last heard 400 seconds before the clock
    of the process shows 2026-11-04T00:00:00Z. *)
Definition stale_heartbeat : dict :=
  ev "WATCHDOG_HEARTBEAT"
     [("at", PStr "2026-11-03T23:53:20.000000Z"); ("actor", PStr "watchdog");
      ("idempotencyKey", PStr "demo:heartbeat:1")].

Definition silent_world : world :=
  snd (append_all py_lib
         [ev "PROJECT_STARTED" [("idempotencyKey", PStr "demo:start")]; stale_heartbeat]
         fresh_world).

(** The types of the records of the log, in file order. *)
Definition stored_types (s : store) : list (option string) :=
  map (fun l => match loads l with
                | Decoded d => Reducer.get_str "type" d
                | DecodeError _ => None
                end) (events_ndjson s).

(** ** CRC-32 of IEEE 802.3

    The check sequence as the standard defines it: the remainder of the
    division of the message by the generator polynomial
    x^32 + x^26 + x^23 + x^22 + x^16 + x^12 + x^11 + x^10 + x^8 + x^7 + x^5
    + x^4 + x^2 + x + 1, the bits of each byte taken least significant
    first, the remainder started at all ones and complemented at the end.
    This is the reference [zlib.crc32] is compared with. *)

Module Crc32.






(** The check sequence as a number: the coefficient of x^31 is its least
    significant bit. *)
Definition value (r : list bool) : Z :=
  fold_right (fun b acc => Z.b2z b + 2 * acc) 0 r.


End Crc32.






(** The typing of the fields the reducer reads, as [EventBase] and
    [TaskSpec] declare it: [type], [project], [taskId], [runId] and
    [idempotencyKey] hold a [str] or [None], [eventId] a [str],
    [sequenceNumber] an [int]; [payload] is a dict, and the [tasks] it
    may list are dicts whose [taskId] is a [str] or [None]. *)
Definition optional_str (v : option pyval) : bool :=
  match v with
  | None | Some PNone | Some (PStr _) => true
  | _ => false
  end.

Definition typed_spec (spec : pyval) : bool :=
  match spec with
  | PDict d => optional_str (Py.get "taskId" d)
  | _ => false
  end.

Definition typed_payload (v : option pyval) : bool :=
  match v with
  | None | Some PNone => true
  | Some (PDict d) =>
      match Py.get "tasks" d with
      | None | Some PNone => true
      | Some (PList specs) => forallb typed_spec specs
      | _ => false
      end
  | _ => false
  end.

Definition typed_event (e : dict) : bool :=
  forallb (fun k => optional_str (Py.get k e))
          ["type"; "project"; "taskId"; "runId"; "idempotencyKey"]
  && match Py.get "eventId" e with None | Some (PStr _) => true | _ => false end
  && match Py.get "sequenceNumber" e with None | Some (PInt _) => true | _ => false end
  && typed_payload (Py.get "payload" e).

Definition typed_log (events : list dict) : Prop :=
  Forall (fun e => typed_event e = true) events.

(** * Properties *)

(** ** Dictionaries *)

Lemma get_set_eq k v d : Py.get k (Py.set k v d) = Some v.
Proof.
  induction d as [|[k' v'] d IH]; simpl.
  - now rewrite String.eqb_refl.
  - destruct (String.eqb k k') eqn:E; simpl; rewrite E; auto.
Qed.

Lemma get_set_ne k k' v d : k <> k' -> Py.get k (Py.set k' v d) = Py.get k d.
Proof.
  intros Hne. induction d as [|[k2 v2] d IH]; simpl.
  - destruct (String.eqb k k') eqn:E; auto.
    apply String.eqb_eq in E. contradiction.
  - destruct (String.eqb k' k2) eqn:E; simpl.
    + apply String.eqb_eq in E. subst k2.
      destruct (String.eqb k k') eqn:E2; auto.
      apply String.eqb_eq in E2. contradiction.
    + destruct (String.eqb k k2); auto.
Qed.


Lemma get_setdefault_present k v d x :
  Py.get k d = Some x -> Py.setdefault k v d = d.
Proof. intros H. unfold Py.setdefault, Py.mem. now rewrite H. Qed.

Lemma get_setdefault_ne k k' v d :
  k <> k' -> Py.get k (Py.setdefault k' v d) = Py.get k d.
Proof.
  intros Hne. unfold Py.setdefault. destruct (Py.mem k' d); auto.
  now apply get_set_ne.
Qed.

Lemma get_setdefault_absent k v d :
  Py.get k d = None -> Py.get k (Py.setdefault k v d) = Some v.
Proof.
  intros H. unfold Py.setdefault, Py.mem. rewrite H. apply get_set_eq.
Qed.

(** ** Codec *)

Example crc32_check_value :
  Codec.format_08X (Codec.zlib_crc32 (Codec.bytes_of "123456789")) = "CBF43926".
Proof. vm_compute. reflexivity. Qed.

Example canonical_json_sample :
  Codec.canonical_json
    [("type", PStr "T");
     ("payload", PDict [("b", PInt (-3)); ("a", PList [PNone; PBool true])]);
     ("crc32", PStr "DEADBEEF")]
  = Some ("{" +:+ Codec.quote "crc32" +:+ ":" +:+ Codec.quote "" +:+ ","
          +:+ Codec.quote "payload" +:+ ":{" +:+ Codec.quote "a" +:+ ":[null,true],"
          +:+ Codec.quote "b" +:+ ":-3}," +:+ Codec.quote "type" +:+ ":"
          +:+ Codec.quote "T" +:+ "}").
Proof. vm_compute. reflexivity. Qed.











(** ** The canonical encoding *)

Lemma dumps_dict (b : bool) (d : dict) :
  Codec.dumps b (PDict d)
  = match render_items b d with
    | Some kvs =>
        Some ("{" +:+ Codec.join ","
                (map Codec.render_item (if b then stable_sort Codec.key_le kvs else kvs))
              +:+ "}")
    | None => None
    end.
Proof. reflexivity. Qed.

Lemma render_items_keys (b : bool) (d : dict) (kvs : list (string * string)) :
  render_items b d = Some kvs -> map fst kvs = map fst d.
Proof.
  revert kvs. induction d as [|[k x] d IH]; intros kvs; cbn [render_items].
  - now intros [= <-].
  - fold (render_items b d). destruct (Codec.dumps b x); [|discriminate].
    destruct (render_items b d) as [r|]; [|discriminate].
    intros [= <-]. cbn. f_equal. now apply IH.
Qed.


(** ** What is read back *)

Lemma get_reload_dict k (d : dict) :
  Py.get k (Codec.reload_dict d) = option_map Codec.reload (Py.get k d).
Proof.
  unfold Codec.reload_dict.
  induction d as [|[k' v] d IH]; cbn [map Py.get fst snd option_map]; [reflexivity|].
  destruct (String.eqb k k'); [reflexivity|exact IH].
Qed.

Lemma get_str_reload_dict k (d : dict) :
  Reducer.get_str k (Codec.reload_dict d) = Reducer.get_str k d.
Proof.
  unfold Reducer.get_str. rewrite get_reload_dict.
  destruct (Py.get k d) as [[]|]; reflexivity.
Qed.

Lemma is_str_reload_dict k (d : dict) s :
  Reducer.is_str (Py.get k (Codec.reload_dict d)) s = Reducer.is_str (Py.get k d) s.
Proof.
  rewrite get_reload_dict. destruct (Py.get k d) as [[]|]; reflexivity.
Qed.

Lemma get_reload_dict_str k (d : dict) s :
  Py.get k (Codec.reload_dict d) = Some (PStr s) <-> Py.get k d = Some (PStr s).
Proof.
  rewrite get_reload_dict.
  destruct (Py.get k d) as [[]|]; cbn [option_map Codec.reload]; split; congruence.
Qed.







(** ** State manager *)

Lemma append_event_inv lib event w r w' :
  StateManager.append_event lib event w = (Ok r, w') ->
  exists key,
    Py.get "idempotencyKey" event = Some key /\
    ((StateManager.key_in key (StateManager._load_idempotency_index (files w)) = Ok true
      /\ r = StateManager.Deduped /\ w' = w)
     \/
     (StateManager.key_in key (StateManager._load_idempotency_index (files w)) = Ok false
      /\ exists crc text,
          let ev := filled_event lib event w in
          let seq := StateManager._read_last_sequence (files w) + 1 in
          Codec.compute_crc32 ev = Some crc /\
          Codec.dumps false (PDict (Py.set "crc32" (PStr crc) ev)) = Some text /\
          r = StateManager.Appended (Py.set "crc32" (PStr crc) ev) /\
          w' = with_files
                 {| events_ndjson := (events_ndjson (files w) ++
                      [{| raw := text;
                          loads := Decoded (Codec.reload_dict
                                              (Py.set "crc32" (PStr crc) ev)) |}])%list;
                    idempotency_index :=
                      Some (<[StateManager.index_key key := seq]>
                              (StateManager._load_idempotency_index (files w)));
                    sequence_json := Some seq |}
                 (S (S (calls w))) w)).
Proof.
  unfold StateManager.append_event.
  destruct (Py.get "idempotencyKey" event) as [key|]; [|discriminate].
  intros H. exists key. split; [reflexivity|].
  unfold mbind, M_bind, get_files in H.
  destruct (StateManager.key_in key _) as [[|]|e] eqn:Hk.
  - left. unfold mret, M_ret in H. injection H as <- <-. auto.
  - right. split; [reflexivity|].
    unfold call_uuid4_hex, StateManager.utc_now, mbind, M_bind, call_now, mret, M_ret in H.
    cbn [bump files uuid4_hex uuid_v7 clock calls] in H.
    fold (filled_event lib event w) in H.
    destruct (Codec.compute_crc32 (filled_event lib event w)) as [crc|] eqn:Hc;
      [|discriminate].
    destruct (Codec.dumps false _) as [text|] eqn:Hd; [|discriminate].
    unfold put_files in H. cbn [bump files uuid4_hex uuid_v7 clock calls] in H.
    injection H as <- <-. exists crc, text. cbn zeta. auto.
  - discriminate.
Qed.

(** C10: [verify_crc32] is defined on every event dictionary and tolerates
    a missing [crc32]: when the field is absent, [None] or empty, and also
    when the recomputation raises (an event [json.dumps] rejects), the
    result is [False]; no exception escapes. *)
Theorem verify_crc32_tolerates_absence (event : dict) :
  Py.otruthy (Py.get "crc32" event) = false \/ Codec.compute_crc32 event = None ->
  Codec.verify_crc32 event = false.
Proof.
  unfold Codec.verify_crc32, Py.otruthy.
  destruct (Py.get "crc32" event) as [crc|]; [|reflexivity].
  intros [-> | ->]; [reflexivity|]. now destruct (Py.truthy crc).
Qed.

Lemma verify_crc32_tolerates_absence_witness :
  (Py.otruthy (Py.get "crc32" first_event) = false \/
   Codec.compute_crc32 first_event = None) /\
  Codec.verify_crc32 first_event = false.
Proof.
  split; [left; reflexivity|].
  apply (verify_crc32_tolerates_absence first_event). left. reflexivity.
Defined.

(** An event that [json.dumps] rejects does not verify either, whatever
    its [crc32] field says. *)
Example verify_crc32_unserialisable :
  Codec.verify_crc32 [("payload", PObject true); ("crc32", PStr "ECABB26F")] = false.
Proof. reflexivity. Qed.

(** ** Timestamps *)

Example strftime_sample : Iso.strftime 1793750400123456 = "2026-11-04T00:00:00.123456Z".
Proof. vm_compute. reflexivity. Qed.
Example strptime_sample : Iso.strptime "2026-11-04T00:00:00.123456Z" = Some 1793750400123456.
Proof. vm_compute. reflexivity. Qed.
Example strptime_epoch : Iso.strptime "1970-01-01T00:00:00.000000Z" = Some 0.
Proof. vm_compute. reflexivity. Qed.
Example strptime_bad : Iso.strptime "2026-13-04T00:00:00.123456Z" = None.
Proof. vm_compute. reflexivity. Qed.

(** ** Digests *)

Example sha256_constants :
  length Sha256.primes = 64%nat /\
  nth 0 Sha256.K 0 = 0x428a2f98 /\ nth 63 Sha256.K 0 = 0xc67178f2 /\
  nth 0 Sha256.H0 0 = 0x6a09e667 /\ nth 7 Sha256.H0 0 = 0x5be0cd19.
Proof. vm_compute. auto. Qed.

Example sha256_abc :
  Sha256.hexdigest "abc" = "ba7816bf8f01cfea414140de5dae2223b00361a396177a9cb410ff61f20015ad".
Proof. vm_compute. reflexivity. Qed.

Example sha256_empty :
  Sha256.hexdigest "" = "e3b0c44298fc1c149afbf4c8996fb92427ae41e4649b934ca495991b7852b855".
Proof. vm_compute. reflexivity. Qed.

Example sha256_two_blocks :
  Sha256.hexdigest
    "The quick brown fox jumps over the lazy dog, and then it does so again and again."
  = "a1ede53ce35bda42e3c2b0f8981f0a8186000340e031025cd55cd6f0fa522f78".
Proof. vm_compute. reflexivity. Qed.

Lemma filled_event_get lib event w k :
  k <> "eventId" -> k <> "schemaVersion" -> k <> "sequenceNumber" -> k <> "at" ->
  Py.get k (filled_event lib event w) = Py.get k event.
Proof.
  intros. unfold filled_event. cbn zeta.
  now rewrite !get_setdefault_ne by assumption.
Qed.

Lemma stored_event_get lib event w crc k :
  k <> "eventId" -> k <> "schemaVersion" -> k <> "sequenceNumber" -> k <> "at" ->
  k <> "crc32" ->
  Py.get k (Py.set "crc32" (PStr crc) (filled_event lib event w)) = Py.get k event.
Proof.
  intros. rewrite get_set_ne by assumption. now apply filled_event_get.
Qed.

Lemma filled_event_sequence_absent lib event w :
  Py.get "sequenceNumber" event = None ->
  Py.get "sequenceNumber" (filled_event lib event w) =
    Some (PInt (StateManager._read_last_sequence (files w) + 1)).
Proof.
  intros H. unfold filled_event. cbn zeta.
  rewrite get_setdefault_ne by discriminate.
  apply get_setdefault_absent.
  now rewrite !get_setdefault_ne by discriminate.
Qed.

Lemma filled_event_sequence_present lib event w v :
  Py.get "sequenceNumber" event = Some v ->
  Py.get "sequenceNumber" (filled_event lib event w) = Some v.
Proof.
  intros H. unfold filled_event. cbn zeta.
  rewrite get_setdefault_ne by discriminate.
  assert (Hv : Py.get "sequenceNumber"
                 (Py.setdefault "schemaVersion" (PInt 1)
                    (Py.setdefault "eventId" (PStr ("e-" +:+ uuid4_hex w (calls w))) event))
               = Some v)
    by now rewrite !get_setdefault_ne by discriminate.
  now rewrite (get_setdefault_present _ _ _ _ Hv).
Qed.

(** An event whose key is in the index is deduplicated and nothing is
    written. *)
Lemma append_event_recorded lib event w k :
  Py.get "idempotencyKey" event = Some (PStr k) ->
  is_Some (StateManager._load_idempotency_index (files w) !! k) ->
  StateManager.append_event lib event w = (Ok StateManager.Deduped, w).
Proof.
  intros Hk Hin. unfold StateManager.append_event. rewrite Hk.
  unfold mbind, M_bind, get_files. cbn [StateManager.key_in].
  now rewrite bool_decide_eq_true_2.
Qed.


(** ** Order facts behind the reducer's sort *)

Lemma ascii_compare_lt_trans (a b c : ascii) :
  Ascii.compare a b = Lt -> Ascii.compare b c = Lt -> Ascii.compare a c = Lt.
Proof.
  unfold Ascii.compare. rewrite !N.compare_lt_iff. lia.
Qed.

Lemma string_compare_lt_trans (s t u : string) :
  String.compare s t = Lt -> String.compare t u = Lt -> String.compare s u = Lt.
Proof.
  revert t u. induction s as [|a s IH]; intros [|b t] [|c u]; simpl; try congruence.
  destruct (Ascii.compare a b) eqn:Eab; try discriminate.
  - apply Ascii.compare_eq_iff in Eab. subst b.
    destruct (Ascii.compare a c) eqn:Eac; try congruence. apply IH.
  - intros _. destruct (Ascii.compare b c) eqn:Ebc; try discriminate.
    + apply Ascii.compare_eq_iff in Ebc. subst c. now rewrite Eab.
    + intros _. now rewrite (ascii_compare_lt_trans _ _ _ Eab Ebc).
Qed.

Lemma string_leb_trans (s t u : string) :
  String.leb s t = true -> String.leb t u = true -> String.leb s u = true.
Proof.
  unfold String.leb.
  destruct (String.compare s t) eqn:Est; try discriminate;
    destruct (String.compare t u) eqn:Etu; try discriminate; intros _ _.
  - apply String.compare_eq_iff in Est. subst t. now rewrite Etu.
  - apply String.compare_eq_iff in Est. subst t. now rewrite Etu.
  - apply String.compare_eq_iff in Etu. subst u. now rewrite Est.
  - now rewrite (string_compare_lt_trans _ _ _ Est Etu).
Qed.

Lemma key_le_total (a b : Z * string) :
  Reducer.key_le a b = true \/ Reducer.key_le b a = true.
Proof.
  unfold Reducer.key_le. destruct a as [m s], b as [n t]; simpl.
  destruct (Z.ltb_spec m n); [now left|].
  destruct (Z.ltb_spec n m); [now right|].
  assert (m = n) by lia. subst n. rewrite Z.eqb_refl. simpl.
  apply String.leb_total.
Qed.

Lemma key_le_trans (a b c : Z * string) :
  Reducer.key_le a b = true -> Reducer.key_le b c = true -> Reducer.key_le a c = true.
Proof.
  unfold Reducer.key_le. destruct a as [m s], b as [n t], c as [o u]; simpl.
  rewrite !orb_true_iff, !andb_true_iff, !Z.ltb_lt, !Z.eqb_eq.
  intros [Hmn|[-> Hst]] [Hno|[-> Htu]]; try (left; lia).
  right. split; [reflexivity|]. eapply string_leb_trans; eassumption.
Qed.

Lemma key_le_antisym (a b : Z * string) :
  Reducer.key_le a b = true -> Reducer.key_le b a = true -> a = b.
Proof.
  unfold Reducer.key_le. destruct a as [m s], b as [n t]; simpl.
  rewrite !orb_true_iff, !andb_true_iff, !Z.ltb_lt, !Z.eqb_eq.
  intros [Hmn|[Hmn Hst]] [Hnm|[Hnm Hts]]; try lia.
  subst n. f_equal. now apply String.leb_antisym.
Qed.

(** ** The stable sort

    Insertion keeps the elements of each key in their order, and the result
    is sorted; these two facts determine the sorted list. *)

Section StableSortFacts.
Context {A K : Type} `{EqDecision K} (key : A -> K) (kle : K -> K -> bool).
Hypothesis kle_total : forall a b, kle a b = true \/ kle b a = true.
Hypothesis kle_trans : forall a b c, kle a b = true -> kle b c = true -> kle a c = true.
Hypothesis kle_antisym : forall a b, kle a b = true -> kle b a = true -> a = b.

Let le (x y : A) : bool := kle (key x) (key y).
Let sorted : list A -> Prop := StronglySorted (fun x y => le x y = true).

Lemma kle_refl (a : K) : kle a a = true.
Proof. now destruct (kle_total a a). Qed.

Lemma sort_insert_filter (k : K) (x : A) (l : list A) :
  filter (fun y => key y = k) (sort_insert le x l) = filter (fun y => key y = k) (x :: l).
Proof.
  induction l as [|y l IH]; [reflexivity|].
  simpl. destruct (le x y) eqn:E; [reflexivity|].
  assert (Hne : key x <> key y).
  { intros Heq. unfold le in E. rewrite Heq, kle_refl in E. discriminate. }
  rewrite (filter_cons _ y), IH, !filter_cons.
  destruct (decide (key y = k)), (decide (key x = k)); congruence.
Qed.

Lemma stable_sort_filter (k : K) (l : list A) :
  filter (fun y => key y = k) (stable_sort le l) = filter (fun y => key y = k) l.
Proof.
  induction l as [|x l IH]; [reflexivity|].
  simpl. now rewrite sort_insert_filter, !filter_cons, IH.
Qed.



Lemma sort_insert_Forall (P : A -> Prop) (x : A) (l : list A) :
  P x -> Forall P l -> Forall P (sort_insert le x l).
Proof.
  intros Hx. induction 1 as [|y l Hy Hl IH]; simpl.
  - now constructor.
  - destruct (le x y); repeat constructor; assumption.
Qed.

Lemma sort_insert_sorted (x : A) (l : list A) : sorted l -> sorted (sort_insert le x l).
Proof.
  induction 1 as [|y l Hs IH Hall]; simpl.
  - repeat constructor.
  - destruct (le x y) eqn:E.
    + constructor; [now constructor|].
      constructor; [exact E|].
      eapply Forall_impl; [exact Hall|].
      intros z Hz. simpl in Hz. unfold le in *. eapply kle_trans; eassumption.
    + constructor; [exact IH|].
      apply sort_insert_Forall; [|exact Hall].
      unfold le in *. destruct (kle_total (key x) (key y)); congruence.
Qed.

Lemma stable_sort_sorted (l : list A) : sorted (stable_sort le l).
Proof.
  induction l as [|x l IH]; simpl; [constructor|now apply sort_insert_sorted].
Qed.

Lemma sorted_head_least (x : A) (l : list A) (y : A) :
  sorted (x :: l) -> y ∈ x :: l -> le x y = true.
Proof.
  intros Hs Hy. inversion Hs as [|? ? _ Hall]; subst.
  apply elem_of_cons in Hy as [->|Hy]; [apply kle_refl|].
  rewrite Forall_forall in Hall. now apply Hall.
Qed.

Lemma sorted_determined (l1 l2 : list A) :
  sorted l1 -> sorted l2 ->
  (forall k, filter (fun y => key y = k) l1 = filter (fun y => key y = k) l2) ->
  l1 = l2.
Proof.
  revert l2. induction l1 as [|x l1 IH]; intros [|y l2] H1 H2 H.
  - reflexivity.
  - specialize (H (key y)). rewrite filter_cons_True in H by reflexivity. discriminate.
  - specialize (H (key x)). rewrite filter_cons_True in H by reflexivity. discriminate.
  - assert (Hxy : le x y = true).
    { apply (sorted_head_least x l1 y H1).
      assert (Hin : y ∈ filter (fun z => key z = key y) (x :: l1)).
      { rewrite H, filter_cons_True by reflexivity. left. }
      now apply list_elem_of_filter in Hin as [_ Hin]. }
    assert (Hyx : le y x = true).
    { apply (sorted_head_least y l2 x H2).
      assert (Hin : x ∈ filter (fun z => key z = key x) (y :: l2)).
      { rewrite <- H, filter_cons_True by reflexivity. left. }
      now apply list_elem_of_filter in Hin as [_ Hin]. }
    assert (Hk : key x = key y) by now apply kle_antisym.
    assert (Hhd : x = y /\ forall k, filter (fun z => key z = k) l1 = filter (fun z => key z = k) l2).
    { pose proof (H (key x)) as Hx.
      rewrite filter_cons_True in Hx by reflexivity.
      rewrite filter_cons_True in Hx by (now symmetry).
      injection Hx as Hx Htl. split; [exact Hx|]. subst y.
      intros k. destruct (decide (key x = k)) as [<-|Hne]; [exact Htl|].
      specialize (H k). now rewrite !filter_cons_False in H by exact Hne. }
    destruct Hhd as [-> Htl]. f_equal.
    apply IH; [now inversion H1|now inversion H2|exact Htl].
Qed.

Lemma stable_sort_determined (l1 l2 : list A) :
  (forall k, filter (fun y => key y = k) l1 = filter (fun y => key y = k) l2) ->
  stable_sort le l1 = stable_sort le l2.
Proof.
  intros H. apply sorted_determined; try apply stable_sort_sorted.
  intros k. now rewrite !stable_sort_filter.
Qed.

End StableSortFacts.

(** ** [zlib.crc32] computes the CRC-32 of IEEE 802.3 *)


























Lemma first_append_result :
  StateManager.append_event py_lib first_event fresh_world
  = (Ok (StateManager.Appended first_stored), after_first_append).
Proof.
  unfold first_stored, after_first_append, first_append.
  destruct (StateManager.append_event py_lib first_event fresh_world) as [r w0] eqn:E.
  assert (Hr : exists ev, fst (StateManager.append_event py_lib first_event fresh_world)
                          = Ok (StateManager.Appended ev))
    by (vm_compute; eexists; reflexivity).
  destruct Hr as [ev Hr]. rewrite E in Hr. cbn [fst snd] in *. now rewrite Hr.
Qed.


(** The idempotency scenario run on an empty project: the first call
    appends, the second is deduplicated, one record is in the log and
    [lastSequence] is 1. *)
Example idempotent_append_run :
  observe_appends py_lib [first_event; second_event] fresh_world
  = (["appended"; "deduped"], [Some (PInt 1)], Some 1).
Proof. vm_compute. reflexivity. Qed.


(** What one call adds to the log, when the last sequence is [n]. *)
Lemma append_event_number lib event w n :
  StateManager._read_last_sequence (files w) = Z.of_nat n ->
  let out := StateManager.append_event lib event w in
  let s := status_of (fst out) in
  recorded_sequence (files (snd out))
  = (recorded_sequence (files w) ++ numbers_given n [(s, event)])%list
  /\ length (events_ndjson (files (snd out)))
     = (length (events_ndjson (files w)) + count_appended [s])%nat
  /\ StateManager._read_last_sequence (files (snd out))
     = Z.of_nat (n + count_appended [s]).
Proof.
  intros Hlast. cbv zeta.
  destruct (StateManager.append_event lib event w) as [[r|e] w'] eqn:E; cbn [fst snd].
  - apply append_event_inv in E as (key & _ & [(_ & -> & ->) | (_ & crc & text & H)]).
    + cbn. rewrite app_nil_r, !Nat.add_0_r. auto.
    + cbn zeta in H. destruct H as (_ & _ & -> & ->).
      cbn [status_of numbers_given String.eqb Ascii.eqb Bool.eqb count_appended
           List.filter length].
      unfold recorded_sequence.
      cbn [with_files files events_ndjson StateManager._read_last_sequence sequence_json].
      rewrite map_app, length_app. cbn [map loads length].
      rewrite get_reload_dict, get_set_ne by discriminate.
      split; [|split; [reflexivity|rewrite Hlast; lia]].
      f_equal. f_equal.
      destruct (Py.get "sequenceNumber" event) as [v|] eqn:Hv.
      * now rewrite (filled_event_sequence_present _ _ _ _ Hv).
      * rewrite (filled_event_sequence_absent _ _ _ Hv), Hlast. reflexivity.
  - assert (Hw : files w' = files w).
    { unfold StateManager.append_event in E.
      destruct (Py.get "idempotencyKey" event) as [key|]; [|now injection E as _ <-].
      unfold mbind, M_bind, get_files in E.
      destruct (StateManager.key_in key _) as [[|]|e0]; [discriminate| |now injection E as _ <-].
      unfold call_uuid4_hex, StateManager.utc_now, mbind, M_bind, call_now, mret, M_ret in E.
      cbn [bump files uuid4_hex uuid_v7 clock calls] in E.
      destruct (Codec.compute_crc32 _); [|now injection E as _ <-].
      destruct (Codec.dumps false _); [discriminate|now injection E as _ <-]. }
    cbn. rewrite Hw, app_nil_r, !Nat.add_0_r. auto.
Qed.

Lemma run_appends_numbers lib events : forall w n,
  StateManager._read_last_sequence (files w) = Z.of_nat n ->
  let statuses := fst (run_appends lib events w) in
  let w' := snd (run_appends lib events w) in
  recorded_sequence (files w')
  = (recorded_sequence (files w) ++ numbers_given n (combine statuses events))%list
  /\ length (events_ndjson (files w'))
     = (length (events_ndjson (files w)) + count_appended statuses)%nat
  /\ StateManager._read_last_sequence (files w')
     = Z.of_nat (n + count_appended statuses).
Proof.
  induction events as [|e events IH]; intros w n Hlast; cbv zeta.
  - cbn. rewrite app_nil_r, !Nat.add_0_r. auto.
  - cbn [run_appends].
    destruct (append_event_number lib e w n Hlast) as (H1 & H2 & H3).
    destruct (StateManager.append_event lib e w) as [r w1]; cbn [fst snd] in *.
    specialize (IH w1 _ H3). cbv zeta in IH. destruct IH as (I1 & I2 & I3).
    destruct (run_appends lib events w1) as [rs w2]; cbn [fst snd combine] in *.
    rewrite I1, I2, I3, H1, H2, <- app_assoc.
    unfold count_appended in *. cbn [numbers_given List.filter] in *.
    destruct (String.eqb "appended" (status_of r)) eqn:Es.
    + apply String.eqb_eq in Es. rewrite <- Es. cbn [String.eqb Ascii.eqb Bool.eqb].
      cbn [length app] in *.
      replace (n + 1)%nat with (S n) by lia.
      split; [reflexivity|]. split; [lia|]. f_equal. lia.
    + assert (Es' : String.eqb (status_of r) "appended" = false)
        by (now rewrite String.eqb_sym).
      rewrite Es'. cbn [length app] in *. rewrite !Nat.add_0_r.
      split; [reflexivity|]. split; reflexivity.
Qed.

Lemma combine_fst {A B} (l : list A) : forall l' : list B,
  length l = length l' -> map fst (combine l l') = l.
Proof.
  induction l as [|x l IH]; intros [|y l'] H; try discriminate; [reflexivity|].
  cbn [combine map fst]. f_equal. apply IH. now injection H.
Qed.

Lemma combine_snd {A B} (l : list A) : forall l' : list B,
  length l = length l' -> map snd (combine l l') = l'.
Proof.
  induction l as [|x l IH]; intros [|y l'] H; try discriminate; [reflexivity|].
  cbn [combine map snd]. f_equal. apply IH. now injection H.
Qed.

Lemma numbers_given_counting n (run : list (string * dict)) :
  Forall (fun e => Py.get "sequenceNumber" e = None) (map snd run) ->
  numbers_given n run
  = map (fun i => Some (PInt (Z.of_nat i)))
        (seq (S n) (count_appended (map fst run))).
Proof.
  revert n. induction run as [|[s e] run IH]; intros n Hall; [reflexivity|].
  cbn [map fst snd] in Hall. inversion Hall as [|? ? He Hall']; subst.
  unfold count_appended in *. cbn [numbers_given map fst List.filter].
  rewrite (String.eqb_sym "appended" s).
  destruct (String.eqb s "appended"); [|now apply IH].
  rewrite He. cbn [length seq map]. rewrite IH by assumption.
  f_equal. f_equal. f_equal. lia.
Qed.

(** C3, as the code has it.  On a fresh project, after any sequence of
    [append_event] calls that all return, of which [k] append: the log
    holds [k] records and the last sequence is [k]; each record carries the
    [sequenceNumber] its event brought, if it brought one, and otherwise the
    number after the last sequence at its call.  So when no event brings a
    [sequenceNumber] of its own, the recorded values are exactly 1, 2, ...,
    [k] in file order: contiguous, strictly increasing, without gaps or
    duplicates. *)
Theorem sequence_numbers_contiguous lib events w :
  files w = fresh_project ->
  Forall (fun s => s <> "raised") (fst (run_appends lib events w)) ->
  let statuses := fst (run_appends lib events w) in
  let w' := snd (run_appends lib events w) in
  let k := count_appended statuses in
  recorded_sequence (files w') = numbers_given 0 (combine statuses events)
  /\ length (events_ndjson (files w')) = k
  /\ StateManager._read_last_sequence (files w') = Z.of_nat k
  /\ (Forall (fun e => Py.get "sequenceNumber" e = None) events ->
      recorded_sequence (files w') = counting_from_one k
      /\ NoDup (recorded_sequence (files w'))).
Proof.
  intros Hfresh _. cbv zeta.
  destruct (run_appends_numbers lib events w 0) as (H1 & H2 & H3).
  { now rewrite Hfresh. }
  cbv zeta in *. rewrite Hfresh in H1, H2. cbn [recorded_sequence fresh_project
    events_ndjson map app length Nat.add] in H1, H2.
  split; [exact H1|]. split; [exact H2|]. split; [exact H3|].
  intros Hnone.
  assert (Hlen : length (fst (run_appends lib events w)) = length events).
  { clear. revert w. induction events as [|e events IH]; intros w; [reflexivity|].
    cbn [run_appends]. destruct (StateManager.append_event lib e w) as [r w1].
    specialize (IH w1). destruct (run_appends lib events w1) as [rs w2].
    cbn [fst length] in *. now rewrite IH. }
  assert (Hc : recorded_sequence (files (snd (run_appends lib events w)))
               = counting_from_one (count_appended (fst (run_appends lib events w)))).
  { rewrite H1, numbers_given_counting.
    - now rewrite combine_fst.
    - now rewrite combine_snd. }
  split; [exact Hc|]. rewrite Hc. unfold counting_from_one. apply NoDup_fmap_2.
  - intros i j [=]. lia.
  - apply NoDup_ListNoDup, seq_NoDup.
Qed.

Lemma three_appends_run :
  fst (run_appends py_lib three_appends fresh_world) = ["appended"; "appended"; "deduped"].
Proof. vm_compute. reflexivity. Qed.

Lemma sequence_numbers_contiguous_witness :
  fst (run_appends py_lib three_appends fresh_world) = ["appended"; "appended"; "deduped"]
  /\ recorded_sequence (files after_three_appends) = [Some (PInt 1); Some (PInt 2)]
  /\ length (events_ndjson (files after_three_appends)) = 2%nat
  /\ StateManager._read_last_sequence (files after_three_appends) = 2
  /\ NoDup (recorded_sequence (files after_three_appends)).
Proof.
  split; [exact three_appends_run|].
  assert (Hr : Forall (fun s => s <> "raised")
                 (fst (run_appends py_lib three_appends fresh_world))).
  { rewrite three_appends_run. repeat constructor; discriminate. }
  destruct (sequence_numbers_contiguous py_lib three_appends fresh_world eq_refl Hr)
    as (_ & H2 & H3 & H4).
  destruct H4 as [H4 H5]; [repeat constructor|].
  cbv zeta in *. fold after_three_appends in H2, H3, H4, H5.
  rewrite three_appends_run in H2, H3, H4.
  split; [exact H4|]. split; [exact H2|]. split; [exact H3|exact H5].
Defined.

(** C3 as stated fails: an event that brings [sequenceNumber] 5 is appended
    to a fresh project with that number, since [append_event] fills the
    field in with [setdefault]; the log then reads 5, not 1. *)
Lemma sequence_number_kept_from_caller :
  append_all py_lib [numbered_event] fresh_world = (Ok tt, after_numbered_append) /\
  recorded_sequence (files after_numbered_append) = [Some (PInt 5)] /\
  recorded_sequence (files after_numbered_append) <>
    counting_from_one (length (events_ndjson (files after_numbered_append))).
Proof.
  assert (Hrec : recorded_sequence (files after_numbered_append) = [Some (PInt 5)])
    by (vm_compute; reflexivity).
  split; [|split; [exact Hrec|]].
  - unfold after_numbered_append.
    destruct (append_all py_lib [numbered_event] fresh_world) as [r w0] eqn:E.
    assert (Hr : fst (append_all py_lib [numbered_event] fresh_world) = Ok tt)
      by (vm_compute; reflexivity).
    rewrite E in Hr. cbn [fst snd] in *. now rewrite Hr.
  - rewrite Hrec.
    assert (Hlen : length (events_ndjson (files after_numbered_append)) = 1%nat)
      by (vm_compute; reflexivity).
    rewrite Hlen. discriminate.
Qed.





Example first_stored_crc32 :
  Py.get "crc32" first_stored = Some (PStr "ECABB26F") /\
  Codec.verify_crc32 first_stored = true /\
  Codec.verify_crc32 (Py.set "payload" (PStr "tampered") first_stored) = false.
Proof. vm_compute. auto. Qed.



(** * Further properties of the code *)

Local Set Warnings "-clear-no-such-hyp".

(** ** The reducer's sort *)

Lemma with_keys_filter (events : list dict) (ks : list ((Z * string) * dict)) (k : Z * string) :
  Reducer.with_keys events = Some ks ->
  Reducer.with_keys (keyed_by (Some k) events) = Some (filter (fun p => fst p = k) ks).
Proof.
  revert ks. induction events as [|e events IH]; intros ks; simpl.
  - now intros [= <-].
  - destruct (Reducer.sort_key e) as [k0|] eqn:Ek; [|discriminate].
    destruct (Reducer.with_keys events) as [r|]; [|discriminate].
    intros [= <-]. specialize (IH r eq_refl).
    unfold keyed_by in *. rewrite !filter_cons. simpl.
    destruct (decide (Reducer.sort_key e = Some k)) as [Hk|Hk];
      destruct (decide (k0 = k)) as [Hk'|Hk']; try congruence.
    simpl. now rewrite Ek, IH.
Qed.

Lemma with_keys_none (events : list dict) :
  Reducer.with_keys events = None <-> keyed_by None events <> [].
Proof.
  unfold keyed_by. induction events as [|e events IH]; simpl.
  - split; [discriminate|]. intros H. exfalso. now apply H.
  - rewrite filter_cons.
    destruct (decide (Reducer.sort_key e = None)) as [Hk|Hk].
    + rewrite Hk. split; [discriminate|reflexivity].
    + destruct (Reducer.sort_key e); [|congruence].
      destruct (Reducer.with_keys events).
      * split; [discriminate|]. intros H. now apply IH in H.
      * split; [|reflexivity]. intros _. now apply IH.
Qed.

Lemma sort_events_reordering (events events' : list dict) :
  (forall k, keyed_by k events = keyed_by k events') ->
  Reducer.sort_events events = Reducer.sort_events events'.
Proof.
  intros H. unfold Reducer.sort_events.
  destruct (Reducer.with_keys events) as [ks|] eqn:E;
    destruct (Reducer.with_keys events') as [ks'|] eqn:E'.
  - do 2 f_equal.
    apply (stable_sort_determined fst Reducer.key_le
             key_le_total key_le_trans key_le_antisym).
    intros k.
    pose proof (with_keys_filter _ _ k E) as F.
    pose proof (with_keys_filter _ _ k E') as F'.
    rewrite H in F. congruence.
  - apply with_keys_none in E'. rewrite <- H in E'.
    apply with_keys_none in E'. congruence.
  - apply with_keys_none in E. rewrite H in E.
    apply with_keys_none in E. congruence.
  - reflexivity.
Qed.

(** C8, as the code has it.  For events typed as [EventBase] declares, the
    status reduced at a given time does not depend on the order in which
    the log lists its events, as long as events with the same sort key
    [(sequenceNumber, eventId)] keep their relative order: the sort is
    stable and its order on the keys is total. *)
Theorem reduce_stream_reordering (lib : pylib) (now : string)
  (corrupted : list (Z * string * string)) (events events' : list dict) :
  typed_log events -> typed_log events' ->
  (forall k, keyed_by k events = keyed_by k events') ->
  Reducer.reduce_stream lib now events corrupted
  = Reducer.reduce_stream lib now events' corrupted.
Proof.
  intros _ _ H. unfold Reducer.reduce_stream.
  now rewrite (sort_events_reordering _ _ H).
Qed.

(** ** The loop of the reducer *)

Lemma step_seen (st : Reducer.fold_state) (e : dict) (k : string) :
  replay_key e = Some k -> k ∈ Reducer.seen_keys st -> Reducer.step st e = st.
Proof.
  unfold replay_key, Reducer.step. intros Hk Hin.
  destruct (Reducer.nonempty (Reducer.get_str "idempotencyKey" e)); [|discriminate].
  rewrite Hk. simpl. now rewrite bool_decide_eq_true_2.
Qed.

Lemma step_seen_keys (st : Reducer.fold_state) (e : dict) :
  Reducer.seen_keys (Reducer.step st e)
  = match replay_key e with
    | Some k => {[k]} ∪ Reducer.seen_keys st
    | None => Reducer.seen_keys st
    end.
Proof.
  unfold replay_key, Reducer.step.
  destruct (Reducer.nonempty (Reducer.get_str "idempotencyKey" e)) eqn:En; simpl.
  - destruct (Reducer.get_str "idempotencyKey" e) as [k|] eqn:Ek; [|discriminate En].
    simpl. destruct (bool_decide (k ∈ Reducer.seen_keys st)) eqn:Hin.
    + apply bool_decide_eq_true_1 in Hin. set_solver.
    + now destruct (if Reducer.nonempty _ then _ else _) as [[? ?] ?].
  - now destruct (if Reducer.nonempty _ then _ else _) as [[? ?] ?].
Qed.

Lemma replay_seen_mono (events : list dict) (st : Reducer.fold_state) :
  Reducer.seen_keys st ⊆ Reducer.seen_keys (replay_from st events).
Proof.
  revert st. induction events as [|e events IH]; intros st; simpl; [reflexivity|].
  etransitivity; [|apply IH]. rewrite step_seen_keys.
  destruct (replay_key e); set_solver.
Qed.

Lemma replay_from_app (st : Reducer.fold_state) (l1 l2 : list dict) :
  replay_from st (l1 ++ l2) = replay_from (replay_from st l1) l2.
Proof. apply fold_left_app. Qed.

Lemma replay_repeated_key (st : Reducer.fold_state) (e e' : dict) (mid post : list dict)
  (k : string) :
  replay_key e = Some k -> replay_key e' = Some k ->
  replay_from st (e :: mid ++ e' :: post) = replay_from st (e :: mid ++ post).
Proof.
  intros Hk Hk'.
  change (e :: mid ++ e' :: post)%list with ((e :: mid) ++ e' :: post)%list.
  change (e :: mid ++ post)%list with ((e :: mid) ++ post)%list.
  rewrite !replay_from_app.
  change (replay_from (replay_from st (e :: mid)) (e' :: post))
    with (replay_from (Reducer.step (replay_from st (e :: mid)) e') post).
  rewrite (step_seen _ e' k Hk'); [reflexivity|].
  change (replay_from st (e :: mid)) with (replay_from (Reducer.step st e) mid).
  apply (replay_seen_mono mid). rewrite step_seen_keys, Hk. set_solver.
Qed.

Lemma project_step_core (etype : option string) (n1 n2 : string)
  (p1 p2 : Reducer.project_state) :
  project_core p1 = project_core p2 ->
  project_core (Reducer.project_step etype n1 p1)
  = project_core (Reducer.project_step etype n2 p2).
Proof.
  destruct p1, p2. unfold project_core. simpl. intros [= -> -> -> -> ->].
  unfold Reducer.project_step. simpl.
  repeat (destruct (Reducer.is_type etype _); [reflexivity|]). reflexivity.
Qed.

Lemma step_core (st1 st2 : Reducer.fold_state) (e : dict) :
  core st1 = core st2 ->
  (forall k, replay_key e = Some k ->
             (k ∈ Reducer.seen_keys st1 <-> k ∈ Reducer.seen_keys st2)) ->
  core (Reducer.step st1 e) = core (Reducer.step st2 e).
Proof.
  intros Hc Hk. pose proof Hc as Hc'. unfold core in Hc'.
  remember (project_core (Reducer.project st1)) as c1 eqn:E1.
  remember (project_core (Reducer.project st2)) as c2 eqn:E2.
  injection Hc' as Hp Hw Hr Ha Ht Ho. subst c1 c2.
  unfold Reducer.step. unfold replay_key in Hk.
  destruct (Reducer.nonempty (Reducer.get_str "idempotencyKey" e)) eqn:En; simpl.
  - destruct (Reducer.get_str "idempotencyKey" e) as [k|]; [|discriminate En].
    simpl. specialize (Hk k eq_refl).
    rewrite (bool_decide_ext _ _ Hk).
    destruct (bool_decide (k ∈ Reducer.seen_keys st2)); [exact Hc|].
    rewrite Ha, Ht, Ho.
    destruct (if Reducer.nonempty _ then _ else _) as [[a t] r].
    unfold core. simpl. rewrite Hw, Hr.
    do 5 f_equal. now apply project_step_core.
  - rewrite Ha, Ht, Ho.
    destruct (if Reducer.nonempty _ then _ else _) as [[a t] r].
    unfold core. simpl. rewrite Hw, Hr.
    do 5 f_equal. now apply project_step_core.
Qed.

Lemma run_bound_cases (etype : option string) :
  Reducer.is_run_bound etype = true ->
  exists t, etype = Some t /\ t ∈ Reducer.run_bound_types.
Proof.
  unfold Reducer.is_run_bound. rewrite existsb_exists.
  intros (t & Hin & Ht). destruct etype as [s|]; [|discriminate].
  simpl in Ht. apply String.eqb_eq in Ht. subst s.
  exists t. split; [reflexivity|]. now apply list_elem_of_In.
Qed.

Lemma run_bound_outside_project (etype : option string) (n : string)
  (p : Reducer.project_state) (event : dict) (w : Reducer.watchdog_state)
  (rs : list pyval) :
  Reducer.is_run_bound etype = true ->
  project_core (Reducer.project_step etype n p) = project_core p
  /\ Reducer.watchdog_step etype event w = w
  /\ Reducer.telemetry_step etype event rs = rs.
Proof.
  intros H. apply run_bound_cases in H as (t & -> & Hin).
  unfold Reducer.run_bound_types in Hin.
  repeat (apply elem_of_cons in Hin as [->|Hin]; [now destruct p|]).
  now apply elem_of_nil in Hin.
Qed.

Lemma step_stray_core (st : Reducer.fold_state) (e : dict) :
  stray_at st e = true -> core (Reducer.step st e) = core st.
Proof.
  unfold stray_at. intros H.
  destruct (Reducer.get_str "taskId" e) as [tid|] eqn:Etid; [|discriminate].
  apply andb_true_iff in H as [Hne H].
  destruct (Reducer.lookup tid (Reducer.tasks st)) as [t|] eqn:Et; [|discriminate].
  assert (Hb : Reducer.is_run_bound (Reducer.get_str "type" e) = true).
  { unfold Reducer.stray in H. now rewrite !andb_true_iff in H. }
  unfold Reducer.step.
  destruct (_ && _); [reflexivity|].
  rewrite Etid, Hne. simpl.
  unfold Reducer.task_step, Reducer.get_task. rewrite Et, H.
  unfold core. simpl.
  destruct (run_bound_outside_project _
              (if Reducer.nonempty (Reducer.get_str "project" e)
               then default "" (Reducer.get_str "project" e)
               else if Reducer.nonempty (Reducer.project_name st)
                    then default "" (Reducer.project_name st) else "unknown")
              (Reducer.project st) e (Reducer.watchdog st) (Reducer.risks st) Hb)
    as (-> & -> & ->).
  reflexivity.
Qed.

Lemma replay_core (post : list dict) (extra : gset string) (st1 st2 : Reducer.fold_state) :
  core st1 = core st2 ->
  Reducer.seen_keys st1 = extra ∪ Reducer.seen_keys st2 ->
  (forall x k, x ∈ post -> replay_key x = Some k -> k ∉ extra) ->
  core (replay_from st1 post) = core (replay_from st2 post).
Proof.
  revert st1 st2. induction post as [|x post IH]; intros st1 st2 Hc Hs Hx; [exact Hc|].
  simpl. apply IH.
  - apply step_core; [exact Hc|]. intros k Hk. rewrite Hs.
    assert (k ∉ extra) by (apply (Hx x); [left|exact Hk]). set_solver.
  - rewrite !step_seen_keys, Hs. destruct (replay_key x); set_solver.
  - intros y k Hy. apply Hx. now right.
Qed.

Lemma replay_stray (st : Reducer.fold_state) (e : dict) (post : list dict) :
  stray_at st e = true ->
  (forall x, x ∈ post -> replay_key x = None \/ replay_key x <> replay_key e) ->
  core (replay_from st (e :: post)) = core (replay_from st post).
Proof.
  intros He Hpost. simpl.
  apply (replay_core post (match replay_key e with Some k => {[k]} | None => ∅ end)).
  - now apply step_stray_core.
  - rewrite step_seen_keys. destruct (replay_key e); set_solver.
  - intros x k Hx Hk. destruct (Hpost x Hx) as [H|H]; [congruence|].
    destruct (replay_key e); set_solver.
Qed.

Lemma assemble_core (lib : pylib) (now : string) (corrupted : list (Z * string * string))
  (st1 st2 : Reducer.fold_state) :
  core st1 = core st2 ->
  anonymous (Reducer.status (Reducer.assemble lib now st1 corrupted))
  = anonymous (Reducer.status (Reducer.assemble lib now st2 corrupted)).
Proof.
  unfold core, project_core. intros [= Hph Hh Hm Hd Hl Hw Hr Ha Ht Ho].
  unfold Reducer.assemble. rewrite Hd, Ht, Ho.
  destruct (Reducer.derive_locks (Reducer.open_runs st2)) as [locks lock_alerts].
  unfold anonymous, project_of. simpl.
  now rewrite Hph, Hh, Hm, Hl, Hw, Hr, Ha.
Qed.

(** C9, as the code has it.  For events typed as [EventBase] declares, a
    run-bound event that reaches the loop while its task is bound to
    another run is ignored: if no later event repeats its idempotency key,
    the status is the one of the log without that event, the name of the
    project apart (the loop reads the name before it reaches the guard). *)
Theorem stray_event_ignored (lib : pylib) (now : string)
  (corrupted : list (Z * string * string)) (log log' pre post : list dict) (e : dict) :
  typed_log log ->
  Reducer.sort_events log = Some (pre ++ e :: post)%list ->
  Reducer.sort_events log' = Some (pre ++ post)%list ->
  stray_at (replay pre) e = true ->
  (forall x, x ∈ post -> replay_key x = None \/ replay_key x <> replay_key e) ->
  exists r r',
    Reducer.reduce_stream lib now log corrupted = Ok r
    /\ Reducer.reduce_stream lib now log' corrupted = Ok r'
    /\ anonymous (Reducer.status r) = anonymous (Reducer.status r').
Proof.
  intros _ Hs Hs' He Hpost. unfold Reducer.reduce_stream. rewrite Hs, Hs'.
  eexists _, _. split; [reflexivity|]. split; [reflexivity|].
  apply assemble_core.
  change (core (replay_from Reducer.initial_state (pre ++ e :: post))
          = core (replay_from Reducer.initial_state (pre ++ post))).
  rewrite !replay_from_app. now apply replay_stray.
Qed.

(** X3.  For events typed as [EventBase] declares (the key a [str]), of
    the events that carry the same idempotency key the loop applies the
    first in the sorted order: a log from which a later one is missing has
    the same status. *)
Theorem repeated_key_ignored (lib : pylib) (now : string)
  (corrupted : list (Z * string * string)) (log log' pre mid post : list dict)
  (e e' : dict) (k : string) :
  typed_log log ->
  Reducer.sort_events log = Some (pre ++ e :: mid ++ e' :: post)%list ->
  Reducer.sort_events log' = Some (pre ++ e :: mid ++ post)%list ->
  replay_key e = Some k -> replay_key e' = Some k ->
  Reducer.reduce_stream lib now log corrupted
  = Reducer.reduce_stream lib now log' corrupted.
Proof.
  intros _ Hs Hs' Hk Hk'. unfold Reducer.reduce_stream. rewrite Hs, Hs'.
  do 2 f_equal.
  change (replay_from Reducer.initial_state (pre ++ e :: mid ++ e' :: post)
          = replay_from Reducer.initial_state (pre ++ e :: mid ++ post)).
  rewrite !replay_from_app. now apply (replay_repeated_key _ e e' mid post k).
Qed.

Lemma reduce_stream_reordering_witness :
  typed_log [run_verdict; run_started; run_intent]
  /\ (forall k, keyed_by k [run_verdict; run_started; run_intent]
                = keyed_by k [run_intent; run_started; run_verdict])
  /\ Reducer.reduce_stream py_lib "2026-11-04T00:00:00.000000Z"
       [run_verdict; run_started; run_intent] []
     = Reducer.reduce_stream py_lib "2026-11-04T00:00:00.000000Z"
         [run_intent; run_started; run_verdict] [].
Proof.
  split; [repeat constructor|].
  assert (H : forall k, keyed_by k [run_verdict; run_started; run_intent]
                        = keyed_by k [run_intent; run_started; run_verdict]).
  { intros k. unfold keyed_by. rewrite !filter_cons, !filter_nil.
    change (Reducer.sort_key run_verdict) with (Some (4, "e-04")).
    change (Reducer.sort_key run_started) with (Some (2, "e-02")).
    change (Reducer.sort_key run_intent) with (Some (1, "e-01")).
    repeat case_decide; congruence. }
  split; [exact H|].
  apply (reduce_stream_reordering py_lib _ [] _ _); [repeat constructor..|exact H].
Defined.

(** C8 as stated fails.  Two events with the same sequence number and the
    same id are applied in the order of the file: the two orders of the
    log below both keep the order of the sequence numbers, and the
    statuses reduced from them at the same time differ. *)
Lemma reduce_stream_tie_order :
  typed_log [halt_event; resume_event]
  /\ Reducer.sort_key halt_event = Reducer.sort_key resume_event
  /\ status_field "project"
       (Reducer.reduce_stream py_lib "2026-11-04T00:00:00.000000Z"
          [halt_event; resume_event] [])
     <> status_field "project"
          (Reducer.reduce_stream py_lib "2026-11-04T00:00:00.000000Z"
             [resume_event; halt_event] []).
Proof.
  split; [repeat constructor|]. split; [reflexivity|]. vm_compute. discriminate.
Qed.

Lemma stray_event_ignored_witness :
  exists r r',
    Reducer.reduce_stream py_lib "2026-11-04T00:00:00.000000Z"
      [run_started; late_completed; run_verdict; run_intent] [] = Ok r
    /\ Reducer.reduce_stream py_lib "2026-11-04T00:00:00.000000Z"
         [run_started; run_verdict; run_intent] [] = Ok r'
    /\ anonymous (Reducer.status r) = anonymous (Reducer.status r').
Proof.
  apply (stray_event_ignored py_lib _ [] _ _ [run_intent; run_started] [run_verdict]
           late_completed).
  - repeat constructor.
  - reflexivity.
  - reflexivity.
  - vm_compute. reflexivity.
  - intros x Hx. apply list_elem_of_singleton in Hx as ->. right.
    change (replay_key run_verdict) with (Some "demo:T1:r-1:verdict").
    change (replay_key late_completed) with (Some "demo:T1:r-0:completed").
    intros [=].
Defined.

(** C9 as stated fails.  The ignored event has marked its idempotency key
    as seen, and a later event of the bound run with that key is skipped,
    although it is applied when the ignored event is absent: the task ends
    [running] with the stray event in the log and [blocked] without it. *)
Lemma stray_event_key_still_seen :
  typed_log [run_intent; run_started; late_completed; run_failed_same_key]
  /\ stray_at (replay [run_intent; run_started]) late_completed = true
  /\ status_field "tasks"
       (Reducer.reduce_stream py_lib "2026-11-04T00:00:00.000000Z"
          [run_intent; run_started; late_completed; run_failed_same_key] [])
     <> status_field "tasks"
          (Reducer.reduce_stream py_lib "2026-11-04T00:00:00.000000Z"
             [run_intent; run_started; run_failed_same_key] []).
Proof.
  split; [repeat constructor|]. split; [vm_compute; reflexivity|vm_compute; discriminate].
Qed.

Lemma repeated_key_ignored_witness :
  Reducer.reduce_stream py_lib "2026-11-04T00:00:00.000000Z"
    [run_started_again; run_intent; run_verdict; run_started] []
  = Reducer.reduce_stream py_lib "2026-11-04T00:00:00.000000Z"
      [run_intent; run_verdict; run_started] [].
Proof.
  apply (repeated_key_ignored py_lib _ [] _ _ [run_intent] [run_verdict] []
           run_started run_started_again "demo:T1:r-1:started");
    [repeat constructor|reflexivity..].
Defined.

(** ** More on the state manager *)

Lemma append_event_raise_inv lib event w e w' :
  StateManager.append_event lib event w = (Raise e, w') ->
  files w' = files w
  /\ ((Py.get "idempotencyKey" event = None
       /\ e = ValueError "idempotencyKey is required" /\ w' = w)
      \/ (exists key msg, Py.get "idempotencyKey" event = Some key /\ e = TypeError msg)).
Proof.
  unfold StateManager.append_event.
  destruct (Py.get "idempotencyKey" event) as [key|].
  - unfold mbind, M_bind, get_files.
    destruct (StateManager.key_in key _) as [[|]|e0] eqn:Hk.
    + discriminate.
    + unfold call_uuid4_hex, StateManager.utc_now, mbind, M_bind, call_now, mret, M_ret.
      cbn [bump files uuid4_hex uuid_v7 clock calls].
      destruct (Codec.compute_crc32 _) as [crc|].
      * destruct (Codec.dumps false _) as [text|]; [discriminate|].
        intros [= <- <-]. split; [reflexivity|]. right. eauto.
      * intros [= <- <-]. split; [reflexivity|]. right. eauto.
    + intros [= <- <-]. split; [reflexivity|]. right.
      destruct key; try discriminate; injection Hk as <-; eauto.
  - intros [= <- <-]. split; [reflexivity|]. left. auto.
Qed.


Lemma mem_get k d : Py.mem k d = true <-> Py.get k d <> None.
Proof. unfold Py.mem. destruct (Py.get k d); split; congruence. Qed.

Lemma mem_setdefault k v d : Py.mem k (Py.setdefault k v d) = true.
Proof.
  unfold Py.setdefault. destruct (Py.mem k d) eqn:E; [exact E|].
  apply mem_get. now rewrite get_set_eq.
Qed.

Lemma mem_setdefault_other k k' v d :
  Py.mem k d = true -> Py.mem k (Py.setdefault k' v d) = true.
Proof.
  intros H. destruct (String.eqb_spec k k') as [->|Hne]; [apply mem_setdefault|].
  apply mem_get. rewrite get_setdefault_ne by assumption. now apply mem_get.
Qed.

Lemma get_setdefault_kept k k' v d x :
  Py.get k d = Some x -> Py.get k (Py.setdefault k' v d) = Some x.
Proof.
  intros H. destruct (String.eqb_spec k k') as [->|Hne].
  - now rewrite (get_setdefault_present _ v _ _ H).
  - now rewrite get_setdefault_ne.
Qed.

(** X6.  The record [append_event] stores keeps every field the caller
    gave, [crc32] apart, and has the fields [eventId], [schemaVersion],
    [sequenceNumber], [at] and [crc32]; a field the caller left out is
    filled in: [schemaVersion] with 1, [sequenceNumber] with the last
    sequence plus one, [eventId] with [e-] and the fresh uuid. *)
Theorem append_event_fills_missing_fields lib event w stored w' :
  StateManager.append_event lib event w = (Ok (StateManager.Appended stored), w') ->
  (forall k v, k <> "crc32" -> Py.get k event = Some v -> Py.get k stored = Some v)
  /\ Forall (fun k => Py.mem k stored = true)
       ["eventId"; "schemaVersion"; "sequenceNumber"; "at"; "crc32"]
  /\ (Py.get "schemaVersion" event = None -> Py.get "schemaVersion" stored = Some (PInt 1))
  /\ (Py.get "sequenceNumber" event = None ->
      Py.get "sequenceNumber" stored
      = Some (PInt (StateManager._read_last_sequence (files w) + 1)))
  /\ (Py.get "eventId" event = None ->
      Py.get "eventId" stored = Some (PStr ("e-" +:+ uuid4_hex w (calls w)))).
Proof.
  intros H. apply append_event_inv in H as (key & _ & [(_ & [=] & _) | (_ & crc & text & H)]).
  cbn zeta in H. destruct H as (_ & _ & [= ->] & _).
  split; [|split; [|split; [|split]]].
  - intros k v Hk Hv. rewrite get_set_ne by assumption.
    unfold filled_event. cbn zeta. now do 4 apply get_setdefault_kept.
  - repeat constructor; apply mem_get; try (rewrite get_set_eq; discriminate);
      rewrite get_set_ne by discriminate; apply mem_get; unfold filled_event; cbn zeta.
    + do 3 apply mem_setdefault_other. apply mem_setdefault.
    + do 2 apply mem_setdefault_other. apply mem_setdefault.
    + apply mem_setdefault_other. apply mem_setdefault.
    + apply mem_setdefault.
  - intros Hn. rewrite get_set_ne by discriminate. unfold filled_event. cbn zeta.
    do 2 (rewrite get_setdefault_ne by discriminate).
    apply get_setdefault_absent. now rewrite get_setdefault_ne by discriminate.
  - intros Hn. rewrite get_set_ne by discriminate.
    now apply filled_event_sequence_absent.
  - intros Hn. rewrite get_set_ne by discriminate. unfold filled_event. cbn zeta.
    do 3 (rewrite get_setdefault_ne by discriminate).
    now apply get_setdefault_absent.
Qed.

Lemma append_event_fills_missing_fields_witness :
  (forall k v, k <> "crc32" -> Py.get k first_event = Some v ->
               Py.get k first_stored = Some v)
  /\ Forall (fun k => Py.mem k first_stored = true)
       ["eventId"; "schemaVersion"; "sequenceNumber"; "at"; "crc32"]
  /\ (Py.get "schemaVersion" first_event = None ->
      Py.get "schemaVersion" first_stored = Some (PInt 1))
  /\ (Py.get "sequenceNumber" first_event = None ->
      Py.get "sequenceNumber" first_stored
      = Some (PInt (StateManager._read_last_sequence (files fresh_world) + 1)))
  /\ (Py.get "eventId" first_event = None ->
      Py.get "eventId" first_stored
      = Some (PStr ("e-" +:+ uuid4_hex fresh_world (calls fresh_world)))).
Proof.
  exact (append_event_fills_missing_fields py_lib first_event fresh_world first_stored
           after_first_append first_append_result).
Defined.

(** What a call leaves in the files: nothing new, or one more record. *)
Lemma append_event_files lib event w :
  files (snd (StateManager.append_event lib event w)) = files w
  \/ exists key crc text,
       Py.get "idempotencyKey" event = Some key
       /\ StateManager.key_in key (StateManager._load_idempotency_index (files w)) = Ok false
       /\ Codec.compute_crc32 (filled_event lib event w) = Some crc
       /\ Codec.dumps false (PDict (Py.set "crc32" (PStr crc) (filled_event lib event w)))
          = Some text
       /\ files (snd (StateManager.append_event lib event w))
          = {| events_ndjson :=
                 (events_ndjson (files w)
                  ++ [{| raw := text;
                         loads := Decoded (Codec.reload_dict
                                             (Py.set "crc32" (PStr crc)
                                                (filled_event lib event w))) |}])%list;
               idempotency_index :=
                 Some (<[StateManager.index_key key :=
                           StateManager._read_last_sequence (files w) + 1]>
                         (StateManager._load_idempotency_index (files w)));
               sequence_json := Some (StateManager._read_last_sequence (files w) + 1) |}.
Proof.
  destruct (StateManager.append_event lib event w) as [[r|e] w'] eqn:E; simpl.
  - apply append_event_inv in E as (key & Hk & [(_ & -> & ->) | (Hin & crc & text & H)]).
    + now left.
    + right. cbn zeta in H. destruct H as (Hc & Hd & -> & ->).
      exists key, crc, text. auto.
  - left. now apply append_event_raise_inv in E as (-> & _).
Qed.



Lemma stored_line_key lib event w crc key :
  Py.get "idempotencyKey" event = Some key ->
  Py.get "idempotencyKey" (Py.set "crc32" (PStr crc) (filled_event lib event w)) = Some key.
Proof. intros H. now rewrite stored_event_get by discriminate. Qed.

Lemma string_keys_snoc s l idx sq :
  string_keys {| events_ndjson := (events_ndjson s ++ [l])%list;
                 idempotency_index := idx; sequence_json := sq |}
  = (string_keys s
     ++ match line_key l with Some (PStr k) => [k] | _ => [] end)%list.
Proof.
  unfold string_keys. cbn [events_ndjson]. rewrite omap_app. f_equal.
  simpl. destruct (line_key l) as [[]|]; reflexivity.
Qed.

Lemma append_event_keys_indexed lib event w :
  keys_indexed (files w) ->
  keys_indexed (files (snd (StateManager.append_event lib event w))).
Proof.
  intros [Hnd Hcov].
  destruct (append_event_files lib event w) as [->|(key & crc & text & Hk & Hin & _ & _ & ->)];
    [now split|].
  unfold keys_indexed. rewrite string_keys_snoc.
  unfold line_key. cbn [loads].
  rewrite get_reload_dict, (stored_line_key _ _ _ _ _ Hk). cbn [option_map].
  unfold StateManager._load_idempotency_index at 1. cbn [idempotency_index].
  destruct key as [| | |k| | | |]; cbn [Codec.reload]; rewrite ?app_nil_r;
    try (split; [exact Hnd|]; intros k' Hk'; apply lookup_insert_is_Some';
         right; now apply Hcov).
  cbn [StateManager.key_in] in Hin. injection Hin as Hin.
  apply bool_decide_eq_false in Hin.
  split.
  - apply NoDup_app. split; [exact Hnd|]. split; [|apply NoDup_singleton].
    intros k' Hk' Heq. apply list_elem_of_singleton in Heq as ->. apply Hin. now apply Hcov.
  - intros k' Hk'. apply lookup_insert_is_Some'. cbn [StateManager.index_key].
    apply elem_of_app in Hk' as [Hk'|Hk']; [right; now apply Hcov|].
    apply list_elem_of_singleton in Hk' as ->. now left.
Qed.

Lemma run_appends_snd lib e events w :
  snd (run_appends lib (e :: events) w)
  = snd (run_appends lib events (snd (StateManager.append_event lib e w))).
Proof.
  cbn [run_appends]. destruct (StateManager.append_event lib e w) as [r w1].
  cbn [snd]. now destruct (run_appends lib events w1).
Qed.

(** X7.  No two records of a log written by [append_event] carry the same
    string [idempotencyKey], and the index knows the key of every record:
    from a project in that state, in particular a fresh one, every run of
    calls, whether they return or raise, ends in such a state. *)
Theorem appended_keys_stay_distinct lib events w :
  keys_indexed (files w) ->
  keys_indexed (files (snd (run_appends lib events w))).
Proof.
  revert w. induction events as [|e events IH]; intros w H; [exact H|].
  rewrite run_appends_snd. apply IH. now apply append_event_keys_indexed.
Qed.

Lemma fresh_project_keys_indexed : keys_indexed fresh_project.
Proof. split; [constructor|]. intros k Hk. now apply elem_of_nil in Hk. Qed.

Lemma appended_keys_stay_distinct_witness :
  keys_indexed (files fresh_world)
  /\ keys_indexed (files (snd (run_appends py_lib [first_event; second_event] fresh_world))).
Proof.
  split; [exact fresh_project_keys_indexed|].
  exact (appended_keys_stay_distinct py_lib [first_event; second_event] fresh_world
           fresh_project_keys_indexed).
Defined.




(** ** The canonical encoding and the order of the keys *)

Lemma render_items_perm (b : bool) (d d' : dict) :
  d ≡ₚ d' ->
  match render_items b d, render_items b d' with
  | Some kvs, Some kvs' => kvs ≡ₚ kvs'
  | None, None => True
  | _, _ => False
  end.
Proof.
  induction 1 as [|[k x] d d' _ IH|[k x] [k' y] d|d1 d2 d3 _ IH1 _ IH2].
  - simpl. reflexivity.
  - cbn [render_items]. fold (render_items b d) (render_items b d').
    destruct (Codec.dumps b x), (render_items b d), (render_items b d'); try tauto.
    now constructor.
  - cbn [render_items]. fold (render_items b d).
    destruct (Codec.dumps b x), (Codec.dumps b y), (render_items b d); try tauto.
    apply perm_swap.
  - destruct (render_items b d1), (render_items b d2), (render_items b d3); try tauto.
    now transitivity l0.
Qed.

Lemma unique_key_filter {A K : Type} `{EqDecision K} (key : A -> K) (l l' : list A) (k : K) :
  NoDup (map key l) -> l ≡ₚ l' ->
  filter (fun y => key y = k) l = filter (fun y => key y = k) l'.
Proof.
  intros Hnd Hp. revert Hnd.
  induction Hp as [|x l l' _ IH|x y l|l1 l2 l3 Hp1 IH1 _ IH2]; intros Hnd.
  - reflexivity.
  - rewrite !filter_cons. cbn [map] in Hnd. apply NoDup_cons in Hnd as [_ Hnd].
    now rewrite IH.
  - rewrite !filter_cons. cbn [map] in Hnd. apply NoDup_cons in Hnd as [Hy _].
    destruct (decide (key y = k)) as [Ey|], (decide (key x = k)) as [Ex|]; try reflexivity.
    exfalso. apply Hy. rewrite Ey, <- Ex. left.
  - rewrite IH1 by exact Hnd. apply IH2.
    assert (Hm : map key l1 ≡ₚ map key l2) by now apply Permutation_map.
    now rewrite <- Hm.
Qed.

Lemma get_elem_of (k : string) (d : dict) (v : pyval) :
  NoDup (map fst d) -> (Py.get k d = Some v <-> (k, v) ∈ d).
Proof.
  induction d as [|[k' x] d IH]; cbn [Py.get map fst]; intros Hnd.
  - split; [discriminate|]. intros H. now apply elem_of_nil in H.
  - apply NoDup_cons in Hnd as [Hk Hnd]. rewrite elem_of_cons.
    destruct (String.eqb_spec k k') as [->|Hne].
    + split; [intros [= ->]; now left|].
      intros [[= ->]|Hin]; [reflexivity|].
      exfalso. apply Hk. apply list_elem_of_fmap. now exists (k', v).
    + rewrite (IH Hnd). split; [now right|]. intros [[= -> _]|Hin]; [congruence|exact Hin].
Qed.

Lemma get_perm (k : string) (d d' : dict) :
  NoDup (map fst d) -> d ≡ₚ d' -> Py.get k d = Py.get k d'.
Proof.
  intros Hnd Hp.
  assert (Hm : map fst d ≡ₚ map fst d') by now apply Permutation_map.
  assert (Hnd' : NoDup (map fst d')) by now rewrite <- Hm.
  destruct (Py.get k d) as [v|] eqn:E.
  - symmetry. apply get_elem_of; [exact Hnd'|]. rewrite <- Hp. now apply get_elem_of.
  - destruct (Py.get k d') as [v|] eqn:E'; [|reflexivity].
    apply get_elem_of in E'; [|exact Hnd']. rewrite <- Hp in E'.
    apply get_elem_of in E'; [congruence|exact Hnd].
Qed.

Lemma filter_other_keys (k : string) (d : list (string * pyval)) :
  k ∉ map fst d -> filter (fun p => fst p <> k) d = d.
Proof.
  induction d as [|[k' x] d IH]; intros Hk; [reflexivity|].
  cbn [map fst] in Hk. apply not_elem_of_cons in Hk as [Hne Hk].
  rewrite filter_cons_True by (cbn; congruence). now rewrite IH.
Qed.

Lemma set_as_filter (k : string) (v : pyval) (d : list (string * pyval)) :
  NoDup (map fst d) ->
  Py.set k v d ≡ₚ (k, v) :: filter (fun p => fst p <> k) d.
Proof.
  induction d as [|[k' x] d IH]; intros Hnd; [reflexivity|].
  cbn [map fst] in Hnd. apply NoDup_cons in Hnd as [Hk Hnd].
  cbn [Py.set]. destruct (String.eqb_spec k k') as [<-|Hne].
  - rewrite filter_cons_False by (cbn; tauto). now rewrite filter_other_keys.
  - rewrite filter_cons_True by (cbn; congruence).
    rewrite (IH Hnd). apply perm_swap.
Qed.

Lemma filter_keys_NoDup (P : string * pyval -> Prop) `{forall p, Decision (P p)}
  (d : list (string * pyval)) :
  NoDup (map fst d) -> NoDup (map fst (filter P d)).
Proof.
  induction d as [|p d IH]; intros Hnd; [constructor|].
  cbn [map] in Hnd. apply NoDup_cons in Hnd as [Hk Hnd].
  rewrite filter_cons. destruct (decide (P p)); [|now apply IH].
  cbn [map]. apply NoDup_cons. split; [|now apply IH].
  intros Hin. apply Hk. apply list_elem_of_fmap in Hin as (q & -> & Hq).
  apply list_elem_of_filter in Hq as [_ Hq]. apply list_elem_of_fmap. now exists q.
Qed.

Lemma set_keys_NoDup (k : string) (v : pyval) (d : dict) :
  NoDup (map fst d) -> NoDup (map fst (Py.set k v d)).
Proof.
  intros Hnd.
  assert (Hm : map fst (Py.set k v d) ≡ₚ map fst ((k, v) :: filter (fun p => fst p <> k) d))
    by (apply Permutation_map; now apply set_as_filter).
  rewrite Hm. cbn [map fst]. apply NoDup_cons. split; [|now apply filter_keys_NoDup].
  intros Hin. apply list_elem_of_fmap in Hin as (q & Hq & Hin).
  apply list_elem_of_filter in Hin as [Hne _]. congruence.
Qed.

Lemma set_perm (k : string) (v : pyval) (d d' : dict) :
  NoDup (map fst d) -> d ≡ₚ d' -> Py.set k v d ≡ₚ Py.set k v d'.
Proof.
  intros Hnd Hp.
  assert (Hm : map fst d ≡ₚ map fst d') by now apply Permutation_map.
  assert (Hnd' : NoDup (map fst d')) by now rewrite <- Hm.
  rewrite (set_as_filter k v d Hnd), (set_as_filter k v d' Hnd').
  constructor. now rewrite Hp.
Qed.

Lemma dumps_sorted_perm (d d' : dict) :
  NoDup (map fst d) -> d ≡ₚ d' ->
  Codec.dumps true (PDict d) = Codec.dumps true (PDict d').
Proof.
  intros Hnd Hp. rewrite !dumps_dict.
  pose proof (render_items_perm true d d' Hp) as Hr.
  destruct (render_items true d) as [kvs|] eqn:E, (render_items true d') as [kvs'|] eqn:E';
    try tauto.
  do 5 f_equal.
  apply (stable_sort_determined fst String.leb).
  - apply String.leb_total.
  - apply string_leb_trans.
  - apply String.leb_antisym.
  - intros k. apply unique_key_filter; [|exact Hr].
    now rewrite (render_items_keys _ _ _ E).
Qed.

(** X10.  The canonical encoding of an event, and with it the CRC and the
    result of [verify_crc32], does not depend on the order in which the
    dict holds its keys: the encoder sorts them. *)
Theorem canonical_json_key_order (event event' : dict) :
  NoDup (map fst event) -> event ≡ₚ event' ->
  Codec.canonical_json event = Codec.canonical_json event'
  /\ Codec.compute_crc32 event = Codec.compute_crc32 event'
  /\ Codec.verify_crc32 event = Codec.verify_crc32 event'.
Proof.
  intros Hnd Hp.
  assert (Hc : Codec.canonical_json event = Codec.canonical_json event').
  { unfold Codec.canonical_json. apply dumps_sorted_perm.
    - now apply set_keys_NoDup.
    - now apply set_perm. }
  assert (Hcrc : Codec.compute_crc32 event = Codec.compute_crc32 event')
    by (unfold Codec.compute_crc32, Codec.canonical_json_bytes; now rewrite Hc).
  split; [exact Hc|]. split; [exact Hcrc|].
  unfold Codec.verify_crc32. now rewrite (get_perm "crc32" _ _ Hnd Hp), Hcrc.
Qed.

Lemma canonical_json_key_order_witness :
  NoDup (map fst first_stored) /\ first_stored ≡ₚ rev first_stored
  /\ Codec.canonical_json first_stored = Codec.canonical_json (rev first_stored)
  /\ Codec.compute_crc32 first_stored = Codec.compute_crc32 (rev first_stored)
  /\ Codec.verify_crc32 first_stored = Codec.verify_crc32 (rev first_stored).
Proof.
  assert (Hnd : NoDup (map fst first_stored)).
  { apply (bool_decide_unpack (NoDup (map fst first_stored))). vm_compute. exact I. }
  split; [exact Hnd|]. split; [apply Permutation_rev|].
  exact (canonical_json_key_order first_stored (rev first_stored) Hnd
           (Permutation_rev first_stored)).
Defined.

(** ** Orchestrator *)

Lemma enforce_block_outcome lib cfg ix ev w :
  Orchestrator.enforce_block lib cfg ix ev w
  = (match enforce_error ev with Some e => Raise e | None => Ok tt end, w).
Proof.
  unfold Orchestrator.enforce_block, enforce_error, blocking_verdict.
  destruct (Reducer.is_type _ "WATCHDOG_VERDICT"); [|reflexivity]. cbn [negb andb].
  unfold mbind, M_bind, Orchestrator.lift.
  destruct (Orchestrator.payload_get "verdict" ev) as [verdict|e]; [|reflexivity].
  destruct (Reducer.is_str verdict "BLOCK"); [|reflexivity]. cbn [negb andb].
  destruct (Py.otruthy (Py.get "eventId" ev)); [|reflexivity].
  destruct (Py.otruthy (Py.get "taskId" ev)); reflexivity.
Qed.

Lemma for_each_enforce lib cfg ix events w :
  for_each (Orchestrator.enforce_block lib cfg ix) events w
  = (match Orchestrator.first_error enforce_error events with
     | Some e => Raise e
     | None => Ok tt
     end, w).
Proof.
  induction events as [|ev events IH]; [reflexivity|].
  cbn [for_each Orchestrator.first_error]. unfold mbind, M_bind.
  rewrite enforce_block_outcome.
  destruct (enforce_error ev); [reflexivity|]. exact IH.
Qed.

(** X12.  [_enforce_block_sequence] appends nothing, whatever the log holds,
    and leaves the files, the clock and the ids as they were.  It raises
    what [_event_index] raises ([AttributeError] at a [PROJECT_HALTED]
    without [causationId] whose payload is there and is not a dict,
    [TypeError] for an id that cannot be hashed), and otherwise the first
    exception of its own loop: [AttributeError] at a [WATCHDOG_VERDICT]
    whose payload is not a dict, and [NameError] at a verdict [BLOCK] that
    has an [eventId] and a [taskId], where the condition reads [run_id], a
    name that is not bound.  It returns on a log without such an event. *)
Theorem enforce_block_sequence_outcome lib cfg events w :
  Orchestrator._enforce_block_sequence lib cfg events w
  = (match Orchestrator.first_error Orchestrator.index_error events with
     | Some e => Raise e
     | None =>
         match Orchestrator.first_error enforce_error events with
         | Some e => Raise e
         | None => Ok tt
         end
     end, w).
Proof.
  unfold Orchestrator._enforce_block_sequence, Orchestrator.event_index_call,
    mbind, M_bind, Orchestrator.lift.
  destruct (Orchestrator.first_error Orchestrator.index_error events); [reflexivity|].
  apply for_each_enforce.
Qed.

(** C1, on the log of a project whose task the watchdog has blocked: the
    verdict has an [eventId] and a [taskId], the call raises [NameError]
    at the name [run_id], and none of [PROJECT_HALTED], [WORKER_RUN_ABORTED]
    and [RUN_CLOSED] is appended. *)
Example block_verdict_raises :
  fst (Orchestrator._enforce_block_sequence py_lib demo_config
         (fst (Reducer.read_events (files blocked_world))) blocked_world)
  = Raise run_id_unbound
  /\ stored_types
       (files (snd (Orchestrator._enforce_block_sequence py_lib demo_config
                      (fst (Reducer.read_events (files blocked_world))) blocked_world)))
     = stored_types (files blocked_world).
Proof. split; vm_compute; reflexivity. Qed.

(** X13.  [_watchdog_heartbeat] appends nothing.  It raises what
    [_event_index] raises; otherwise, when the heartbeat is overdue (the
    project is not finished and not halted, a heartbeat was seen, and it is
    at least the timeout old at the time the clock shows), the call raises
    [ZeroDivisionError] for a timeout of zero and else [TypeError]:
    [_build_event] is given the keyword [run_id], which it does not
    declare.  In every other case the call returns.  The files are as
    before in all cases. *)
Theorem watchdog_heartbeat_outcome lib cfg events w :
  files (snd (Orchestrator._watchdog_heartbeat lib cfg events w)) = files w
  /\ fst (Orchestrator._watchdog_heartbeat lib cfg events w)
     = match Orchestrator.first_error Orchestrator.index_error events with
       | Some e => Raise e
       | None =>
           if heartbeat_overdue lib cfg events (clock w (calls w)) then
             if Orchestrator.heartbeat_timeout_sec cfg =? 0
             then Raise (ZeroDivisionError "float floor division by zero")
             else Raise run_id_unexpected
           else Ok tt
       end.
Proof.
  unfold Orchestrator._watchdog_heartbeat, Orchestrator.event_index_call,
    heartbeat_overdue, project_finished, project_halted.
  unfold mbind, M_bind, Orchestrator.lift, call_now.
  destruct (Orchestrator.first_error Orchestrator.index_error events); [now split|].
  cbv beta iota.
  set (i := Orchestrator.info (Orchestrator._event_index lib events)).
  destruct (match Orchestrator.last_project_finished_at i with
            | Some _ => _ | None => _ end); [now split|].
  destruct (match Orchestrator.last_project_halted_at i with
            | Some _ => _ | None => _ end); [now split|].
  destruct (Orchestrator.last_heartbeat_at i) as [last|]; [|now split].
  unfold mbind, M_bind, call_now. cbn [negb andb].
  destruct (Z.ltb_spec (clock w (calls w) - last)
              (Orchestrator.heartbeat_timeout_sec cfg * 1000000)) as [Hlt|Hge].
  - destruct (Z.leb_spec (Orchestrator.heartbeat_timeout_sec cfg * 1000000)
                (clock w (calls w) - last)); [lia|]. now split.
  - destruct (Z.leb_spec (Orchestrator.heartbeat_timeout_sec cfg * 1000000)
                (clock w (calls w) - last)); [|lia].
    destruct (Orchestrator.heartbeat_timeout_sec cfg =? 0); now split.
Qed.

(** C5, on a project whose last heartbeat is 400 seconds old, with a
    timeout of 180 seconds: the project is running, the heartbeat is
    overdue, and the call raises [TypeError] at the keyword [run_id] of
    [_build_event]; no [WATCHDOG_UNRESPONSIVE] is appended. *)
Example overdue_heartbeat_raises :
  heartbeat_overdue py_lib demo_config (fst (Reducer.read_events (files silent_world)))
    (clock silent_world (calls silent_world)) = true
  /\ fst (Orchestrator._watchdog_heartbeat py_lib demo_config
            (fst (Reducer.read_events (files silent_world))) silent_world)
     = Raise run_id_unexpected
  /\ stored_types
       (files (snd (Orchestrator._watchdog_heartbeat py_lib demo_config
                      (fst (Reducer.read_events (files silent_world))) silent_world)))
     = [Some "PROJECT_STARTED"; Some "WATCHDOG_HEARTBEAT"].
Proof. repeat split; vm_compute; reflexivity. Qed.

Lemma reduce_events_files lib w :
  files (snd (Reducer.reduce_events lib w)) = files w.
Proof.
  unfold Reducer.reduce_events. destruct (Reducer.read_events (files w)) as [events c].
  now destruct (Reducer.reduce_stream _ _ _ _).
Qed.

(** X14.  [validate_incoming] appends nothing and never returns [False].
    A message without task id is accepted; otherwise the status is reduced
    from the log, and a message of a worker or of the watchdog whose run id
    is empty or is not the locked run of the task makes the call raise
    [TypeError] ([_build_event] is given the keyword [run_id]); every other
    message is accepted. *)
Theorem validate_incoming_outcome lib cfg actor task_id run_id message_type w :
  files (snd (Orchestrator.validate_incoming lib cfg actor task_id run_id message_type w))
  = files w
  /\ fst (Orchestrator.validate_incoming lib cfg actor task_id run_id message_type w)
     = if negb (Reducer.nonempty task_id) then Ok true
       else match fst (Reducer.reduce_events lib w) with
            | Raise e => Raise e
            | Ok r =>
                if foreign_run actor run_id
                     (Orchestrator.expected_run (Reducer.status r) (default "" task_id))
                then Raise run_id_unexpected else Ok true
            end.
Proof.
  unfold Orchestrator.validate_incoming, foreign_run.
  destruct (Reducer.nonempty task_id); [|now split]. cbn [negb].
  unfold mbind, M_bind.
  pose proof (reduce_events_files lib w) as Hf.
  destruct (Reducer.reduce_events lib w) as [[r|e] w1]; cbn [fst snd] in *; [|now split].
  destruct (String.eqb actor "worker" || String.eqb actor "watchdog"); [|now split].
  destruct (negb (Reducer.nonempty run_id) || _); now split.
Qed.

(** C7, on a project whose task [T1] is locked by the run [r-1]: a
    message of a worker for the run [r-9] makes the call raise [TypeError]
    at the keyword [run_id] of [_build_event]; no [MESSAGE_IGNORED] is
    appended and nothing is returned.  A message for [r-1] is accepted. *)
Example foreign_run_message_raises :
  Orchestrator.expected_run stalled_status "T1" = Some "r-1"
  /\ fst (Orchestrator.validate_incoming py_lib demo_config "worker" (Some "T1")
            (Some "r-9") "EVIDENCE_SUBMITTED" stalled_world)
     = Raise run_id_unexpected
  /\ stored_types
       (files (snd (Orchestrator.validate_incoming py_lib demo_config "worker" (Some "T1")
                      (Some "r-9") "EVIDENCE_SUBMITTED" stalled_world)))
     = [Some "WORKER_RUN_INTENT"; Some "WORKER_RUN_STARTED"]
  /\ fst (Orchestrator.validate_incoming py_lib demo_config "worker" (Some "T1")
            (Some "r-1") "EVIDENCE_SUBMITTED" stalled_world)
     = Ok true.
Proof. repeat split; vm_compute; reflexivity. Qed.

(** ** Result notification *)

Lemma append_event_notifications_keyed lib p event w :
  notifications_keyed p (files w) ->
  (is_notification p event = true ->
   Py.get "idempotencyKey" event
   = Some (PStr (notified_key p (Reducer.get_str "taskId" event)
                   (Reducer.get_str "runId" event)))) ->
  notifications_keyed p (files (snd (StateManager.append_event lib event w))).
Proof.
  intros Hinv He.
  destruct (append_event_files lib event w) as [->|(key & crc & text & _ & _ & _ & _ & ->)];
    [exact Hinv|].
  intros l d Hl Hd Hn. cbn [events_ndjson] in Hl.
  apply elem_of_app in Hl as [Hl|Hl]; [now apply (Hinv l d)|].
  apply list_elem_of_singleton in Hl as ->. cbn [loads] in Hd. injection Hd as <-.
  unfold is_notification in *.
  rewrite !get_str_reload_dict, is_str_reload_dict in *.
  apply get_reload_dict_str.
  unfold Reducer.get_str in *.
  rewrite !stored_event_get in * by discriminate. now apply He.
Qed.

Lemma notify_result_keeps lib cfg r w :
  keys_indexed (files w) /\ notifications_keyed (Orchestrator.project cfg) (files w) ->
  keys_indexed (files (snd (Orchestrator._notify_result lib cfg r w)))
  /\ notifications_keyed (Orchestrator.project cfg)
       (files (snd (Orchestrator._notify_result lib cfg r w))).
Proof.
  intros [Hk Hn]. unfold Orchestrator._notify_result.
  destruct (Orchestrator.notification_message cfg r) as [msg|]; [|now split].
  unfold Orchestrator.append, mbind, M_bind.
  match goal with
  | |- context [StateManager.append_event lib ?e w] =>
      pose proof (append_event_keys_indexed lib e w Hk) as Hk';
      pose proof (append_event_notifications_keyed lib (Orchestrator.project cfg) e w Hn)
        as Hn';
      destruct (StateManager.append_event lib e w) as [[res|ex] w1]
  end; cbn [snd] in *; (split; [exact Hk'|]); apply Hn'; intros _;
    cbn; now destruct (Orchestrator.r_taskId r), (Orchestrator.r_runId r).
Qed.

Lemma for_each_keeps {A} (P : world -> Prop) (body : A -> M unit) (l : list A) :
  (forall x w, P w -> P (snd (body x w))) ->
  forall w, P w -> P (snd (for_each body l w)).
Proof.
  intros Hb. induction l as [|x l IH]; intros w Hw; [exact Hw|].
  cbn [for_each]. unfold mbind, M_bind.
  specialize (Hb x w Hw). destruct (body x w) as [[[]|e] w1]; cbn [snd] in *.
  - now apply IH.
  - exact Hb.
Qed.

Lemma run_actions_keep lib cfg actions : forall w,
  Forall (other_event (Orchestrator.project cfg)) actions ->
  keys_indexed (files w) /\ notifications_keyed (Orchestrator.project cfg) (files w) ->
  keys_indexed (files (run_actions lib cfg actions w))
  /\ notifications_keyed (Orchestrator.project cfg) (files (run_actions lib cfg actions w)).
Proof.
  induction actions as [|a actions IH]; intros w Hall Hinv; [exact Hinv|].
  inversion Hall as [|? ? Ha Hall']; subst.
  cbn [run_actions fold_left]. apply IH; [exact Hall'|].
  destruct a as [status|event]; cbn [run_action].
  - unfold Orchestrator._process_results.
    apply (for_each_keeps
             (fun w => keys_indexed (files w)
                       /\ notifications_keyed (Orchestrator.project cfg) (files w)));
      [|exact Hinv].
    intros r w0. apply notify_result_keeps.
  - destruct Hinv as [Hk Hn]. split; [now apply append_event_keys_indexed|].
    apply append_event_notifications_keyed; [exact Hn|].
    cbn [other_event] in Ha. congruence.
Qed.

Lemma at_most_one_with_key (k : string) (P : line -> bool) (ls : list line) :
  (forall l, l ∈ ls -> P l = true -> line_key l = Some (PStr k)) ->
  NoDup (omap (fun l => match line_key l with Some (PStr k) => Some k | _ => None end) ls) ->
  (length (List.filter P ls) <= 1)%nat.
Proof.
  induction ls as [|l ls IH]; intros HP Hnd; [cbn; lia|].
  assert (HP' : forall l', l' ∈ ls -> P l' = true -> line_key l' = Some (PStr k))
    by (intros l' Hl'; apply HP; now right).
  cbn [List.filter]. destruct (P l) eqn:El.
  - specialize (HP l (list_elem_of_here _ _) El). simpl in Hnd. rewrite HP in Hnd.
    apply NoDup_cons in Hnd as [Hk Hnd].
    assert (Hnone : List.filter P ls = []).
    { destruct (List.filter P ls) as [|l' rest] eqn:Ef; [reflexivity|].
      exfalso. apply Hk.
      assert (Hin : In l' (List.filter P ls)) by (rewrite Ef; now left).
      apply filter_In in Hin as [Hin Hl'].
      apply list_elem_of_omap. exists l'. split; [now apply list_elem_of_In|].
      now rewrite (HP' l' (proj2 (list_elem_of_In _ _) Hin) Hl'). }
    rewrite Hnone. cbn. lia.
  - apply IH; [exact HP'|]. simpl in Hnd.
    destruct (line_key l) as [[]|]; try exact Hnd. now apply NoDup_cons in Hnd as [_ Hnd].
Qed.

(** C6.  A result is notified at most once.  [_notify_result] appends its
    [RESULT_NOTIFIED] record under the key [project:taskId:runId:notified],
    and [append_event] refuses a key it knows.  So from a log in which the
    index knows every key and every notification carries the key of its
    task and run (a fresh project, or a log without notifications), after
    any number of rounds of [_process_results], on any status, mixed with
    appends of other events, the log holds at most one [RESULT_NOTIFIED]
    record of the project for each task and run. *)
Theorem result_notified_at_most_once lib cfg actions w t r :
  keys_indexed (files w) ->
  notifications_keyed (Orchestrator.project cfg) (files w) ->
  Forall (other_event (Orchestrator.project cfg)) actions ->
  (notified_count (Orchestrator.project cfg) t r (files (run_actions lib cfg actions w))
   <= 1)%nat.
Proof.
  intros Hk Hn Hall.
  destruct (run_actions_keep lib cfg actions w Hall (conj Hk Hn)) as [[Hnd _] Hkeyed].
  unfold notified_count.
  apply (at_most_one_with_key (notified_key (Orchestrator.project cfg) t r));
    [|exact Hnd].
  intros l Hl Hp. unfold notified_for in Hp. unfold line_key.
  destruct (loads l) as [d|] eqn:Ed; [|discriminate].
  apply andb_true_iff in Hp as [Hp Hr]. apply andb_true_iff in Hp as [Hp Ht].
  apply bool_decide_eq_true in Hr, Ht. subst t r. now apply (Hkeyed l d).
Qed.

Lemma fresh_project_notifications_keyed p : notifications_keyed p fresh_project.
Proof. intros l d Hl. now apply elem_of_nil in Hl. Qed.

Lemma result_notified_at_most_once_witness :
  keys_indexed (files fresh_world)
  /\ notifications_keyed "demo" (files fresh_world)
  /\ Forall (other_event "demo")
       [NotifyResults blocked_status; AppendEvent first_event; NotifyResults blocked_status]
  /\ (notified_count "demo" (Some "T1") (Some "r-1")
        (files (run_actions py_lib demo_config
                  [NotifyResults blocked_status; AppendEvent first_event;
                   NotifyResults blocked_status] fresh_world)) <= 1)%nat.
Proof.
  assert (Hall : Forall (other_event "demo")
                   [NotifyResults blocked_status; AppendEvent first_event;
                    NotifyResults blocked_status])
    by (repeat constructor).
  split; [exact fresh_project_keys_indexed|].
  split; [exact (fresh_project_notifications_keyed "demo")|].
  split; [exact Hall|].
  exact (result_notified_at_most_once py_lib demo_config _ fresh_world (Some "T1")
           (Some "r-1") fresh_project_keys_indexed
           (fresh_project_notifications_keyed "demo") Hall).
Defined.

(** The record is there after the first round, and the second adds none. *)
Example result_notified_once :
  notified_count "demo" (Some "T1") (Some "r-1")
    (files (run_actions py_lib demo_config
              [NotifyResults blocked_status; AppendEvent first_event;
               NotifyResults blocked_status] fresh_world)) = 1%nat.
Proof. vm_compute. reflexivity. Qed.

(** ** Corrupted lines *)

Lemma append_event_recorded_stays lib event w k :
  recorded k w -> recorded k (snd (StateManager.append_event lib event w)).
Proof.
  unfold recorded. intros H.
  destruct (append_event_files lib event w) as [->|(key & crc & text & _ & _ & _ & _ & ->)];
    [exact H|].
  unfold StateManager._load_idempotency_index at 1. cbn [idempotency_index].
  apply lookup_insert_is_Some'. now right.
Qed.

Lemma append_event_records lib event w r w' k :
  StateManager.append_event lib event w = (Ok r, w') ->
  Py.get "idempotencyKey" event = Some (PStr k) -> recorded k w'.
Proof.
  intros H Hk. unfold recorded.
  apply append_event_inv in H as (key & Hkey & [(Hin & _ & ->) | (_ & crc & text & H)]).
  - rewrite Hk in Hkey. injection Hkey as <-. cbn [StateManager.key_in] in Hin.
    injection Hin as Hin. now apply bool_decide_eq_true in Hin.
  - cbn zeta in H. destruct H as (_ & _ & _ & ->).
    rewrite Hk in Hkey. injection Hkey as <-.
    unfold StateManager._load_idempotency_index at 1.
    cbn [with_files files idempotency_index StateManager.index_key].
    apply lookup_insert_is_Some'. now left.
Qed.

Lemma handle_one_records lib cfg c w w' :
  (let '(line_offset, reason, raw_line) := c in
   let '(corrupted_event, recovery_event) :=
     build_corrupted_event_payload lib line_offset raw_line reason
       (Orchestrator.project cfg) in
   _ ← Orchestrator.append lib corrupted_event;
   Orchestrator.append lib recovery_event) w = (Ok tt, w') ->
  recorded (fst (corrupted_keys lib cfg c)) w'
  /\ recorded (snd (corrupted_keys lib cfg c)) w'
  /\ forall k, recorded k w -> recorded k w'.
Proof.
  destruct c as [[line_offset reason] raw_line].
  unfold build_corrupted_event_payload, corrupted_keys, Orchestrator.append.
  cbn zeta. cbn [fst snd]. unfold mbind, M_bind.
  match goal with
  | |- context [StateManager.append_event lib ?e w] =>
      pose proof (append_event_records lib e w) as H1;
      pose proof (fun k => append_event_recorded_stays lib e w k) as M1;
      destruct (StateManager.append_event lib e w) as [[r1|e1] w1]; [|discriminate]
  end.
  unfold mret, M_ret.
  match goal with
  | |- context [StateManager.append_event lib ?e w1] =>
      pose proof (append_event_records lib e w1) as H2;
      pose proof (fun k => append_event_recorded_stays lib e w1 k) as M2;
      destruct (StateManager.append_event lib e w1) as [[r2|e2] w2]; [|discriminate]
  end.
  intros [= <-]. cbn [snd] in *. split; [|split].
  - apply M2. now apply (H1 r1 w1).
  - now apply (H2 r2 w2).
  - intros k Hk. apply M2. now apply M1.
Qed.

Lemma handle_corrupted_records lib cfg corrupted : forall w w',
  Orchestrator._handle_corrupted lib cfg corrupted w = (Ok tt, w') ->
  (forall k, recorded k w -> recorded k w')
  /\ Forall (fun c => recorded (fst (corrupted_keys lib cfg c)) w'
                      /\ recorded (snd (corrupted_keys lib cfg c)) w') corrupted.
Proof.
  unfold Orchestrator._handle_corrupted.
  induction corrupted as [|c corrupted IH]; intros w w' H.
  - injection H as <-. split; [auto|constructor].
  - cbn [for_each] in H. unfold mbind at 1, M_bind at 1 in H.
    match type of H with
    | context [match ?b w with _ => _ end] => destruct (b w) as [[[]|e] w1] eqn:E
    end; [|discriminate].
    apply handle_one_records in E as (Ha & Hb & Hm).
    apply IH in H as [Hm' Hall]. split; [auto|].
    constructor; [split; now apply Hm'|exact Hall].
Qed.

Lemma handle_one_known lib cfg c w :
  recorded (fst (corrupted_keys lib cfg c)) w ->
  recorded (snd (corrupted_keys lib cfg c)) w ->
  (let '(line_offset, reason, raw_line) := c in
   let '(corrupted_event, recovery_event) :=
     build_corrupted_event_payload lib line_offset raw_line reason
       (Orchestrator.project cfg) in
   _ ← Orchestrator.append lib corrupted_event;
   Orchestrator.append lib recovery_event) w = (Ok tt, w).
Proof.
  destruct c as [[line_offset reason] raw_line].
  unfold build_corrupted_event_payload, corrupted_keys, Orchestrator.append.
  cbn zeta. cbn [fst snd]. intros Ha Hb. unfold mbind, M_bind.
  match goal with
  | |- context [StateManager.append_event lib ?e w] =>
      rewrite (append_event_recorded lib e w _ eq_refl Ha)
  end.
  unfold mret, M_ret.
  match goal with
  | |- context [StateManager.append_event lib ?e w] =>
      rewrite (append_event_recorded lib e w _ eq_refl Hb)
  end.
  reflexivity.
Qed.

Lemma handle_corrupted_known lib cfg corrupted w :
  Forall (fun c => recorded (fst (corrupted_keys lib cfg c)) w
                   /\ recorded (snd (corrupted_keys lib cfg c)) w) corrupted ->
  Orchestrator._handle_corrupted lib cfg corrupted w = (Ok tt, w).
Proof.
  unfold Orchestrator._handle_corrupted.
  induction 1 as [|c corrupted [Ha Hb] _ IH]; [reflexivity|].
  cbn [for_each]. unfold mbind at 1, M_bind at 1.
  match goal with
  | |- context [match ?b w with _ => _ end] =>
      replace (b w) with (@Ok unit tt, w)
        by (symmetry; now apply handle_one_known)
  end.
  exact IH.
Qed.

(** X16.  Handling corrupted lines is idempotent: the two events appended
    for a line, [CORRUPTED_LINE_DETECTED] and [RECOVERY_STARTED], carry keys
    made of the line number and the hash of the line, so when
    [_handle_corrupted] has returned, handling the same lines again (as the
    next tick does, the damaged lines being still in the log) appends
    nothing and changes nothing. *)
Theorem handle_corrupted_idempotent lib cfg corrupted w w' :
  Orchestrator._handle_corrupted lib cfg corrupted w = (Ok tt, w') ->
  Orchestrator._handle_corrupted lib cfg corrupted w' = (Ok tt, w').
Proof.
  intros H. apply handle_corrupted_known.
  now apply handle_corrupted_records in H as [_ H].
Qed.

Lemma handle_corrupted_once :
  Orchestrator._handle_corrupted py_lib demo_config [damaged_line] fresh_world
  = (Ok tt, after_recovery).
Proof.
  unfold after_recovery.
  destruct (Orchestrator._handle_corrupted py_lib demo_config [damaged_line] fresh_world)
    as [r w0] eqn:E.
  assert (Hr : fst (Orchestrator._handle_corrupted py_lib demo_config [damaged_line]
                      fresh_world) = Ok tt) by (vm_compute; reflexivity).
  rewrite E in Hr. cbn [fst snd] in *. now rewrite Hr.
Qed.

Lemma handle_corrupted_idempotent_witness :
  Orchestrator._handle_corrupted py_lib demo_config [damaged_line] after_recovery
  = (Ok tt, after_recovery).
Proof.
  exact (handle_corrupted_idempotent py_lib demo_config [damaged_line] fresh_world
           after_recovery handle_corrupted_once).
Defined.

(** The first handling wrote the two records. *)
Example handle_corrupted_writes :
  map (fun l => match loads l with
                | Decoded d => Reducer.get_str "type" d
                | DecodeError _ => None
                end) (events_ndjson (files after_recovery))
  = [Some "CORRUPTED_LINE_DETECTED"; Some "RECOVERY_STARTED"].
Proof. vm_compute. reflexivity. Qed.

(** ** The index of the events *)

Lemma index_step_heartbeat lib ix ev :
  Orchestrator.last_heartbeat_at (Orchestrator.info (Orchestrator.index_step lib ix ev))
  = Orchestrator.later (heartbeat_time lib ev)
      (Orchestrator.last_heartbeat_at (Orchestrator.info ix)).
Proof.
  unfold heartbeat_time, Orchestrator.index_step.
  destruct (Reducer.get_str "type" ev) as [s|]; [|reflexivity].
  cbn [Reducer.is_type].
  destruct (String.eqb_spec s "WATCHDOG_HEARTBEAT") as [->|Hne]; [reflexivity|].
  assert (Hl : forall last, Orchestrator.later None last = last) by reflexivity.
  repeat (match goal with
          | |- context [if ?b then _ else _] => destruct b; [now rewrite Hl|]
          end).
  now rewrite Hl.
Qed.

Lemma later_cases ts last m :
  Orchestrator.later ts last = Some m ->
  (ts = Some m \/ last = Some m)
  /\ (forall t, ts = Some t -> t <= m) /\ (forall l, last = Some l -> l <= m).
Proof.
  destruct ts as [t|], last as [l|]; cbn [Orchestrator.later].
  - destruct (Z.ltb_spec l t); intros [= <-]; (split; [auto|]);
      split; intros ? [= <-]; lia.
  - intros [= <-]. split; [auto|]. split; intros ? [=]; subst; lia.
  - intros [= <-]. split; [auto|]. split; intros ? [=]; subst; lia.
  - discriminate.
Qed.

Lemma later_some ts last t :
  ts = Some t -> exists m, Orchestrator.later ts last = Some m.
Proof.
  intros ->. destruct last as [l|]; cbn [Orchestrator.later]; [|eauto].
  destruct (l <? t); eauto.
Qed.

Lemma later_keeps ts last l :
  last = Some l -> exists m, Orchestrator.later ts last = Some m.
Proof.
  intros ->. destruct ts as [t|]; cbn [Orchestrator.later]; [|eauto].
  destruct (l <? t); eauto.
Qed.

Lemma event_index_heartbeat lib events : forall ix,
  let hb := Orchestrator.last_heartbeat_at
              (Orchestrator.info (fold_left (Orchestrator.index_step lib) events ix)) in
  let hb0 := Orchestrator.last_heartbeat_at (Orchestrator.info ix) in
  (forall l, hb0 = Some l -> exists m, hb = Some m /\ l <= m)
  /\ (forall ev t, ev ∈ events -> heartbeat_time lib ev = Some t ->
                   exists m, hb = Some m /\ t <= m)
  /\ (forall m, hb = Some m ->
                hb0 = Some m \/ exists ev, ev ∈ events /\ heartbeat_time lib ev = Some m).
Proof.
  induction events as [|e events IH]; intros ix; cbn zeta; cbn [fold_left].
  - split; [eauto with lia|]. split; [|auto].
    intros ev t Hev. now apply elem_of_nil in Hev.
  - specialize (IH (Orchestrator.index_step lib ix e)). cbn zeta in IH.
    rewrite index_step_heartbeat in IH. destruct IH as (IH0 & IH1 & IH2).
    split; [|split].
    + intros l Hl.
      destruct (later_keeps (heartbeat_time lib e) _ l Hl) as (m0 & Hm0).
      destruct (IH0 m0 Hm0) as (m & Hm & Hle).
      exists m. split; [exact Hm|].
      apply later_cases in Hm0 as (_ & _ & Hb). specialize (Hb l Hl). lia.
    + intros ev t Hev Ht. apply elem_of_cons in Hev as [->|Hev]; [|eauto].
      destruct (later_some _ (Orchestrator.last_heartbeat_at (Orchestrator.info ix)) t Ht)
        as (m0 & Hm0).
      destruct (IH0 m0 Hm0) as (m & Hm & Hle).
      exists m. split; [exact Hm|].
      apply later_cases in Hm0 as (_ & Ha & _). specialize (Ha t Ht). lia.
    + intros m Hm. destruct (IH2 m Hm) as [H0|(ev & Hev & Ht)].
      * apply later_cases in H0 as ([Ht|Hl] & _); [|now left].
        right. exists e. split; [left|exact Ht].
      * right. exists ev. split; [now right|exact Ht].
Qed.

(** X17.  The heartbeat [_event_index] reports is the latest one, whatever
    the order of the log: [last_heartbeat_at] is the greatest of the times
    of the [WATCHDOG_HEARTBEAT] events whose [at] parses, and [None] when
    there is no such event. *)
Theorem last_heartbeat_is_latest lib events :
  let hb := Orchestrator.last_heartbeat_at
              (Orchestrator.info (Orchestrator._event_index lib events)) in
  (forall ev t, ev ∈ events -> heartbeat_time lib ev = Some t ->
                exists m, hb = Some m /\ t <= m)
  /\ (forall m, hb = Some m -> exists ev, ev ∈ events /\ heartbeat_time lib ev = Some m).
Proof.
  cbn zeta. unfold Orchestrator._event_index.
  destruct (event_index_heartbeat lib events Orchestrator.empty_index) as (_ & H1 & H2).
  cbn zeta in *. split; [exact H1|].
  intros m Hm. destruct (H2 m Hm) as [H0|H]; [discriminate H0|exact H].
Qed.

(** ** The shape of the status *)

Lemma project_step_well_formed etype n p :
  project_well_formed p -> project_well_formed (Reducer.project_step etype n p).
Proof.
  unfold project_well_formed, Reducer.project_step.
  intros (Hp & Hm & Hh & Hl).
  repeat (match goal with
          | |- context [if Reducer.is_type etype ?s then _ else _] =>
              destruct (Reducer.is_type etype s)
          end); cbn; repeat split; auto; try discriminate; tauto.
Qed.

Lemma watchdog_step_well_formed etype ev w :
  watchdog_well_formed w -> watchdog_well_formed (Reducer.watchdog_step etype ev w).
Proof.
  unfold watchdog_well_formed, Reducer.watchdog_step. intros H.
  repeat (match goal with
          | |- context [if Reducer.is_type etype ?s then _ else _] =>
              destruct (Reducer.is_type etype s)
          end); cbn; auto.
Qed.

Lemma step_well_formed st ev :
  project_well_formed (Reducer.project st) /\ watchdog_well_formed (Reducer.watchdog st) ->
  project_well_formed (Reducer.project (Reducer.step st ev))
  /\ watchdog_well_formed (Reducer.watchdog (Reducer.step st ev)).
Proof.
  intros [Hp Hw]. unfold Reducer.step.
  destruct (_ && _); [now split|].
  destruct (if Reducer.nonempty _ then _ else _) as [[a t] r]. cbn.
  split; [now apply project_step_well_formed|now apply watchdog_step_well_formed].
Qed.

Lemma replay_well_formed events : forall st,
  project_well_formed (Reducer.project st) /\ watchdog_well_formed (Reducer.watchdog st) ->
  project_well_formed (Reducer.project (replay_from st events))
  /\ watchdog_well_formed (Reducer.watchdog (replay_from st events)).
Proof.
  induction events as [|ev events IH]; intros st H; [exact H|].
  cbn. apply IH. now apply step_well_formed.
Qed.

Lemma initial_well_formed :
  project_well_formed (Reducer.project Reducer.initial_state)
  /\ watchdog_well_formed (Reducer.watchdog Reducer.initial_state).
Proof.
  split; [|now left]. unfold project_well_formed. cbn.
  repeat split; auto; discriminate.
Qed.

(** X18.  The status the reducer returns keeps to the values [protocol.py]
    declares, for every log: the phase is [running], [finished] or
    [halted]; the mode is [normal] with no reason or [degraded] with one of
    the four reasons; the watchdog is [healthy] or [unresponsive]; a halted
    phase comes with the halted flag; and the project lock is [running]
    only for a running project that is not halted. *)
Theorem reduced_status_schema lib now events corrupted r :
  Reducer.reduce_stream lib now events corrupted = Ok r ->
  status_schema (Reducer.status r).
Proof.
  unfold Reducer.reduce_stream.
  destruct (Reducer.sort_events events) as [sorted|]; [|discriminate].
  intros [= <-].
  destruct (replay_well_formed sorted Reducer.initial_state initial_well_formed)
    as [(Hp & Hm & Hh & Hl) Hw].
  fold (replay_from Reducer.initial_state sorted). 
  set (st := replay_from Reducer.initial_state sorted) in *.
  unfold status_schema, Reducer.assemble.
  destruct (Reducer.derive_locks (Reducer.open_runs st)) as [locks lock_alerts].
  do 10 eexists. cbn [Reducer.status Py.get String.eqb Ascii.eqb Bool.eqb].
  split; [reflexivity|]. split; [reflexivity|]. split; [reflexivity|].
  split; [exact Hp|]. split.
  { destruct lock_alerts; [|right; split; [reflexivity|tauto]].
    destruct Hm as [ [ -> -> ] | [ -> Hr ] ]; [now left|right].
    split; [reflexivity|]. cbn. destruct Hr as [ -> | [ -> | -> ] ]; tauto. }
  split; [exact Hh|]. split; [exact Hw|].
  destruct (Reducer.locks_project_running (Reducer.project st)) eqn:El;
    [|now right].
  destruct (Reducer.halted (Reducer.project st)); cbn; [now right|left].
  repeat split; auto.
Qed.

Lemma sorted_run :
  Reducer.sort_events [run_verdict; run_started; run_intent]
  = Some [run_intent; run_started; run_verdict].
Proof. reflexivity. Qed.

Lemma reduced_status_schema_witness :
  Reducer.reduce_stream py_lib "2026-11-04T00:00:00.000000Z"
    [run_verdict; run_started; run_intent] []
  = Ok (Reducer.assemble py_lib "2026-11-04T00:00:00.000000Z"
          (replay [run_intent; run_started; run_verdict]) [])
  /\ status_schema
       (Reducer.status
          (Reducer.assemble py_lib "2026-11-04T00:00:00.000000Z"
             (replay [run_intent; run_started; run_verdict]) [])).
Proof.
  assert (H : Reducer.reduce_stream py_lib "2026-11-04T00:00:00.000000Z"
                [run_verdict; run_started; run_intent] []
              = Ok (Reducer.assemble py_lib "2026-11-04T00:00:00.000000Z"
                      (replay [run_intent; run_started; run_verdict]) []))
    by (unfold Reducer.reduce_stream; now rewrite sorted_run).
  split; [exact H|]. exact (reduced_status_schema _ _ _ _ _ H).
Defined.

(** ** The tasks and the open runs of the loop *)

Section Keyed.
Context {V : Type}.
Implicit Types (l : list (string * V)) (k : string) (v : V).

Lemma put_keys k v l :
  map fst (Reducer.put k v l)
  = if bool_decide (k ∈ map fst l) then map fst l else (map fst l ++ [k])%list.
Proof.
  induction l as [|[k' v'] l IH]; [reflexivity|].
  cbn [Reducer.put map fst]. destruct (String.eqb_spec k k') as [->|Hne].
  - rewrite bool_decide_eq_true_2 by left. reflexivity.
  - cbn [map fst]. rewrite IH.
    destruct (bool_decide (k ∈ map fst l)) eqn:E.
    + apply bool_decide_eq_true in E. rewrite bool_decide_eq_true_2 by now right.
      reflexivity.
    + apply bool_decide_eq_false in E.
      rewrite bool_decide_eq_false_2; [reflexivity|].
      intros H. apply elem_of_cons in H as [H|H]; tauto.
Qed.

Lemma put_NoDup k v l : NoDup (map fst l) -> NoDup (map fst (Reducer.put k v l)).
Proof.
  intros H. rewrite put_keys. case_bool_decide as Hin; [exact H|].
  apply NoDup_app. split; [exact H|]. split; [|apply NoDup_singleton].
  intros x Hx Hk. apply list_elem_of_singleton in Hk as ->. tauto.
Qed.

Lemma put_Forall (P : string * V -> Prop) k v l :
  Forall P l -> P (k, v) -> Forall P (Reducer.put k v l).
Proof.
  intros H Hk. induction H as [|[k' v'] l Hx Hl IH]; cbn [Reducer.put].
  - now repeat constructor.
  - destruct (String.eqb_spec k k') as [->|Hne]; constructor; auto.
Qed.

Lemma lookup_Forall (P : string * V -> Prop) k v l :
  Forall P l -> Reducer.lookup k l = Some v -> P (k, v).
Proof.
  induction 1 as [|[k' v'] l Hx Hl IH]; cbn [Reducer.lookup]; [discriminate|].
  destruct (String.eqb_spec k k') as [->|Hne]; [now intros [= <-]|exact IH].
Qed.

Lemma remove_keys_sub k l x : x ∈ map fst (Reducer.remove k l) -> x ∈ map fst l.
Proof.
  induction l as [|[k' v'] l IH]; cbn [Reducer.remove map fst]; [auto|].
  destruct (String.eqb k k'); [now right|].
  cbn [map fst]. rewrite !elem_of_cons. tauto.
Qed.

Lemma remove_NoDup k l : NoDup (map fst l) -> NoDup (map fst (Reducer.remove k l)).
Proof.
  induction l as [|[k' v'] l IH]; cbn [Reducer.remove map fst]; [auto|].
  intros H. apply NoDup_cons in H as [Hk H].
  destruct (String.eqb k k'); [exact H|].
  cbn [map fst]. apply NoDup_cons. split; [|now apply IH].
  intros Hin. apply Hk. now apply remove_keys_sub in Hin.
Qed.

Lemma remove_Forall (P : string * V -> Prop) k l :
  Forall P l -> Forall P (Reducer.remove k l).
Proof.
  induction 1 as [|[k' v'] l Hx Hl IH]; cbn [Reducer.remove]; [constructor|].
  destruct (String.eqb k k'); [exact Hl|now constructor].
Qed.

End Keyed.

Lemma recompute_state_id t : Reducer.task_id (Reducer.recompute_state t) = Reducer.task_id t.
Proof.
  unfold Reducer.recompute_state.
  repeat (match goal with |- context [if ?b then _ else _] => destruct b end); reflexivity.
Qed.

Lemma own_task_step_id etype rid payload t :
  Reducer.task_id (Reducer.own_task_step etype rid payload t) = Reducer.task_id t.
Proof.
  unfold Reducer.own_task_step.
  repeat (match goal with
          | |- context [if Reducer.is_type etype ?s then _ else _] =>
              destruct (Reducer.is_type etype s)
          end); rewrite ?recompute_state_id; try reflexivity.
  - now destruct (Py.otruthy _).
  - repeat (match goal with |- context [if ?b then _ else _] => destruct b end);
      reflexivity.
Qed.

Lemma put_tasks_ok k t ts :
  tasks_ok ts -> Reducer.task_id t = k -> tasks_ok (Reducer.put k t ts).
Proof.
  intros [Hnd Hid] Ht. split; [now apply put_NoDup|now apply put_Forall].
Qed.

Lemma get_task_ok tid ts :
  tasks_ok ts ->
  tasks_ok (snd (Reducer.get_task tid ts))
  /\ Reducer.task_id (fst (Reducer.get_task tid ts)) = tid.
Proof.
  intros H. unfold Reducer.get_task.
  destruct (Reducer.lookup tid ts) as [t|] eqn:E; cbn [fst snd].
  - split; [exact H|].
    exact (lookup_Forall (fun kt => Reducer.task_id (snd kt) = fst kt) _ _ _ (proj2 H) E).
  - split; [now apply put_tasks_ok|reflexivity].
Qed.

Lemma publish_spec_ok tid ts spec :
  tasks_ok ts -> tasks_ok (Reducer.publish_spec tid ts spec).
Proof.
  intros H. unfold Reducer.publish_spec. destruct spec; try exact H.
  match goal with
  | |- context [Reducer.get_task ?k ts] =>
      destruct (get_task_ok k ts H) as [Hts Hid];
      destruct (Reducer.get_task k ts) as [t ts']
  end.
  cbn [fst snd] in *. now apply put_tasks_ok.
Qed.

Lemma publish_specs_ok tid specs : forall ts,
  tasks_ok ts -> tasks_ok (fold_left (Reducer.publish_spec tid) specs ts).
Proof.
  induction specs as [|spec specs IH]; intros ts H; [exact H|].
  cbn [fold_left]. apply IH. now apply publish_spec_ok.
Qed.

Lemma task_step_ok etype rid payload tid alerts ts runs :
  tasks_ok ts -> runs_ok runs ->
  tasks_ok (snd (fst (Reducer.task_step etype rid payload tid (alerts, ts, runs))))
  /\ runs_ok (snd (Reducer.task_step etype rid payload tid (alerts, ts, runs))).
Proof.
  intros Hts Hruns. unfold Reducer.task_step.
  destruct (get_task_ok tid ts Hts) as [Hts' Hid].
  destruct (Reducer.get_task tid ts) as [t ts']. cbn [fst snd] in Hts', Hid.
  destruct (Reducer.stray etype t rid); [now split|].
  destruct (Reducer.is_type etype "TASKSPEC_PUBLISHED").
  { destruct (Py.get "tasks" payload) as [[| | | |[|spec specs]| | |]|]; cbn [fst snd];
      (split; [|exact Hruns]);
      try (now apply put_tasks_ok).
    apply (publish_specs_ok tid (spec :: specs)). exact Hts'. }
  destruct (Reducer.is_type etype "WORKER_RUN_INTENT").
  { cbn [fst snd]. split.
    - apply put_tasks_ok; [exact Hts'|]. now destruct (bool_decide _).
    - destruct Hruns as [Hnd Hne]. split; [now apply put_NoDup|].
      apply put_Forall; [exact Hne|]. cbn [snd].
      now destruct (Reducer.lookup tid runs) as [[|]|]. }
  destruct (Reducer.is_type etype "WATCHDOG_VERDICT").
  { repeat (match goal with |- context [if ?b then _ else _] => destruct b end);
      cbn [fst snd]; (split; [|exact Hruns]);
      apply put_tasks_ok; try exact Hts'; now rewrite recompute_state_id. }
  destruct (Reducer.is_type etype "RUN_CLOSED").
  { destruct (Reducer.lookup tid runs) as [rs|]; [|now split].
    destruct (existsb _ rs); [|now split].
    destruct (List.filter _ rs) as [|r rs'] eqn:Ef; cbn [fst snd];
      (split; [exact Hts'|]); destruct Hruns as [Hnd Hne].
    - split; [now apply remove_NoDup|now apply remove_Forall].
    - split; [now apply put_NoDup|]. now apply put_Forall. }
  cbn [fst snd]. split; [|exact Hruns].
  apply put_tasks_ok; [exact Hts'|]. now rewrite own_task_step_id.
Qed.

Lemma step_ok st ev :
  tasks_ok (Reducer.tasks st) /\ runs_ok (Reducer.open_runs st) ->
  tasks_ok (Reducer.tasks (Reducer.step st ev))
  /\ runs_ok (Reducer.open_runs (Reducer.step st ev)).
Proof.
  intros [Ht Hr]. unfold Reducer.step.
  destruct (_ && _); [now split|].
  destruct (Reducer.nonempty (Reducer.get_str "taskId" ev)); [|now split].
  pose proof (task_step_ok (Reducer.get_str "type" ev) (Reducer.get_str "runId" ev)
                (Reducer.payload_of ev) (default "" (Reducer.get_str "taskId" ev))
                (Reducer.alerts st) _ _ Ht Hr) as H.
  destruct (Reducer.task_step _ _ _ _ _) as [[a t] r]. exact H.
Qed.

Lemma replay_ok events : forall st,
  tasks_ok (Reducer.tasks st) /\ runs_ok (Reducer.open_runs st) ->
  tasks_ok (Reducer.tasks (replay_from st events))
  /\ runs_ok (Reducer.open_runs (replay_from st events)).
Proof.
  induction events as [|ev events IH]; intros st H; [exact H|].
  cbn. apply IH. now apply step_ok.
Qed.

Lemma initial_ok :
  tasks_ok (Reducer.tasks Reducer.initial_state)
  /\ runs_ok (Reducer.open_runs Reducer.initial_state).
Proof. repeat split; constructor. Qed.

Lemma propagate_degraded_ok reason ts :
  tasks_ok ts -> tasks_ok (Reducer.propagate_degraded reason ts).
Proof.
  unfold Reducer.propagate_degraded. destruct (bool_decide _); [|auto].
  intros [Hnd Hid]. split.
  - rewrite map_map.
    erewrite map_ext; [exact Hnd|].
    intros [k t]. cbn. now repeat (match goal with |- context [if ?b then _ else _] =>
                                     destruct b end).
  - apply Forall_forall. intros kt Hin. apply list_elem_of_In, in_map_iff in Hin
      as ([k t] & <- & Hin).
    rewrite Forall_forall in Hid. specialize (Hid (k, t) (proj2 (list_elem_of_In _ _) Hin)).
    cbn in *. now repeat (match goal with |- context [if ?b then _ else _] =>
                            destruct b end).
Qed.

Lemma task_out_id t :
  (match Reducer.task_out t with PDict d => Py.get "taskId" d | _ => None end)
  = Some (PStr (Reducer.task_id t)).
Proof. unfold Reducer.task_out. now destruct (String.eqb (Reducer.state t) "done"). Qed.

Lemma tasks_ok_ids ts :
  tasks_ok ts ->
  NoDup (map (fun kt : string * Reducer.TaskState =>
                Some (PStr (Reducer.task_id (snd kt)))) ts).
Proof.
  intros [Hnd Hid].
  induction ts as [|[k t] ts IH]; [constructor|].
  cbn [map fst snd] in *. apply NoDup_cons in Hnd as [Hk Hnd].
  inversion Hid as [|? ? Ht Hid']; subst. cbn [fst snd] in Ht.
  apply NoDup_cons. split; [|now apply IH].
  intros Hin. apply Hk.
  apply list_elem_of_In, in_map_iff in Hin as ([k' t'] & Heq & Hin).
  rewrite Forall_forall in Hid'.
  specialize (Hid' (k', t') (proj2 (list_elem_of_In _ _) Hin)). cbn [fst snd] in *.
  injection Heq as Heq. rewrite Ht, Hid' in Heq.
  apply list_elem_of_In, in_map_iff. exists (k', t'). split; [exact Heq|exact Hin].
Qed.

Lemma exclusive_counts {A} (p q : A -> bool) (l : list A) :
  (forall x, p x = true -> q x = false) ->
  (length (List.filter p l) + length (List.filter q l) <= length l)%nat.
Proof.
  intros H. induction l as [|x l IH]; [reflexivity|].
  cbn [List.filter]. destruct (p x) eqn:Ep.
  - rewrite (H x Ep). cbn [length]. lia.
  - destruct (q x); cbn [length]; lia.
Qed.

(** X19.  In the status the reducer returns no task id occurs twice in
    [tasks], and [project.progress] agrees with the list: [total] is its
    length, and [done] and [blocked] count disjoint parts of it. *)
Theorem reduced_tasks_distinct lib now events corrupted r :
  Reducer.reduce_stream lib now events corrupted = Ok r ->
  NoDup (status_task_ids (Reducer.status r))
  /\ exists done blocked,
       progress_of (Reducer.status r)
       = Some (Z.of_nat (length (status_task_ids (Reducer.status r))), done, blocked)
       /\ 0 <= done /\ 0 <= blocked
       /\ done + blocked <= Z.of_nat (length (status_task_ids (Reducer.status r))).
Proof.
  unfold Reducer.reduce_stream.
  destruct (Reducer.sort_events events) as [sorted|]; [|discriminate].
  intros [= <-].
  destruct (replay_ok sorted Reducer.initial_state initial_ok) as [Hts _].
  fold (replay_from Reducer.initial_state sorted) in *.
  set (st := replay_from Reducer.initial_state sorted) in *.
  unfold Reducer.assemble.
  destruct (Reducer.derive_locks (Reducer.open_runs st)) as [locks lock_alerts].
  apply (propagate_degraded_ok (Reducer.degradedReason (Reducer.project st))) in Hts.
  set (ts := Reducer.propagate_degraded _ _) in *.
  unfold status_task_ids, progress_of, project_of.
  cbn [Reducer.status Py.get String.eqb Ascii.eqb Bool.eqb].
  rewrite map_map.
  assert (Hids : map (fun kt : string * Reducer.TaskState =>
                        match Reducer.task_out (snd kt) with
                        | PDict d => Py.get "taskId" d
                        | _ => None
                        end) ts
                 = map (fun kt => Some (PStr (Reducer.task_id (snd kt)))) ts)
    by (apply map_ext; intros kt; apply task_out_id).
  rewrite Hids, length_map. split; [now apply tasks_ok_ids|].
  exists (Reducer.count_state "done" ts), (Reducer.count_state "blocked" ts).
  split; [reflexivity|]. unfold Reducer.count_state.
  split; [lia|]. split; [lia|].
  pose proof (exclusive_counts
                (fun kt : string * Reducer.TaskState =>
                   String.eqb (Reducer.state (snd kt)) "done")
                (fun kt => String.eqb (Reducer.state (snd kt)) "blocked") ts) as Hc.
  assert (Hex : forall x : string * Reducer.TaskState,
             String.eqb (Reducer.state (snd x)) "done" = true ->
             String.eqb (Reducer.state (snd x)) "blocked" = false)
    by (intros x Hx; apply String.eqb_eq in Hx; now rewrite Hx).
  specialize (Hc Hex). lia.
Qed.

Lemma reduced_tasks_distinct_witness :
  NoDup (status_task_ids
           (Reducer.status
              (Reducer.assemble py_lib "2026-11-04T00:00:00.000000Z"
                 (replay [run_intent; run_started; run_verdict]) [])))
  /\ exists done blocked,
       progress_of
         (Reducer.status
            (Reducer.assemble py_lib "2026-11-04T00:00:00.000000Z"
               (replay [run_intent; run_started; run_verdict]) []))
       = Some (Z.of_nat
                 (length
                    (status_task_ids
                       (Reducer.status
                          (Reducer.assemble py_lib "2026-11-04T00:00:00.000000Z"
                             (replay [run_intent; run_started; run_verdict]) [])))),
               done, blocked)
       /\ 0 <= done /\ 0 <= blocked
       /\ done + blocked
          <= Z.of_nat
               (length
                  (status_task_ids
                     (Reducer.status
                        (Reducer.assemble py_lib "2026-11-04T00:00:00.000000Z"
                           (replay [run_intent; run_started; run_verdict]) [])))).
Proof.
  apply (reduced_tasks_distinct py_lib "2026-11-04T00:00:00.000000Z"
           [run_verdict; run_started; run_intent] []).
  unfold Reducer.reduce_stream. now rewrite sorted_run.
Defined.

(** ** Locks and alerts *)

Lemma task_step_alerts etype rid payload tid alerts ts runs :
  Forall blocked_alert alerts ->
  Forall blocked_alert
    (fst (fst (Reducer.task_step etype rid payload tid (alerts, ts, runs)))).
Proof.
  intros H. unfold Reducer.task_step.
  destruct (Reducer.get_task tid ts) as [t ts'].
  repeat (match goal with
          | |- context [if ?b then _ else _] => destruct b
          | |- context [match Py.get "tasks" payload with _ => _ end] =>
              destruct (Py.get "tasks" payload) as [[| | | |[|? ?]| | |]|]
          | |- context [match Reducer.lookup tid runs with _ => _ end] =>
              destruct (Reducer.lookup tid runs)
          | |- context [match List.filter ?f ?l with _ => _ end] =>
              destruct (List.filter f l)
          end; cbn [fst snd]); try exact H.
  all: apply Forall_app; split; [exact H|]; constructor; [|constructor];
    eexists _, _; reflexivity.
Qed.

Lemma step_alerts st ev :
  Forall blocked_alert (Reducer.alerts st) ->
  Forall blocked_alert (Reducer.alerts (Reducer.step st ev)).
Proof.
  intros H. unfold Reducer.step.
  destruct (_ && _); [exact H|].
  destruct (Reducer.nonempty (Reducer.get_str "taskId" ev)); [|exact H].
  pose proof (task_step_alerts (Reducer.get_str "type" ev) (Reducer.get_str "runId" ev)
                (Reducer.payload_of ev) (default "" (Reducer.get_str "taskId" ev))
                (Reducer.alerts st) (Reducer.tasks st) (Reducer.open_runs st) H) as H'.
  destruct (Reducer.task_step _ _ _ _ _) as [[a t] r]. exact H'.
Qed.

Lemma replay_alerts events : forall st,
  Forall blocked_alert (Reducer.alerts st) ->
  Forall blocked_alert (Reducer.alerts (replay_from st events)).
Proof.
  induction events as [|ev events IH]; intros st H; [exact H|].
  cbn. apply IH. now apply step_alerts.
Qed.

Lemma get_absent (k : string) (d : dict) : k ∉ map fst d -> Py.get k d = None.
Proof.
  induction d as [|[k' v] d IH]; [reflexivity|].
  cbn [map fst Py.get]. intros H. apply not_elem_of_cons in H as [Hne H].
  destruct (String.eqb_spec k k'); [contradiction|now apply IH].
Qed.

Lemma derive_locks_ok runs :
  runs_ok runs ->
  (forall k, k ∈ map fst (fst (Reducer.derive_locks runs)) -> k ∈ map fst runs)
  /\ NoDup (map fst (fst (Reducer.derive_locks runs)))
  /\ Forall (fun a => exists tid rs,
               a = PDict [("type", PStr "multiple_open_runs"); ("taskId", PStr tid);
                          ("runIds", PList rs)]
               /\ (2 <= length rs)%nat
               /\ tid ∈ map fst runs
               /\ tid ∉ map fst (fst (Reducer.derive_locks runs)))
       (snd (Reducer.derive_locks runs)).
Proof.
  intros [Hnd Hne]. induction runs as [|[tid rs] runs IH].
  - cbn. split; [auto|]. split; constructor.
  - cbn [map fst] in Hnd. apply NoDup_cons in Hnd as [Hk Hnd].
    inversion Hne as [|? ? Hrs Hne']; subst. cbn [snd] in Hrs.
    specialize (IH Hnd Hne'). destruct IH as (Hsub & Hlocks & Hal).
    cbn [Reducer.derive_locks].
    destruct (Reducer.derive_locks runs) as [locks alerts]. cbn [fst snd] in *.
    destruct rs as [|r [|r' rs]]; [contradiction| |]; cbn [fst snd map].
    + split; [|split].
      * intros k Hin. apply elem_of_cons in Hin as [->|Hin]; [left|right; auto].
      * apply NoDup_cons. split; [|exact Hlocks]. intros Hin. apply Hk. auto.
      * eapply Forall_impl; [exact Hal|].
        intros a (t & rs & -> & Hlen & Hin & Hnot). exists t, rs.
        repeat split; auto; [now right|].
        intros Hc. apply elem_of_cons in Hc as [->|Hc]; [contradiction|contradiction].
    + split; [|split].
      * intros k Hin. right. auto.
      * exact Hlocks.
      * constructor.
        -- eexists tid, _. split; [reflexivity|]. cbn [map length].
           split; [lia|]. split; [left|]. intros Hin. apply Hk. auto.
        -- eapply Forall_impl; [exact Hal|].
           intros a (t & rs0 & -> & Hlen & Hin & Hnot). exists t, rs0.
           repeat split; auto. now right.
Qed.

(** X20.  The locks of a status.  In every status the reducer returns
    the lock table has one entry per task at most; an alert
    [multiple_open_runs] names a task that has no lock and lists at least
    two announced runs that are not closed (the list is the one
    [WORKER_RUN_INTENT] appends to, so a run announced twice is listed
    twice); and the project's reason is [multiple_open_runs] exactly when
    there is such an alert. *)
Theorem reduced_locks_exclusive lib now events corrupted r :
  Reducer.reduce_stream lib now events corrupted = Ok r ->
  NoDup (map fst (status_locks (Reducer.status r)))
  /\ (forall a, a ∈ status_alerts (Reducer.status r) ->
        alert_type a = Some (PStr "multiple_open_runs") ->
        exists tid runs,
          a = PDict [("type", PStr "multiple_open_runs"); ("taskId", PStr tid);
                     ("runIds", PList runs)]
          /\ (2 <= length runs)%nat
          /\ Py.get tid (status_locks (Reducer.status r)) = None)
  /\ (Py.get "degradedReason" (project_of (Reducer.status r))
      = Some (PStr "multiple_open_runs")
      <-> exists a, a ∈ status_alerts (Reducer.status r)
                    /\ alert_type a = Some (PStr "multiple_open_runs")).
Proof.
  unfold Reducer.reduce_stream.
  destruct (Reducer.sort_events events) as [sorted|]; [|discriminate].
  intros [= <-].
  destruct (replay_ok sorted Reducer.initial_state initial_ok) as [_ Hruns].
  destruct (replay_well_formed sorted Reducer.initial_state initial_well_formed)
    as [(_ & Hm & _) _].
  pose proof (replay_alerts sorted Reducer.initial_state (List.Forall_nil _)) as Hal.
  fold (replay_from Reducer.initial_state sorted) in *.
  set (st := replay_from Reducer.initial_state sorted) in *.
  destruct (derive_locks_ok _ Hruns) as (_ & Hnd & Hlock).
  unfold Reducer.assemble.
  destruct (Reducer.derive_locks (Reducer.open_runs st)) as [locks lock_alerts].
  cbn [fst snd] in *.
  unfold status_locks, status_alerts, project_of.
  cbn [Reducer.status Py.get String.eqb Ascii.eqb Bool.eqb].
  assert (Hfrom : forall a,
             a ∈ (Reducer.alerts st ++ lock_alerts
                  ++ map (Reducer.corrupted_alert lib) corrupted)%list ->
             alert_type a = Some (PStr "multiple_open_runs") -> a ∈ lock_alerts).
  { intros a Hin Ht. apply elem_of_app in Hin as [Hin|Hin].
    - rewrite Forall_forall in Hal. destruct (Hal a Hin) as (t & rid & ->). discriminate.
    - apply elem_of_app in Hin as [Hin|Hin]; [exact Hin|].
      apply list_elem_of_In, in_map_iff in Hin as ([[idx reason] raw] & <- & _).
      discriminate. }
  split; [exact Hnd|]. split.
  - intros a Hin Ht. specialize (Hfrom a Hin Ht).
    rewrite Forall_forall in Hlock.
    destruct (Hlock a Hfrom) as (tid & rs & -> & Hlen & _ & Hnot).
    exists tid, rs. split; [reflexivity|]. split; [exact Hlen|].
    now apply get_absent.
  - split.
    + intros Hr. destruct lock_alerts as [|a rest].
      * exfalso. destruct Hm as [[_ Hn]|[_ [Hn|[Hn|Hn]]]]; rewrite Hn in Hr; discriminate.
      * exists a. split.
        -- apply elem_of_app. right. apply elem_of_app. left. left.
        -- inversion Hlock as [|? ? (tid & rs & -> & _) _]. reflexivity.
    + intros (a & Hin & Ht). specialize (Hfrom a Hin Ht).
      destruct lock_alerts; [now apply elem_of_nil in Hfrom|reflexivity].
Qed.

Lemma reduced_locks_exclusive_witness :
  let r := Reducer.assemble py_lib "2026-11-04T00:00:00.000000Z"
             (replay [run_intent; rival_intent]) [] in
  Reducer.reduce_stream py_lib "2026-11-04T00:00:00.000000Z"
    [rival_intent; run_intent] [] = Ok r
  /\ NoDup (map fst (status_locks (Reducer.status r)))
  /\ (forall a, a ∈ status_alerts (Reducer.status r) ->
        alert_type a = Some (PStr "multiple_open_runs") ->
        exists tid runs,
          a = PDict [("type", PStr "multiple_open_runs"); ("taskId", PStr tid);
                     ("runIds", PList runs)]
          /\ (2 <= length runs)%nat
          /\ Py.get tid (status_locks (Reducer.status r)) = None)
  /\ (Py.get "degradedReason" (project_of (Reducer.status r))
      = Some (PStr "multiple_open_runs")
      <-> exists a, a ∈ status_alerts (Reducer.status r)
                    /\ alert_type a = Some (PStr "multiple_open_runs")).
Proof.
  cbv zeta.
  assert (H : Reducer.reduce_stream py_lib "2026-11-04T00:00:00.000000Z"
                [rival_intent; run_intent] []
              = Ok (Reducer.assemble py_lib "2026-11-04T00:00:00.000000Z"
                      (replay [run_intent; rival_intent]) []))
    by reflexivity.
  split; [exact H|].
  exact (reduced_locks_exclusive py_lib "2026-11-04T00:00:00.000000Z"
           [rival_intent; run_intent] [] _ H).
Defined.

(** Two runs of one task announced and not closed: the task has no lock,
    the alert lists both, and the project is degraded.  A run announced
    twice gives the same alert, with that run listed twice. *)
Example two_open_runs_alert :
  let r := Reducer.reduce_stream py_lib "2026-11-04T00:00:00.000000Z"
             [rival_intent; run_intent] [] in
  status_field "alerts" r
  = Some (PList [PDict [("type", PStr "multiple_open_runs"); ("taskId", PStr "T1");
                        ("runIds", PList [PStr "r-1"; PStr "r-2"])]])
  /\ option_map status_locks (match r with Ok x => Some (Reducer.status x) | _ => None end)
     = Some []
  /\ option_map (fun x => Py.get "degradedReason" (project_of (Reducer.status x)))
       (match r with Ok x => Some x | _ => None end)
     = Some (Some (PStr "multiple_open_runs")).
Proof. vm_compute. auto. Qed.

Example run_announced_twice_alert :
  status_field "alerts"
    (Reducer.reduce_stream py_lib "2026-11-04T00:00:00.000000Z"
       [run_intent; run_intent_again] [])
  = Some (PList [PDict [("type", PStr "multiple_open_runs"); ("taskId", PStr "T1");
                        ("runIds", PList [PStr "r-1"; PStr "r-1"])]]).
Proof. vm_compute. reflexivity. Qed.

(** ** The results the orchestrator reads from a status *)

Lemma aggregate_task_out cfg t :
  Forall (fun res =>
            Orchestrator.r_taskId res = Some (Reducer.task_id t)
            /\ ((Orchestrator.r_state res = "blocked" /\ Reducer.state t = "blocked")
                \/ (Orchestrator.r_state res = "done" /\ Reducer.state t = "done"
                    /\ Orchestrator.r_quality res = None
                    /\ Orchestrator.r_verdict res = None
                    /\ Orchestrator.r_result res = []
                    /\ Orchestrator.r_runId res = Reducer.run_id t
                    /\ is_Some (Reducer.run_id t)
                    /\ Orchestrator.notification_message cfg res
                       = Some ("✅ [" +:+ Orchestrator.project cfg +:+ "] "
                               +:+ Reducer.task_id t +:+ " 完成"))))
    (Orchestrator.aggregate_task (Reducer.task_out t)).
Proof.
  unfold Reducer.task_out.
  destruct (String.eqb_spec (Reducer.state t) "done") as [Hd|Hd].
  - unfold Orchestrator.aggregate_task, Orchestrator.get_dict, Reducer.get_str.
    cbn [Py.get String.eqb Ascii.eqb Bool.eqb Reducer.nonempty andb negb Reducer.is_str].
    destruct (Reducer.run_id t) as [run|] eqn:Er; cbn; [|constructor].
    constructor; [|constructor]. cbn. split; [reflexivity|]. right.
    repeat split; eauto.
  - unfold Orchestrator.aggregate_task, Orchestrator.get_dict, Reducer.get_str.
    cbn [Py.get String.eqb Ascii.eqb Bool.eqb Reducer.nonempty andb negb
         Reducer.is_str Codec.eq_str].
    destruct (String.eqb_spec (Reducer.state t) "blocked") as [Hb|Hb]; [|constructor].
    constructor; [|constructor]. cbn. split; [reflexivity|]. now left.
Qed.

(** X21.  What [_aggregate_results] makes of a status of the reducer.
    Every result is the one of a task of the status, whose state is [done]
    or [blocked].  The entry of a done task carries no [result] and no
    [lastVerdict], so its result has no quality and no verdict, and the
    notification of a done task is always the plain one, never the one
    for a human override; a done task without run id gives no result. *)
Theorem aggregated_results_of_reduced lib cfg now events corrupted r res :
  Reducer.reduce_stream lib now events corrupted = Ok r ->
  res ∈ Orchestrator._aggregate_results (Reducer.status r) ->
  (exists tid, Orchestrator.r_taskId res = Some tid
               /\ Some (PStr tid) ∈ status_task_ids (Reducer.status r))
  /\ (Orchestrator.r_state res = "blocked"
      \/ (Orchestrator.r_state res = "done"
          /\ Orchestrator.r_quality res = None
          /\ Orchestrator.r_verdict res = None
          /\ Orchestrator.r_result res = []
          /\ is_Some (Orchestrator.r_runId res)
          /\ Orchestrator.notification_message cfg res
             = Some ("✅ [" +:+ Orchestrator.project cfg +:+ "] "
                     +:+ Orchestrator.fmt (Orchestrator.r_taskId res) +:+ " 完成"))).
Proof.
  unfold Reducer.reduce_stream.
  destruct (Reducer.sort_events events) as [sorted|]; [|discriminate].
  intros [= <-]. unfold Reducer.assemble.
  destruct (Reducer.derive_locks _) as [locks lock_alerts].
  unfold Orchestrator._aggregate_results, status_task_ids.
  cbn [Reducer.status Py.get String.eqb Ascii.eqb Bool.eqb].
  set (ts := Reducer.propagate_degraded _ _).
  intros Hin. apply list_elem_of_In, in_flat_map in Hin as (v & Hv & Hres).
  apply in_map_iff in Hv as ([k t] & <- & Hkt). cbn [snd] in Hres.
  pose proof (aggregate_task_out cfg t) as Hall. rewrite Forall_forall in Hall.
  destruct (Hall res (proj2 (list_elem_of_In _ _) Hres)) as (Hid & Hcase).
  split.
  - exists (Reducer.task_id t). split; [exact Hid|].
    apply list_elem_of_In, in_map_iff. exists (Reducer.task_out t).
    split; [apply task_out_id|]. apply in_map_iff. now exists (k, t).
  - destruct Hcase as [[Hb _]|(Hd & _ & Hq & Hv & Hr & Hrun & Hsome & Hmsg)]; [now left|].
    right. rewrite Hid, Hrun. cbn [Orchestrator.fmt default].
    repeat split; auto; now rewrite Hid in Hmsg.
Qed.

Lemma sorted_failed_run :
  Reducer.sort_events [run_failed_same_key; run_intent; run_started]
  = Some [run_intent; run_started; run_failed_same_key].
Proof. reflexivity. Qed.

Lemma aggregated_results_of_reduced_witness :
  blocked_result
  ∈ Orchestrator._aggregate_results
      (Reducer.status
         (Reducer.assemble py_lib "2026-11-04T00:00:00.000000Z"
            (replay [run_intent; run_started; run_failed_same_key]) []))
  /\ (exists tid, Orchestrator.r_taskId blocked_result = Some tid
                  /\ Some (PStr tid)
                     ∈ status_task_ids
                         (Reducer.status
                            (Reducer.assemble py_lib "2026-11-04T00:00:00.000000Z"
                               (replay [run_intent; run_started; run_failed_same_key]) []))).
Proof.
  assert (Hin : blocked_result
                ∈ Orchestrator._aggregate_results
                    (Reducer.status
                       (Reducer.assemble py_lib "2026-11-04T00:00:00.000000Z"
                          (replay [run_intent; run_started; run_failed_same_key]) [])))
    by (vm_compute; left).
  split; [exact Hin|].
  refine (proj1 (aggregated_results_of_reduced py_lib demo_config
                   "2026-11-04T00:00:00.000000Z"
                   [run_failed_same_key; run_intent; run_started] [] _ blocked_result
                   _ Hin)).
  unfold Reducer.reduce_stream. now rewrite sorted_failed_run.
Defined.

(** ** The layout of a UUIDv7 *)

Lemma land_ones_range (a : Z) (k : Z) :
  0 <= k -> 0 <= Z.land a (Z.shiftl 1 k - 1) < 2 ^ k.
Proof.
  intros Hk. rewrite Z.shiftl_1_l. change (2 ^ k - 1) with (Z.pred (2 ^ k)).
  rewrite <- Z.ones_equiv, Z.land_ones by exact Hk.
  apply Z.mod_pos_bound. now apply Z.pow_pos_nonneg.
Qed.

Lemma shiftr_small (a k : Z) : 0 <= k -> 0 <= a < 2 ^ k -> Z.shiftr a k = 0.
Proof. intros Hk Ha. rewrite Z.shiftr_div_pow2 by exact Hk. now apply Z.div_small. Qed.

Lemma land_shiftl_low (a k : Z) : 4 <= k -> Z.land (Z.shiftl a k) 15 = 0.
Proof.
  intros Hk. change 15 with (Z.ones 4). rewrite Z.land_ones by lia.
  rewrite Z.shiftl_mul_pow2 by lia.
  replace k with (k - 4 + 4) by lia. rewrite Z.pow_add_r by lia.
  rewrite Z.mul_assoc. apply Z.mod_mul. discriminate.
Qed.

Section Layout.
Context (time_ms random : Z).

Let ts_ms := Z.land time_ms (Z.shiftl 1 48 - 1).
Let rand74 := Z.shiftr random 6.
Let rand_a := Z.land (Z.shiftr rand74 62) (Z.shiftl 1 12 - 1).
Let rand_b := Z.land rand74 (Z.shiftl 1 62 - 1).

Lemma uuid_value_shiftr (k : Z) :
  Z.shiftr (Ids.uuid_value time_ms random) k
  = Z.lor (Z.lor (Z.lor (Z.lor (Z.shiftr (Z.shiftl ts_ms 80) k)
                               (Z.shiftr (Z.shiftl 7 76) k))
                        (Z.shiftr (Z.shiftl rand_a 64) k))
                 (Z.shiftr (Z.shiftl 2 62) k))
          (Z.shiftr rand_b k).
Proof. unfold Ids.uuid_value. cbn zeta. now rewrite !Z.shiftr_lor. Qed.

Lemma uuid_version : Z.land (Z.shiftr (Ids.uuid_value time_ms random) 76) 15 = 7.
Proof.
  rewrite uuid_value_shiftr.
  assert (Ha : 0 <= rand_a < 2 ^ 12) by (apply land_ones_range; lia).
  assert (Hb : 0 <= rand_b < 2 ^ 62) by (apply land_ones_range; lia).
  rewrite (Z.shiftr_shiftl_l ts_ms 80 76) by lia.
  rewrite (Z.shiftr_shiftl_r rand_a 64 76) by lia.
  rewrite (shiftr_small rand_a (76 - 64)) by lia.
  rewrite (shiftr_small rand_b 76)
    by (try lia; assert (2 ^ 62 < 2 ^ 76) by (apply Z.pow_lt_mono_r; lia); lia).
  change (Z.shiftr (Z.shiftl 7 76) 76) with 7. change (Z.shiftr (Z.shiftl 2 62) 76) with 0.
  rewrite !Z.lor_0_r, Z.land_lor_distr_l, land_shiftl_low by lia. reflexivity.
Qed.

Lemma uuid_variant :
  exists k, 0 <= k < 4 /\ Z.land (Z.shiftr (Ids.uuid_value time_ms random) 60) 15 = 8 + k.
Proof.
  exists (Z.shiftr rand_b 60).
  assert (Hb : 0 <= rand_b < 2 ^ 62) by (apply land_ones_range; lia).
  assert (Hk : 0 <= Z.shiftr rand_b 60 < 4).
  { rewrite Z.shiftr_div_pow2 by lia. split; [apply Z.div_pos; lia|].
    apply Z.div_lt_upper_bound; [lia|]. change (2 ^ 60 * 4) with (2 ^ 62). lia. }
  split; [exact Hk|].
  rewrite uuid_value_shiftr.
  rewrite (Z.shiftr_shiftl_l ts_ms 80 60), (Z.shiftr_shiftl_l rand_a 64 60) by lia.
  change (Z.shiftr (Z.shiftl 7 76) 60) with (Z.shiftl 7 16).
  change (Z.shiftr (Z.shiftl 2 62) 60) with 8.
  rewrite !Z.land_lor_distr_l, !land_shiftl_low by lia.
  change (Z.land 8 15) with 8. rewrite !Z.lor_0_l.
  assert (Hlow : Z.land (Z.shiftr rand_b 60) 15 = Z.shiftr rand_b 60).
  { change 15 with (Z.ones 4). rewrite Z.land_ones by lia.
    apply Z.mod_small. change (2 ^ 4) with 16. lia. }
  rewrite Hlow.
  assert (Hcase : Z.shiftr rand_b 60 = 0 \/ Z.shiftr rand_b 60 = 1
                  \/ Z.shiftr rand_b 60 = 2 \/ Z.shiftr rand_b 60 = 3) by lia.
  destruct Hcase as [ -> | [ -> | [ -> | -> ] ] ]; reflexivity.
Qed.

Lemma uuid_timestamp :
  Z.shiftr (Ids.uuid_value time_ms random) 80 = time_ms mod 2 ^ 48.
Proof.
  rewrite uuid_value_shiftr.
  assert (Ha : 0 <= rand_a < 2 ^ 12) by (apply land_ones_range; lia).
  assert (Hb : 0 <= rand_b < 2 ^ 62) by (apply land_ones_range; lia).
  rewrite (Z.shiftr_shiftl_l ts_ms 80 80) by lia.
  rewrite (Z.shiftr_shiftl_r rand_a 64 80) by lia.
  rewrite (shiftr_small rand_a (80 - 64)) by lia.
  rewrite (shiftr_small rand_b 80)
    by (try lia; assert (2 ^ 62 < 2 ^ 80) by (apply Z.pow_lt_mono_r; lia); lia).
  change (Z.shiftr (Z.shiftl 7 76) 80) with 0. change (Z.shiftr (Z.shiftl 2 62) 80) with 0.
  rewrite !Z.lor_0_r. change (80 - 80) with 0. rewrite Z.shiftl_0_r.
  unfold ts_ms. rewrite Z.shiftl_1_l. change (2 ^ 48 - 1) with (Z.pred (2 ^ 48)).
  rewrite <- Z.ones_equiv. apply Z.land_ones. lia.
Qed.

End Layout.

Lemma uuid_v7_chars (time_ms random : Z) :
  String.length (Ids.uuid_v7 time_ms random) = 36%nat
  /\ Forall (fun i => String.get i (Ids.uuid_v7 time_ms random) = Some "-"%char)
       [8; 13; 18; 23]%nat
  /\ String.get 14 (Ids.uuid_v7 time_ms random)
     = Some (lower_hex_char (Z.land (Z.shiftr (Ids.uuid_value time_ms random) 76) 15))
  /\ String.get 19 (Ids.uuid_v7 time_ms random)
     = Some (lower_hex_char (Z.land (Z.shiftr (Ids.uuid_value time_ms random) 60) 15)).
Proof.
  unfold Ids.uuid_v7, Ids.hex_lower, lower_hex_char.
  generalize (Ids.uuid_value time_ms random). intros v.
  cbv [seq rev app fold_right Codec.hex_digit_lower Codec.chr String.append
       String.substring String.get String.length].
  split; [reflexivity|]. split.
  { repeat (constructor; [reflexivity|]). constructor. }
  split.
  - change (4 * Z.of_nat 19) with 76. reflexivity.
  - change (4 * Z.of_nat 15) with 60. reflexivity.
Qed.

Lemma variant_digit k : k = 0 \/ k = 1 \/ k = 2 \/ k = 3 ->
  lower_hex_char (8 + k) ∈ ["8"; "9"; "a"; "b"]%char.
Proof.
  intros Hcase.
  destruct Hcase as [ -> | [ -> | [ -> | -> ] ] ].
  - change (lower_hex_char (8 + 0)) with "8"%char. apply list_elem_of_here.
  - change (lower_hex_char (8 + 1)) with "9"%char. do 1 apply list_elem_of_further. apply list_elem_of_here.
  - change (lower_hex_char (8 + 2)) with "a"%char. do 2 apply list_elem_of_further. apply list_elem_of_here.
  - change (lower_hex_char (8 + 3)) with "b"%char. do 3 apply list_elem_of_further. apply list_elem_of_here.
Qed.

(** X23.  The identifier [uuid_v7] builds, whatever the time and the
    random bytes: 36 characters with dashes after the digits 8, 12, 16 and
    20; the version digit is 7; the variant digit is 8, 9, a or b; and the
    first 48 bits are the time in milliseconds, reduced modulo 2^48. *)
Theorem uuid_v7_layout (time_ms random : Z) :
  String.length (Ids.uuid_v7 time_ms random) = 36%nat
  /\ Forall (fun i => String.get i (Ids.uuid_v7 time_ms random) = Some "-"%char)
       [8; 13; 18; 23]%nat
  /\ String.get 14 (Ids.uuid_v7 time_ms random) = Some "7"%char
  /\ (exists c, String.get 19 (Ids.uuid_v7 time_ms random) = Some c
                /\ c ∈ ["8"; "9"; "a"; "b"]%char)
  /\ Z.shiftr (Ids.uuid_value time_ms random) 80 = time_ms mod 2 ^ 48.
Proof.
  destruct (uuid_v7_chars time_ms random) as (Hlen & Hdash & Hver & Hvar).
  split; [exact Hlen|]. split; [exact Hdash|]. split; [|split].
  - rewrite Hver, uuid_version. reflexivity.
  - destruct (uuid_variant time_ms random) as (k & Hk & Hv).
    rewrite Hvar, Hv. eexists. split; [reflexivity|].
    apply variant_digit. lia.
  - apply uuid_timestamp.
Qed.

Example uuid_v7_sample :
  Ids.uuid_v7 1793750400123 0xFFFFFFFFFFFFFFFFFFFF
  = "01a1a3da-fc7b-7fff-bfff-ffffffffffff".
Proof. vm_compute. reflexivity. Qed.
Ltac some_none :=
  split; intros;
  repeat match goal with
         | H : is_Some None |- _ => destruct H as [? [=]]
         | H : _ /\ _ |- _ => destruct H
         | H : false = true |- _ => discriminate H
         | |- is_Some (Some _) => eexists; reflexivity
         | |- _ /\ _ => split
         | |- _ = _ => reflexivity
         end.

Lemma dumps_total_sized (b : bool) (n : nat) : forall v,
  (pyval_size v < n)%nat ->
  (serialisable v = true <-> is_Some (Codec.dumps b v)).
Proof.
  induction n as [|n IH]; intros v Hn; [lia|].
  destruct v as [| | | |l|d|d|]; cbn [serialisable]; try (cbn [Codec.dumps]; now some_none).
  - cbn [Codec.dumps pyval_size] in *.
    assert (Hl : forallb serialisable l = true
                 <-> is_Some ((fix elems (l : list pyval) : option (list string) :=
                                 match l with
                                 | [] => Some []
                                 | x :: l' =>
                                     match Codec.dumps b x, elems l' with
                                     | Some s, Some r => Some (s :: r)
                                     | _, _ => None
                                     end
                                 end) l)).
    { unfold list_sum in *. induction l as [|x l IHl]; [now some_none|].
      cbn [forallb map fold_right] in *. rewrite andb_true_iff.
      rewrite (IH x) by lia. rewrite IHl by lia.
      destruct (Codec.dumps b x); [|now some_none].
      match goal with |- context [match ?e with Some _ => _ | None => _ end] =>
        destruct e end; now some_none. }
    rewrite Hl.
    match goal with |- context [match ?e with Some _ => _ | None => _ end] =>
      destruct e end; now some_none.
  - rewrite dumps_dict. cbn [pyval_size] in Hn.
    assert (Hd : forallb (fun kv => serialisable (snd kv)) d = true
                 <-> is_Some (render_items b d)).
    { unfold list_sum in *. induction d as [|[k x] d IHd]; [now some_none|].
      cbn [forallb map fold_right snd render_items] in *. fold (render_items b d).
      rewrite andb_true_iff. rewrite (IH x) by lia. rewrite IHd by lia.
      destruct (Codec.dumps b x); [|now some_none].
      destruct (render_items b d); now some_none. }
    rewrite Hd. destruct (render_items b d); now some_none.
  - cbn [Codec.dumps pyval_size] in *.
    assert (Hd : forallb (fun kv => serialisable (snd kv)) d = true
                 <-> is_Some ((fix items (d : list (Z * pyval)) : option (list (Z * string)) :=
                                 match d with
                                 | [] => Some []
                                 | (k, x) :: d' =>
                                     match Codec.dumps b x, items d' with
                                     | Some s, Some r => Some ((k, s) :: r)
                                     | _, _ => None
                                     end
                                 end) d)).
    { unfold list_sum in *. induction d as [|[k x] d IHd]; [now some_none|].
      cbn [forallb map fold_right snd] in *. rewrite andb_true_iff.
      rewrite (IH x) by lia. rewrite IHd by lia.
      destruct (Codec.dumps b x); [|now some_none].
      match goal with |- context [match ?e with Some _ => _ | None => _ end] =>
        destruct e end; now some_none. }
    rewrite Hd.
    match goal with |- context [match ?e with Some _ => _ | None => _ end] =>
      destruct e end; now some_none.
Qed.

Lemma dumps_total (b : bool) (v : pyval) :
  serialisable v = true <-> is_Some (Codec.dumps b v).
Proof. apply (dumps_total_sized b (S (pyval_size v))). lia. Qed.

Lemma set_fresh k v (d : dict) :
  Py.mem k d = false -> Py.set k v d = (d ++ [(k, v)])%list.
Proof.
  unfold Py.mem. induction d as [|[k' v'] d IH]; cbn [Py.get Py.set app]; [reflexivity|].
  destruct (String.eqb k k'); [discriminate|]. intros H. now rewrite IH.
Qed.

Lemma set_serialisable_value k v v' (d : dict) :
  serialisable v = serialisable v' ->
  serialisable (PDict (Py.set k v d)) = serialisable (PDict (Py.set k v' d)).
Proof.
  intros Hv. cbn [serialisable].
  induction d as [|[k' x] d IH]; cbn [Py.set forallb snd]; [now rewrite Hv|].
  destruct (String.eqb k k'); cbn [forallb snd]; [now rewrite Hv|now rewrite IH].
Qed.

Lemma set_app_serialisable k v k' v' (d : dict) :
  String.eqb k k' = false -> serialisable v' = true ->
  serialisable (PDict (Py.set k v (d ++ [(k', v')])%list))
  = serialisable (PDict (Py.set k v d)).
Proof.
  intros Hk Hv. cbn [serialisable].
  induction d as [|[k0 x] d IH]; cbn [Py.set forallb snd app].
  - rewrite Hk. cbn [Py.set forallb snd]. rewrite Hv. reflexivity.
  - destruct (String.eqb k k0); cbn [forallb snd].
    + rewrite forallb_app. cbn [forallb snd]. rewrite Hv.
      now rewrite !andb_true_r.
    + now rewrite IH.
Qed.

Lemma setdefault_serialisable k v k' v' (d : dict) :
  String.eqb k k' = false -> serialisable v' = true ->
  serialisable (PDict (Py.set k v (Py.setdefault k' v' d)))
  = serialisable (PDict (Py.set k v d)).
Proof.
  intros Hk Hv. unfold Py.setdefault. destruct (Py.mem k' d) eqn:Hm; [reflexivity|].
  rewrite (set_fresh _ _ _ Hm). now apply set_app_serialisable.
Qed.

Lemma filled_event_json lib event w :
  json_event (filled_event lib event w) = json_event event.
Proof.
  unfold json_event, filled_event. cbv zeta.
  now rewrite !setdefault_serialisable by reflexivity.
Qed.

Lemma compute_crc32_json (event : dict) :
  json_event event = true <-> is_Some (Codec.compute_crc32 event).
Proof.
  unfold json_event, Codec.compute_crc32, Codec.canonical_json_bytes, Codec.canonical_json.
  rewrite (dumps_total true).
  destruct (Codec.dumps true _); split; intros [? [=]]; eauto.
Qed.

Lemma append_event_str_key lib event key w :
  Py.get "idempotencyKey" event = Some (PStr key) ->
  let known := StateManager._load_idempotency_index (files w) !! key in
  match fst (StateManager.append_event lib event w) with
  | Ok StateManager.Deduped => is_Some known
  | Ok (StateManager.Appended _) => known = None /\ json_event event = true
  | Raise e =>
      known = None /\ json_event event = false
      /\ e = TypeError "Object is not JSON serializable"
  end.
Proof.
  intros Hk. cbv zeta. unfold StateManager.append_event. rewrite Hk.
  unfold mbind, M_bind, get_files. cbn [StateManager.key_in].
  destruct (bool_decide _) eqn:Hb.
  - cbn. now apply bool_decide_eq_true in Hb.
  - apply bool_decide_eq_false in Hb.
    assert (Hn : StateManager._load_idempotency_index (files w) !! key = None).
    { destruct (_ !! key) eqn:E; [|reflexivity]. exfalso. apply Hb. eauto. }
    unfold call_uuid4_hex, StateManager.utc_now, mbind, M_bind, call_now, mret, M_ret.
    cbn [bump files uuid4_hex uuid_v7 clock calls].
    change (Py.setdefault "at" _ _) with (filled_event lib event w).
    pose proof (compute_crc32_json (filled_event lib event w)) as Hc.
    rewrite filled_event_json in Hc.
    destruct (Codec.compute_crc32 _) as [crc|].
    + assert (Hj : json_event event = true) by (apply Hc; eauto).
      assert (Hs : serialisable (PDict (Py.set "crc32" (PStr crc) (filled_event lib event w)))
                   = true).
      { rewrite (set_serialisable_value _ _ (PStr "")) by reflexivity.
        fold (json_event (filled_event lib event w)). now rewrite filled_event_json. }
      apply (dumps_total false) in Hs as [text Ht]. rewrite Ht. split; [exact Hn|exact Hj].
    + cbn [fst]. split; [exact Hn|]. split; [|reflexivity].
      destruct (json_event event); [|reflexivity].
      destruct (proj1 Hc eq_refl) as [? [=]].
Qed.

(** ** Worker timeouts *)

Lemma build_event_declared cfg etype task_id run payload causation key :
  serialisable payload = true -> serialisable causation = true ->
  exists e,
    Orchestrator._build_event cfg
      [("etype", PStr etype); ("task_id", Reducer.of_opt task_id);
       ("run_id_str", Reducer.of_opt run); ("payload", payload);
       ("causation_id", causation); ("idempotency_key", PStr key)] = Ok e
    /\ Py.get "idempotencyKey" e = Some (PStr key)
    /\ json_event e = true
    /\ Py.get "eventId" e = None.
Proof.
  intros Hp Hc. unfold Orchestrator._build_event, json_event.
  cbn [Orchestrator.keyword_only List.find existsb app map fst snd String.eqb Ascii.eqb
       Bool.eqb negb orb andb forallb Py.mem Py.get List.filter mbind result_bind
       mret result_ret Reducer.of_get].
  destruct task_id as [t|], run as [r|], (Orchestrator.session_label cfg) as [l|];
    cbn [Reducer.of_opt Py.truthy Reducer.nonempty];
    repeat match goal with
           | |- context [negb (String.eqb ?x "")] => destruct (String.eqb x "")
           end;
    cbn [negb]; destruct (Py.truthy causation);
    (eexists; split; [reflexivity|]);
    cbn [Py.set Py.get String.eqb Ascii.eqb Bool.eqb serialisable forallb snd];
    rewrite ?Hp, ?Hc; auto.
Qed.

Lemma append_recorded lib e key w :
  Py.get "idempotencyKey" e = Some (PStr key) -> json_event e = true ->
  fst (Orchestrator.append lib e w) = Ok tt
  /\ forall k, recorded k (snd (Orchestrator.append lib e w))
               <-> recorded k w \/ k = key.
Proof.
  intros Hk Hj. unfold Orchestrator.append, mbind, M_bind, mret, M_ret.
  pose proof (append_event_str_key lib e key w Hk) as Ho. cbv zeta in Ho.
  pose proof (append_event_files lib e w) as Hf.
  pose proof (fun k => append_event_recorded_stays lib e w k) as Hs.
  pose proof (fun r w' => append_event_records lib e w r w' key) as Hr.
  destruct (StateManager.append_event lib e w) as [[r|ex] w1]; cbn [fst snd] in *.
  - split; [reflexivity|]. intros k. split.
    + destruct Hf as [Hf|(key' & crc & text & Hk' & _ & _ & _ & Hf)].
      * unfold recorded. rewrite Hf. auto.
      * unfold recorded. rewrite Hf.
        unfold StateManager._load_idempotency_index at 1. cbn [idempotency_index].
        rewrite Hk in Hk'. injection Hk' as <-. cbn [StateManager.index_key].
        intros H. apply lookup_insert_is_Some' in H as [->|H]; auto.
    + intros [H| ->]; [now apply Hs|]. now apply (Hr r w1).
  - destruct Ho as (_ & Ho & _). congruence.
Qed.

Lemma fail_timed_out_recorded lib cfg t r w :
  fst (Orchestrator.fail_timed_out lib cfg (t, r) w) = Ok tt
  /\ forall k, recorded k (snd (Orchestrator.fail_timed_out lib cfg (t, r) w))
               <-> recorded k w \/ k = fst (timeout_keys cfg t r)
                   \/ k = snd (timeout_keys cfg t r).
Proof.
  unfold Orchestrator.fail_timed_out, timeout_keys. cbn [fst snd].
  destruct (build_event_declared cfg "WORKER_RUN_FAILED" t r
              (PDict [("reason", PStr "worker_timeout")]) PNone
              (Orchestrator.project cfg +:+ ":" +:+ Orchestrator.fmt t +:+ ":"
               +:+ Orchestrator.fmt r +:+ ":WORKER_RUN_FAILED:timeout")
              eq_refl eq_refl) as (e1 & -> & Hk1 & Hj1 & Hid).
  unfold mbind, M_bind, Orchestrator.lift. cbv beta iota.
  destruct (append_recorded lib e1 _ w Hk1 Hj1) as [Ha1 Hr1].
  destruct (Orchestrator.append lib e1 w) as [[[]|ex] w1]; cbn [fst snd] in *;
    [|discriminate].
  rewrite Hid. cbn [Reducer.of_get].
  destruct (build_event_declared cfg "RUN_CLOSED" t r
              (PDict [("closeReason", PStr "worker_timeout")]) PNone
              (Orchestrator.project cfg +:+ ":" +:+ Orchestrator.fmt t +:+ ":"
               +:+ Orchestrator.fmt r +:+ ":RUN_CLOSED:timeout")
              eq_refl eq_refl) as (e2 & -> & Hk2 & Hj2 & _).
  destruct (append_recorded lib e2 _ w1 Hk2 Hj2) as [Ha2 Hr2].
  split; [exact Ha2|]. intros k.
  etransitivity; [exact (Hr2 k)|]. rewrite Hr1. tauto.
Qed.

Lemma fail_all_recorded lib cfg runs : forall w,
  fst (for_each (Orchestrator.fail_timed_out lib cfg) runs w) = Ok tt
  /\ forall k, recorded k (snd (for_each (Orchestrator.fail_timed_out lib cfg) runs w))
               <-> recorded k w
                   \/ exists t r, (t, r) ∈ runs
                        /\ (k = fst (timeout_keys cfg t r)
                            \/ k = snd (timeout_keys cfg t r)).
Proof.
  induction runs as [|[t r] runs IH]; intros w.
  - split; [reflexivity|]. intros k. cbn [for_each snd mret M_ret]. split; [auto|].
    intros [H|(t & r & H & _)]; [exact H|]. now apply elem_of_nil in H.
  - cbn [for_each]. unfold mbind, M_bind.
    destruct (fail_timed_out_recorded lib cfg t r w) as [Ha Hr].
    destruct (Orchestrator.fail_timed_out lib cfg (t, r) w) as [[[]|ex] w1];
      cbn [fst snd] in *; [|discriminate].
    destruct (IH w1) as [Hb Hr']. split; [exact Hb|].
    intros k. rewrite Hr', Hr. split.
    + intros [[H|H]|(t' & r' & Hin & H)]; auto.
      * right. exists t, r. split; [left|exact H].
      * right. exists t', r'. split; [now right|exact H].
    + intros [H|(t' & r' & Hin & H)]; auto.
      apply elem_of_cons in Hin as [[= -> ->]|Hin]; [auto|].
      right. eauto.
Qed.

Lemma timed_out_overdue lib cfg now s status t r :
  (t, r) ∈ flat_map (Orchestrator.timed_out_run lib cfg now s) (status_tasks status)
  <-> overdue lib cfg now (fst (Reducer.read_events s)) status t r.
Proof.
  unfold overdue. rewrite list_elem_of_In, in_flat_map. split.
  - intros (task & Hin & H). apply list_elem_of_In in Hin, H.
    destruct task as [| | | | |task| |]; cbn [Orchestrator.timed_out_run] in H;
      try (now apply elem_of_nil in H).
    destruct (Reducer.is_str (Py.get "state" task) "running") eqn:Es;
      cbn [negb orb] in H; [|now apply elem_of_nil in H].
    destruct (Reducer.nonempty (Reducer.get_str "runId" task)) eqn:En;
      cbn [negb] in H; [|now apply elem_of_nil in H].
    destruct (Orchestrator.start_time _ _ _ _) as [start|] eqn:Et;
      [|now apply elem_of_nil in H].
    destruct (Z.ltb_spec (Orchestrator.worker_timeout_minutes cfg * 60000000)
                (now - start)); [|now apply elem_of_nil in H].
    apply list_elem_of_singleton in H. injection H as -> ->.
    exists task, start. auto 10.
  - intros (task & start & Hin & <- & <- & Es & En & Et & Hlt).
    exists (PDict task). split; [now apply list_elem_of_In|].
    apply list_elem_of_In. cbn [Orchestrator.timed_out_run].
    rewrite Es, En, Et. cbn [negb orb].
    destruct (Z.ltb_spec (Orchestrator.worker_timeout_minutes cfg * 60000000)
                (now - start)); [left|lia].
Qed.

(** X25.  [_check_worker_timeouts] returns without an exception, and the
    keys the index knows afterwards are those it knew before and, for each
    task the status shows running with a run whose first recorded start is
    more than the worker timeout old at the time the clock shows, the two
    keys [<project>:<task>:<run>:WORKER_RUN_FAILED:timeout] and
    [<project>:<task>:<run>:RUN_CLOSED:timeout].  A task that is not
    running, has no run, or has no dated start in the log adds nothing. *)
Theorem check_worker_timeouts_outcome lib cfg status w :
  let now := clock w (calls w) in
  let events := fst (Reducer.read_events (files w)) in
  let w' := snd (Orchestrator._check_worker_timeouts lib cfg status w) in
  fst (Orchestrator._check_worker_timeouts lib cfg status w) = Ok tt
  /\ forall k, recorded k w'
       <-> recorded k w
           \/ exists t r, overdue lib cfg now events status t r
                /\ (k = fst (timeout_keys cfg t r) \/ k = snd (timeout_keys cfg t r)).
Proof.
  cbv zeta. unfold Orchestrator._check_worker_timeouts, mbind, M_bind, call_now, get_files.
  cbn [bump files]. fold (status_tasks status).
  destruct (fail_all_recorded lib cfg
              (flat_map (Orchestrator.timed_out_run lib cfg (clock w (calls w)) (files w))
                 (status_tasks status)) (bump w)) as [Ha Hr].
  split; [exact Ha|]. intros k. rewrite Hr.
  change (recorded k (bump w)) with (recorded k w).
  split; intros [H|(t & r & Hin & H)]; auto; right; exists t, r;
    (split; [|exact H]); now apply timed_out_overdue.
Qed.

(** A run started a day ago: the check appends the failure and the close,
    without [causationId] (the event [_build_event] returned has no
    [eventId]), and the next reduction shows the task blocked. *)
Example worker_timeout_sample :
  stored_types (files after_timeout_check)
  = [Some "WORKER_RUN_INTENT"; Some "WORKER_RUN_STARTED";
     Some "WORKER_RUN_FAILED"; Some "RUN_CLOSED"]
  /\ Forall (fun d => Py.get "causationId" d = None)
       (stored_events (files after_timeout_check))
  /\ match task_view py_lib stalled_world, task_view py_lib after_timeout_check with
     | Some (PList [PDict before]), Some (PList [PDict after]) =>
         Py.get "state" before = Some (PStr "running")
         /\ Py.get "state" after = Some (PStr "blocked")
     | _, _ => False
     end.
Proof. vm_compute. repeat split; repeat constructor. Qed.
